(** * Category-to-account resolution engine of the Wave MCP server

    A shallow embedding of [WaveClient.find_best_account_match]
    (src/mcp_server.py, lines 445-668) and of the helpers it relies on.

    Modelling conventions.
    - A Python [str] is a Rocq [string] that holds its UTF-8 bytes.  The
      operations of Python that work on code points ([str.lower],
      [str.strip], [str.split], the classes [\w], [\d], [\s] and [\b] of
      [re], and difflib) read the code points off the bytes, with the tables
      of the Unicode database of CPython 3.11.
    - A Python [float] score is an exact rational of [Q].  The only float
      operations of the function are the literals, the quotient
      [2.0 * matches / length] of difflib, comparisons and the formatting of
      a score; correct rounding is monotone, so the comparisons agree with
      the rational ones for every input whose strings are shorter than 2^25
      characters, and the formatting rounds to the double first.
    - [Optional] values are [option]; the returned 4-tuple is the record
      [MatchResult].
    - The two subscripts [words_in_account[0]] and [filtered_accounts[0]]
      can raise [IndexError]; the functions that use them live in the error
      monad [exc], and the engine is shown never to raise.
    - The dictionaries [EXPENSE_SYNONYMS] and [INCOME_SYNONYMS] are
      association lists in insertion order, the order in which Python
      iterates over them.
    - [list(set(xs))] enumerates a set of strings in an order that depends on
      the string hash of the running interpreter; it is the one operation of
      the class [SetOrder], of which only the fact that the enumeration is
      duplicate free and has the elements of [xs] is known. *)

From Stdlib Require Import Bool Arith ZArith List String Ascii DecimalString
  QArith Lia Permutation.
Import ListNotations.

Local Close Scope Q_scope.
Local Open Scope nat_scope.
Local Open Scope list_scope.
Local Open Scope string_scope.

(** ** Characters of a Python string

    A Python [str] is a sequence of Unicode code points, and [str.lower],
    [str.strip], [str.split], the classes of [re] and difflib all work on
    code points.  A string is held with its UTF-8 bytes; [chars] reads the
    code points off the bytes, and keeps with every code point the bytes it
    came from, so that a part of a string is given back byte for byte.

    The tables are those of the Unicode database 14.0.0 of CPython 3.11
    ([Objects/unicodetype_db.h]), as ranges of code points. *)

Module Unicode.

Local Open Scope N_scope.

(** A character: its code point and the bytes that hold it. *)
Record char : Type := {
  point : N;
  bytes : string
}.

Definition byte (c : ascii) : N := N_of_ascii c.

(** A byte [10xxxxxx]. *)
Definition continuation (b : N) : bool := (0x80 <=? b) && (b <=? 0xBF).

(** A byte that belongs to no well-formed sequence; no Python string has
    one.  It is kept as a character of its own, outside the code space. *)
Definition stray (c : ascii) : char :=
  {| point := 0x110000 + byte c; bytes := String c EmptyString |}.

(** The characters of a string.  A sequence of one to four bytes is read as
    in UTF-8: shortest form only, up to U+10FFFF; a lone surrogate, which a
    Python string may hold, is read from the three bytes of its code
    point. *)
Fixpoint chars (s : string) : list char :=
  match s with
  | EmptyString => []
  | String c0 r0 =>
      let b0 := byte c0 in
      if b0 <? 0x80
      then {| point := b0; bytes := String c0 EmptyString |} :: chars r0
      else
        match r0 with
        | EmptyString => [stray c0]
        | String c1 r1 =>
            let b1 := byte c1 in
            let p2 := (b0 - 0xC0) * 0x40 + (b1 - 0x80) in
            if (0xC2 <=? b0) && (b0 <=? 0xDF) && continuation b1
            then {| point := p2; bytes := String c0 (String c1 EmptyString) |}
                 :: chars r1
            else
              match r1 with
              | EmptyString => stray c0 :: chars r0
              | String c2 r2 =>
                  let b2 := byte c2 in
                  let p3 := (b0 - 0xE0) * 0x1000 + (b1 - 0x80) * 0x40
                            + (b2 - 0x80) in
                  if (0xE0 <=? b0) && (b0 <=? 0xEF) && continuation b1
                     && continuation b2 && (0x800 <=? p3)
                  then {| point := p3;
                          bytes := String c0 (String c1 (String c2 EmptyString)) |}
                       :: chars r2
                  else
                    match r2 with
                    | EmptyString => stray c0 :: chars r0
                    | String c3 r3 =>
                        let b3 := byte c3 in
                        let p4 := (b0 - 0xF0) * 0x40000 + (b1 - 0x80) * 0x1000
                                  + (b2 - 0x80) * 0x40 + (b3 - 0x80) in
                        if (0xF0 <=? b0) && (b0 <=? 0xF4) && continuation b1
                           && continuation b2 && continuation b3
                           && (0x10000 <=? p4) && (p4 <=? 0x10FFFF)
                        then {| point := p4;
                                bytes := String c0 (String c1 (String c2
                                           (String c3 EmptyString))) |}
                             :: chars r3
                        else stray c0 :: chars r0
                    end
              end
        end
  end.

(** The string of a sequence of characters. *)
Fixpoint text (cs : list char) : string :=
  match cs with
  | [] => EmptyString
  | c :: r => bytes c ++ text r
  end.

(** The code points of a string. *)
Definition points (s : string) : list N := map point (chars s).

(** The UTF-8 bytes of a code point. *)
Definition encode (n : N) : string :=
  if n <? 0x80 then String (ascii_of_N n) EmptyString
  else if n <? 0x800 then
    String (ascii_of_N (0xC0 + n / 0x40))
      (String (ascii_of_N (0x80 + n mod 0x40)) EmptyString)
  else if n <? 0x10000 then
    String (ascii_of_N (0xE0 + n / 0x1000))
      (String (ascii_of_N (0x80 + (n / 0x40) mod 0x40))
         (String (ascii_of_N (0x80 + n mod 0x40)) EmptyString))
  else
    String (ascii_of_N (0xF0 + n / 0x40000))
      (String (ascii_of_N (0x80 + (n / 0x1000) mod 0x40))
         (String (ascii_of_N (0x80 + (n / 0x40) mod 0x40))
            (String (ascii_of_N (0x80 + n mod 0x40)) EmptyString))).

(** Membership in a table of ranges [(first, last)], in ascending order. *)
Fixpoint in_ranges (n : N) (table : list (N * N)) : bool :=
  match table with
  | [] => false
  | (first, last) :: rest =>
      if n <? first then false
      else if n <=? last then true
      else in_ranges n rest
  end.

(** [Py_UNICODE_ISSPACE]: [str.isspace], the white space of [str.strip] and
    [str.split], and the class [\s]. *)
Definition white_space_table : list (N * N) :=
  [ (0x9, 0xD); (0x1C, 0x20); (0x85, 0x85); (0xA0, 0xA0); (0x1680, 0x1680);
    (0x2000, 0x200A); (0x2028, 0x2029); (0x202F, 0x202F); (0x205F, 0x205F);
    (0x3000, 0x3000) ].

(** [Py_UNICODE_ISDECIMAL]: the class [\d]. *)
Definition decimal_table : list (N * N) :=
  [ (0x30, 0x39); (0x660, 0x669); (0x6F0, 0x6F9); (0x7C0, 0x7C9);
    (0x966, 0x96F); (0x9E6, 0x9EF); (0xA66, 0xA6F); (0xAE6, 0xAEF);
    (0xB66, 0xB6F); (0xBE6, 0xBEF); (0xC66, 0xC6F); (0xCE6, 0xCEF);
    (0xD66, 0xD6F); (0xDE6, 0xDEF); (0xE50, 0xE59); (0xED0, 0xED9);
    (0xF20, 0xF29); (0x1040, 0x1049); (0x1090, 0x1099); (0x17E0, 0x17E9);
    (0x1810, 0x1819); (0x1946, 0x194F); (0x19D0, 0x19D9); (0x1A80, 0x1A89);
    (0x1A90, 0x1A99); (0x1B50, 0x1B59); (0x1BB0, 0x1BB9); (0x1C40, 0x1C49);
    (0x1C50, 0x1C59); (0xA620, 0xA629); (0xA8D0, 0xA8D9); (0xA900, 0xA909);
    (0xA9D0, 0xA9D9); (0xA9F0, 0xA9F9); (0xAA50, 0xAA59); (0xABF0, 0xABF9);
    (0xFF10, 0xFF19); (0x104A0, 0x104A9); (0x10D30, 0x10D39);
    (0x11066, 0x1106F); (0x110F0, 0x110F9); (0x11136, 0x1113F);
    (0x111D0, 0x111D9); (0x112F0, 0x112F9); (0x11450, 0x11459);
    (0x114D0, 0x114D9); (0x11650, 0x11659); (0x116C0, 0x116C9);
    (0x11730, 0x11739); (0x118E0, 0x118E9); (0x11950, 0x11959);
    (0x11C50, 0x11C59); (0x11D50, 0x11D59); (0x11DA0, 0x11DA9);
    (0x16A60, 0x16A69); (0x16AC0, 0x16AC9); (0x16B50, 0x16B59);
    (0x1D7CE, 0x1D7FF); (0x1E140, 0x1E149); (0x1E2F0, 0x1E2F9);
    (0x1E950, 0x1E959); (0x1FBF0, 0x1FBF9) ].

(** [Py_UNICODE_ISALNUM] and the underscore: the class [\w]. *)
Definition word_table : list (N * N) :=
  [ (0x30, 0x39); (0x41, 0x5A); (0x5F, 0x5F); (0x61, 0x7A); (0xAA, 0xAA);
    (0xB2, 0xB3); (0xB5, 0xB5); (0xB9, 0xBA); (0xBC, 0xBE); (0xC0, 0xD6);
    (0xD8, 0xF6); (0xF8, 0x2C1); (0x2C6, 0x2D1); (0x2E0, 0x2E4);
    (0x2EC, 0x2EC); (0x2EE, 0x2EE); (0x370, 0x374); (0x376, 0x377);
    (0x37A, 0x37D); (0x37F, 0x37F); (0x386, 0x386); (0x388, 0x38A);
    (0x38C, 0x38C); (0x38E, 0x3A1); (0x3A3, 0x3F5); (0x3F7, 0x481);
    (0x48A, 0x52F); (0x531, 0x556); (0x559, 0x559); (0x560, 0x588);
    (0x5D0, 0x5EA); (0x5EF, 0x5F2); (0x620, 0x64A); (0x660, 0x669);
    (0x66E, 0x66F); (0x671, 0x6D3); (0x6D5, 0x6D5); (0x6E5, 0x6E6);
    (0x6EE, 0x6FC); (0x6FF, 0x6FF); (0x710, 0x710); (0x712, 0x72F);
    (0x74D, 0x7A5); (0x7B1, 0x7B1); (0x7C0, 0x7EA); (0x7F4, 0x7F5);
    (0x7FA, 0x7FA); (0x800, 0x815); (0x81A, 0x81A); (0x824, 0x824);
    (0x828, 0x828); (0x840, 0x858); (0x860, 0x86A); (0x870, 0x887);
    (0x889, 0x88E); (0x8A0, 0x8C9); (0x904, 0x939); (0x93D, 0x93D);
    (0x950, 0x950); (0x958, 0x961); (0x966, 0x96F); (0x971, 0x980);
    (0x985, 0x98C); (0x98F, 0x990); (0x993, 0x9A8); (0x9AA, 0x9B0);
    (0x9B2, 0x9B2); (0x9B6, 0x9B9); (0x9BD, 0x9BD); (0x9CE, 0x9CE);
    (0x9DC, 0x9DD); (0x9DF, 0x9E1); (0x9E6, 0x9F1); (0x9F4, 0x9F9);
    (0x9FC, 0x9FC); (0xA05, 0xA0A); (0xA0F, 0xA10); (0xA13, 0xA28);
    (0xA2A, 0xA30); (0xA32, 0xA33); (0xA35, 0xA36); (0xA38, 0xA39);
    (0xA59, 0xA5C); (0xA5E, 0xA5E); (0xA66, 0xA6F); (0xA72, 0xA74);
    (0xA85, 0xA8D); (0xA8F, 0xA91); (0xA93, 0xAA8); (0xAAA, 0xAB0);
    (0xAB2, 0xAB3); (0xAB5, 0xAB9); (0xABD, 0xABD); (0xAD0, 0xAD0);
    (0xAE0, 0xAE1); (0xAE6, 0xAEF); (0xAF9, 0xAF9); (0xB05, 0xB0C);
    (0xB0F, 0xB10); (0xB13, 0xB28); (0xB2A, 0xB30); (0xB32, 0xB33);
    (0xB35, 0xB39); (0xB3D, 0xB3D); (0xB5C, 0xB5D); (0xB5F, 0xB61);
    (0xB66, 0xB6F); (0xB71, 0xB77); (0xB83, 0xB83); (0xB85, 0xB8A);
    (0xB8E, 0xB90); (0xB92, 0xB95); (0xB99, 0xB9A); (0xB9C, 0xB9C);
    (0xB9E, 0xB9F); (0xBA3, 0xBA4); (0xBA8, 0xBAA); (0xBAE, 0xBB9);
    (0xBD0, 0xBD0); (0xBE6, 0xBF2); (0xC05, 0xC0C); (0xC0E, 0xC10);
    (0xC12, 0xC28); (0xC2A, 0xC39); (0xC3D, 0xC3D); (0xC58, 0xC5A);
    (0xC5D, 0xC5D); (0xC60, 0xC61); (0xC66, 0xC6F); (0xC78, 0xC7E);
    (0xC80, 0xC80); (0xC85, 0xC8C); (0xC8E, 0xC90); (0xC92, 0xCA8);
    (0xCAA, 0xCB3); (0xCB5, 0xCB9); (0xCBD, 0xCBD); (0xCDD, 0xCDE);
    (0xCE0, 0xCE1); (0xCE6, 0xCEF); (0xCF1, 0xCF2); (0xD04, 0xD0C);
    (0xD0E, 0xD10); (0xD12, 0xD3A); (0xD3D, 0xD3D); (0xD4E, 0xD4E);
    (0xD54, 0xD56); (0xD58, 0xD61); (0xD66, 0xD78); (0xD7A, 0xD7F);
    (0xD85, 0xD96); (0xD9A, 0xDB1); (0xDB3, 0xDBB); (0xDBD, 0xDBD);
    (0xDC0, 0xDC6); (0xDE6, 0xDEF); (0xE01, 0xE30); (0xE32, 0xE33);
    (0xE40, 0xE46); (0xE50, 0xE59); (0xE81, 0xE82); (0xE84, 0xE84);
    (0xE86, 0xE8A); (0xE8C, 0xEA3); (0xEA5, 0xEA5); (0xEA7, 0xEB0);
    (0xEB2, 0xEB3); (0xEBD, 0xEBD); (0xEC0, 0xEC4); (0xEC6, 0xEC6);
    (0xED0, 0xED9); (0xEDC, 0xEDF); (0xF00, 0xF00); (0xF20, 0xF33);
    (0xF40, 0xF47); (0xF49, 0xF6C); (0xF88, 0xF8C); (0x1000, 0x102A);
    (0x103F, 0x1049); (0x1050, 0x1055); (0x105A, 0x105D); (0x1061, 0x1061);
    (0x1065, 0x1066); (0x106E, 0x1070); (0x1075, 0x1081); (0x108E, 0x108E);
    (0x1090, 0x1099); (0x10A0, 0x10C5); (0x10C7, 0x10C7); (0x10CD, 0x10CD);
    (0x10D0, 0x10FA); (0x10FC, 0x1248); (0x124A, 0x124D); (0x1250, 0x1256);
    (0x1258, 0x1258); (0x125A, 0x125D); (0x1260, 0x1288); (0x128A, 0x128D);
    (0x1290, 0x12B0); (0x12B2, 0x12B5); (0x12B8, 0x12BE); (0x12C0, 0x12C0);
    (0x12C2, 0x12C5); (0x12C8, 0x12D6); (0x12D8, 0x1310); (0x1312, 0x1315);
    (0x1318, 0x135A); (0x1369, 0x137C); (0x1380, 0x138F); (0x13A0, 0x13F5);
    (0x13F8, 0x13FD); (0x1401, 0x166C); (0x166F, 0x167F); (0x1681, 0x169A);
    (0x16A0, 0x16EA); (0x16EE, 0x16F8); (0x1700, 0x1711); (0x171F, 0x1731);
    (0x1740, 0x1751); (0x1760, 0x176C); (0x176E, 0x1770); (0x1780, 0x17B3);
    (0x17D7, 0x17D7); (0x17DC, 0x17DC); (0x17E0, 0x17E9); (0x17F0, 0x17F9);
    (0x1810, 0x1819); (0x1820, 0x1878); (0x1880, 0x1884); (0x1887, 0x18A8);
    (0x18AA, 0x18AA); (0x18B0, 0x18F5); (0x1900, 0x191E); (0x1946, 0x196D);
    (0x1970, 0x1974); (0x1980, 0x19AB); (0x19B0, 0x19C9); (0x19D0, 0x19DA);
    (0x1A00, 0x1A16); (0x1A20, 0x1A54); (0x1A80, 0x1A89); (0x1A90, 0x1A99);
    (0x1AA7, 0x1AA7); (0x1B05, 0x1B33); (0x1B45, 0x1B4C); (0x1B50, 0x1B59);
    (0x1B83, 0x1BA0); (0x1BAE, 0x1BE5); (0x1C00, 0x1C23); (0x1C40, 0x1C49);
    (0x1C4D, 0x1C7D); (0x1C80, 0x1C88); (0x1C90, 0x1CBA); (0x1CBD, 0x1CBF);
    (0x1CE9, 0x1CEC); (0x1CEE, 0x1CF3); (0x1CF5, 0x1CF6); (0x1CFA, 0x1CFA);
    (0x1D00, 0x1DBF); (0x1E00, 0x1F15); (0x1F18, 0x1F1D); (0x1F20, 0x1F45);
    (0x1F48, 0x1F4D); (0x1F50, 0x1F57); (0x1F59, 0x1F59); (0x1F5B, 0x1F5B);
    (0x1F5D, 0x1F5D); (0x1F5F, 0x1F7D); (0x1F80, 0x1FB4); (0x1FB6, 0x1FBC);
    (0x1FBE, 0x1FBE); (0x1FC2, 0x1FC4); (0x1FC6, 0x1FCC); (0x1FD0, 0x1FD3);
    (0x1FD6, 0x1FDB); (0x1FE0, 0x1FEC); (0x1FF2, 0x1FF4); (0x1FF6, 0x1FFC);
    (0x2070, 0x2071); (0x2074, 0x2079); (0x207F, 0x2089); (0x2090, 0x209C);
    (0x2102, 0x2102); (0x2107, 0x2107); (0x210A, 0x2113); (0x2115, 0x2115);
    (0x2119, 0x211D); (0x2124, 0x2124); (0x2126, 0x2126); (0x2128, 0x2128);
    (0x212A, 0x212D); (0x212F, 0x2139); (0x213C, 0x213F); (0x2145, 0x2149);
    (0x214E, 0x214E); (0x2150, 0x2189); (0x2460, 0x249B); (0x24EA, 0x24FF);
    (0x2776, 0x2793); (0x2C00, 0x2CE4); (0x2CEB, 0x2CEE); (0x2CF2, 0x2CF3);
    (0x2CFD, 0x2CFD); (0x2D00, 0x2D25); (0x2D27, 0x2D27); (0x2D2D, 0x2D2D);
    (0x2D30, 0x2D67); (0x2D6F, 0x2D6F); (0x2D80, 0x2D96); (0x2DA0, 0x2DA6);
    (0x2DA8, 0x2DAE); (0x2DB0, 0x2DB6); (0x2DB8, 0x2DBE); (0x2DC0, 0x2DC6);
    (0x2DC8, 0x2DCE); (0x2DD0, 0x2DD6); (0x2DD8, 0x2DDE); (0x2E2F, 0x2E2F);
    (0x3005, 0x3007); (0x3021, 0x3029); (0x3031, 0x3035); (0x3038, 0x303C);
    (0x3041, 0x3096); (0x309D, 0x309F); (0x30A1, 0x30FA); (0x30FC, 0x30FF);
    (0x3105, 0x312F); (0x3131, 0x318E); (0x3192, 0x3195); (0x31A0, 0x31BF);
    (0x31F0, 0x31FF); (0x3220, 0x3229); (0x3248, 0x324F); (0x3251, 0x325F);
    (0x3280, 0x3289); (0x32B1, 0x32BF); (0x3400, 0x4DBF); (0x4E00, 0xA48C);
    (0xA4D0, 0xA4FD); (0xA500, 0xA60C); (0xA610, 0xA62B); (0xA640, 0xA66E);
    (0xA67F, 0xA69D); (0xA6A0, 0xA6EF); (0xA717, 0xA71F); (0xA722, 0xA788);
    (0xA78B, 0xA7CA); (0xA7D0, 0xA7D1); (0xA7D3, 0xA7D3); (0xA7D5, 0xA7D9);
    (0xA7F2, 0xA801); (0xA803, 0xA805); (0xA807, 0xA80A); (0xA80C, 0xA822);
    (0xA830, 0xA835); (0xA840, 0xA873); (0xA882, 0xA8B3); (0xA8D0, 0xA8D9);
    (0xA8F2, 0xA8F7); (0xA8FB, 0xA8FB); (0xA8FD, 0xA8FE); (0xA900, 0xA925);
    (0xA930, 0xA946); (0xA960, 0xA97C); (0xA984, 0xA9B2); (0xA9CF, 0xA9D9);
    (0xA9E0, 0xA9E4); (0xA9E6, 0xA9FE); (0xAA00, 0xAA28); (0xAA40, 0xAA42);
    (0xAA44, 0xAA4B); (0xAA50, 0xAA59); (0xAA60, 0xAA76); (0xAA7A, 0xAA7A);
    (0xAA7E, 0xAAAF); (0xAAB1, 0xAAB1); (0xAAB5, 0xAAB6); (0xAAB9, 0xAABD);
    (0xAAC0, 0xAAC0); (0xAAC2, 0xAAC2); (0xAADB, 0xAADD); (0xAAE0, 0xAAEA);
    (0xAAF2, 0xAAF4); (0xAB01, 0xAB06); (0xAB09, 0xAB0E); (0xAB11, 0xAB16);
    (0xAB20, 0xAB26); (0xAB28, 0xAB2E); (0xAB30, 0xAB5A); (0xAB5C, 0xAB69);
    (0xAB70, 0xABE2); (0xABF0, 0xABF9); (0xAC00, 0xD7A3); (0xD7B0, 0xD7C6);
    (0xD7CB, 0xD7FB); (0xF900, 0xFA6D); (0xFA70, 0xFAD9); (0xFB00, 0xFB06);
    (0xFB13, 0xFB17); (0xFB1D, 0xFB1D); (0xFB1F, 0xFB28); (0xFB2A, 0xFB36);
    (0xFB38, 0xFB3C); (0xFB3E, 0xFB3E); (0xFB40, 0xFB41); (0xFB43, 0xFB44);
    (0xFB46, 0xFBB1); (0xFBD3, 0xFD3D); (0xFD50, 0xFD8F); (0xFD92, 0xFDC7);
    (0xFDF0, 0xFDFB); (0xFE70, 0xFE74); (0xFE76, 0xFEFC); (0xFF10, 0xFF19);
    (0xFF21, 0xFF3A); (0xFF41, 0xFF5A); (0xFF66, 0xFFBE); (0xFFC2, 0xFFC7);
    (0xFFCA, 0xFFCF); (0xFFD2, 0xFFD7); (0xFFDA, 0xFFDC); (0x10000, 0x1000B);
    (0x1000D, 0x10026); (0x10028, 0x1003A); (0x1003C, 0x1003D);
    (0x1003F, 0x1004D); (0x10050, 0x1005D); (0x10080, 0x100FA);
    (0x10107, 0x10133); (0x10140, 0x10178); (0x1018A, 0x1018B);
    (0x10280, 0x1029C); (0x102A0, 0x102D0); (0x102E1, 0x102FB);
    (0x10300, 0x10323); (0x1032D, 0x1034A); (0x10350, 0x10375);
    (0x10380, 0x1039D); (0x103A0, 0x103C3); (0x103C8, 0x103CF);
    (0x103D1, 0x103D5); (0x10400, 0x1049D); (0x104A0, 0x104A9);
    (0x104B0, 0x104D3); (0x104D8, 0x104FB); (0x10500, 0x10527);
    (0x10530, 0x10563); (0x10570, 0x1057A); (0x1057C, 0x1058A);
    (0x1058C, 0x10592); (0x10594, 0x10595); (0x10597, 0x105A1);
    (0x105A3, 0x105B1); (0x105B3, 0x105B9); (0x105BB, 0x105BC);
    (0x10600, 0x10736); (0x10740, 0x10755); (0x10760, 0x10767);
    (0x10780, 0x10785); (0x10787, 0x107B0); (0x107B2, 0x107BA);
    (0x10800, 0x10805); (0x10808, 0x10808); (0x1080A, 0x10835);
    (0x10837, 0x10838); (0x1083C, 0x1083C); (0x1083F, 0x10855);
    (0x10858, 0x10876); (0x10879, 0x1089E); (0x108A7, 0x108AF);
    (0x108E0, 0x108F2); (0x108F4, 0x108F5); (0x108FB, 0x1091B);
    (0x10920, 0x10939); (0x10980, 0x109B7); (0x109BC, 0x109CF);
    (0x109D2, 0x10A00); (0x10A10, 0x10A13); (0x10A15, 0x10A17);
    (0x10A19, 0x10A35); (0x10A40, 0x10A48); (0x10A60, 0x10A7E);
    (0x10A80, 0x10A9F); (0x10AC0, 0x10AC7); (0x10AC9, 0x10AE4);
    (0x10AEB, 0x10AEF); (0x10B00, 0x10B35); (0x10B40, 0x10B55);
    (0x10B58, 0x10B72); (0x10B78, 0x10B91); (0x10BA9, 0x10BAF);
    (0x10C00, 0x10C48); (0x10C80, 0x10CB2); (0x10CC0, 0x10CF2);
    (0x10CFA, 0x10D23); (0x10D30, 0x10D39); (0x10E60, 0x10E7E);
    (0x10E80, 0x10EA9); (0x10EB0, 0x10EB1); (0x10F00, 0x10F27);
    (0x10F30, 0x10F45); (0x10F51, 0x10F54); (0x10F70, 0x10F81);
    (0x10FB0, 0x10FCB); (0x10FE0, 0x10FF6); (0x11003, 0x11037);
    (0x11052, 0x1106F); (0x11071, 0x11072); (0x11075, 0x11075);
    (0x11083, 0x110AF); (0x110D0, 0x110E8); (0x110F0, 0x110F9);
    (0x11103, 0x11126); (0x11136, 0x1113F); (0x11144, 0x11144);
    (0x11147, 0x11147); (0x11150, 0x11172); (0x11176, 0x11176);
    (0x11183, 0x111B2); (0x111C1, 0x111C4); (0x111D0, 0x111DA);
    (0x111DC, 0x111DC); (0x111E1, 0x111F4); (0x11200, 0x11211);
    (0x11213, 0x1122B); (0x11280, 0x11286); (0x11288, 0x11288);
    (0x1128A, 0x1128D); (0x1128F, 0x1129D); (0x1129F, 0x112A8);
    (0x112B0, 0x112DE); (0x112F0, 0x112F9); (0x11305, 0x1130C);
    (0x1130F, 0x11310); (0x11313, 0x11328); (0x1132A, 0x11330);
    (0x11332, 0x11333); (0x11335, 0x11339); (0x1133D, 0x1133D);
    (0x11350, 0x11350); (0x1135D, 0x11361); (0x11400, 0x11434);
    (0x11447, 0x1144A); (0x11450, 0x11459); (0x1145F, 0x11461);
    (0x11480, 0x114AF); (0x114C4, 0x114C5); (0x114C7, 0x114C7);
    (0x114D0, 0x114D9); (0x11580, 0x115AE); (0x115D8, 0x115DB);
    (0x11600, 0x1162F); (0x11644, 0x11644); (0x11650, 0x11659);
    (0x11680, 0x116AA); (0x116B8, 0x116B8); (0x116C0, 0x116C9);
    (0x11700, 0x1171A); (0x11730, 0x1173B); (0x11740, 0x11746);
    (0x11800, 0x1182B); (0x118A0, 0x118F2); (0x118FF, 0x11906);
    (0x11909, 0x11909); (0x1190C, 0x11913); (0x11915, 0x11916);
    (0x11918, 0x1192F); (0x1193F, 0x1193F); (0x11941, 0x11941);
    (0x11950, 0x11959); (0x119A0, 0x119A7); (0x119AA, 0x119D0);
    (0x119E1, 0x119E1); (0x119E3, 0x119E3); (0x11A00, 0x11A00);
    (0x11A0B, 0x11A32); (0x11A3A, 0x11A3A); (0x11A50, 0x11A50);
    (0x11A5C, 0x11A89); (0x11A9D, 0x11A9D); (0x11AB0, 0x11AF8);
    (0x11C00, 0x11C08); (0x11C0A, 0x11C2E); (0x11C40, 0x11C40);
    (0x11C50, 0x11C6C); (0x11C72, 0x11C8F); (0x11D00, 0x11D06);
    (0x11D08, 0x11D09); (0x11D0B, 0x11D30); (0x11D46, 0x11D46);
    (0x11D50, 0x11D59); (0x11D60, 0x11D65); (0x11D67, 0x11D68);
    (0x11D6A, 0x11D89); (0x11D98, 0x11D98); (0x11DA0, 0x11DA9);
    (0x11EE0, 0x11EF2); (0x11FB0, 0x11FB0); (0x11FC0, 0x11FD4);
    (0x12000, 0x12399); (0x12400, 0x1246E); (0x12480, 0x12543);
    (0x12F90, 0x12FF0); (0x13000, 0x1342E); (0x14400, 0x14646);
    (0x16800, 0x16A38); (0x16A40, 0x16A5E); (0x16A60, 0x16A69);
    (0x16A70, 0x16ABE); (0x16AC0, 0x16AC9); (0x16AD0, 0x16AED);
    (0x16B00, 0x16B2F); (0x16B40, 0x16B43); (0x16B50, 0x16B59);
    (0x16B5B, 0x16B61); (0x16B63, 0x16B77); (0x16B7D, 0x16B8F);
    (0x16E40, 0x16E96); (0x16F00, 0x16F4A); (0x16F50, 0x16F50);
    (0x16F93, 0x16F9F); (0x16FE0, 0x16FE1); (0x16FE3, 0x16FE3);
    (0x17000, 0x187F7); (0x18800, 0x18CD5); (0x18D00, 0x18D08);
    (0x1AFF0, 0x1AFF3); (0x1AFF5, 0x1AFFB); (0x1AFFD, 0x1AFFE);
    (0x1B000, 0x1B122); (0x1B150, 0x1B152); (0x1B164, 0x1B167);
    (0x1B170, 0x1B2FB); (0x1BC00, 0x1BC6A); (0x1BC70, 0x1BC7C);
    (0x1BC80, 0x1BC88); (0x1BC90, 0x1BC99); (0x1D2E0, 0x1D2F3);
    (0x1D360, 0x1D378); (0x1D400, 0x1D454); (0x1D456, 0x1D49C);
    (0x1D49E, 0x1D49F); (0x1D4A2, 0x1D4A2); (0x1D4A5, 0x1D4A6);
    (0x1D4A9, 0x1D4AC); (0x1D4AE, 0x1D4B9); (0x1D4BB, 0x1D4BB);
    (0x1D4BD, 0x1D4C3); (0x1D4C5, 0x1D505); (0x1D507, 0x1D50A);
    (0x1D50D, 0x1D514); (0x1D516, 0x1D51C); (0x1D51E, 0x1D539);
    (0x1D53B, 0x1D53E); (0x1D540, 0x1D544); (0x1D546, 0x1D546);
    (0x1D54A, 0x1D550); (0x1D552, 0x1D6A5); (0x1D6A8, 0x1D6C0);
    (0x1D6C2, 0x1D6DA); (0x1D6DC, 0x1D6FA); (0x1D6FC, 0x1D714);
    (0x1D716, 0x1D734); (0x1D736, 0x1D74E); (0x1D750, 0x1D76E);
    (0x1D770, 0x1D788); (0x1D78A, 0x1D7A8); (0x1D7AA, 0x1D7C2);
    (0x1D7C4, 0x1D7CB); (0x1D7CE, 0x1D7FF); (0x1DF00, 0x1DF1E);
    (0x1E100, 0x1E12C); (0x1E137, 0x1E13D); (0x1E140, 0x1E149);
    (0x1E14E, 0x1E14E); (0x1E290, 0x1E2AD); (0x1E2C0, 0x1E2EB);
    (0x1E2F0, 0x1E2F9); (0x1E7E0, 0x1E7E6); (0x1E7E8, 0x1E7EB);
    (0x1E7ED, 0x1E7EE); (0x1E7F0, 0x1E7FE); (0x1E800, 0x1E8C4);
    (0x1E8C7, 0x1E8CF); (0x1E900, 0x1E943); (0x1E94B, 0x1E94B);
    (0x1E950, 0x1E959); (0x1EC71, 0x1ECAB); (0x1ECAD, 0x1ECAF);
    (0x1ECB1, 0x1ECB4); (0x1ED01, 0x1ED2D); (0x1ED2F, 0x1ED3D);
    (0x1EE00, 0x1EE03); (0x1EE05, 0x1EE1F); (0x1EE21, 0x1EE22);
    (0x1EE24, 0x1EE24); (0x1EE27, 0x1EE27); (0x1EE29, 0x1EE32);
    (0x1EE34, 0x1EE37); (0x1EE39, 0x1EE39); (0x1EE3B, 0x1EE3B);
    (0x1EE42, 0x1EE42); (0x1EE47, 0x1EE47); (0x1EE49, 0x1EE49);
    (0x1EE4B, 0x1EE4B); (0x1EE4D, 0x1EE4F); (0x1EE51, 0x1EE52);
    (0x1EE54, 0x1EE54); (0x1EE57, 0x1EE57); (0x1EE59, 0x1EE59);
    (0x1EE5B, 0x1EE5B); (0x1EE5D, 0x1EE5D); (0x1EE5F, 0x1EE5F);
    (0x1EE61, 0x1EE62); (0x1EE64, 0x1EE64); (0x1EE67, 0x1EE6A);
    (0x1EE6C, 0x1EE72); (0x1EE74, 0x1EE77); (0x1EE79, 0x1EE7C);
    (0x1EE7E, 0x1EE7E); (0x1EE80, 0x1EE89); (0x1EE8B, 0x1EE9B);
    (0x1EEA1, 0x1EEA3); (0x1EEA5, 0x1EEA9); (0x1EEAB, 0x1EEBB);
    (0x1F100, 0x1F10C); (0x1FBF0, 0x1FBF9); (0x20000, 0x2A6DF);
    (0x2A700, 0x2B738); (0x2B740, 0x2B81D); (0x2B820, 0x2CEA1);
    (0x2CEB0, 0x2EBE0); (0x2F800, 0x2FA1D); (0x30000, 0x3134A) ].

(** The property Cased ([_PyUnicode_IsCased]). *)
Definition cased_table : list (N * N) :=
  [ (0x41, 0x5A); (0x61, 0x7A); (0xAA, 0xAA); (0xB5, 0xB5); (0xBA, 0xBA);
    (0xC0, 0xD6); (0xD8, 0xF6); (0xF8, 0x1BA); (0x1BC, 0x1BF);
    (0x1C4, 0x293); (0x295, 0x2B8); (0x2C0, 0x2C1); (0x2E0, 0x2E4);
    (0x345, 0x345); (0x370, 0x373); (0x376, 0x377); (0x37A, 0x37D);
    (0x37F, 0x37F); (0x386, 0x386); (0x388, 0x38A); (0x38C, 0x38C);
    (0x38E, 0x3A1); (0x3A3, 0x3F5); (0x3F7, 0x481); (0x48A, 0x52F);
    (0x531, 0x556); (0x560, 0x588); (0x10A0, 0x10C5); (0x10C7, 0x10C7);
    (0x10CD, 0x10CD); (0x10D0, 0x10FA); (0x10FD, 0x10FF); (0x13A0, 0x13F5);
    (0x13F8, 0x13FD); (0x1C80, 0x1C88); (0x1C90, 0x1CBA); (0x1CBD, 0x1CBF);
    (0x1D00, 0x1DBF); (0x1E00, 0x1F15); (0x1F18, 0x1F1D); (0x1F20, 0x1F45);
    (0x1F48, 0x1F4D); (0x1F50, 0x1F57); (0x1F59, 0x1F59); (0x1F5B, 0x1F5B);
    (0x1F5D, 0x1F5D); (0x1F5F, 0x1F7D); (0x1F80, 0x1FB4); (0x1FB6, 0x1FBC);
    (0x1FBE, 0x1FBE); (0x1FC2, 0x1FC4); (0x1FC6, 0x1FCC); (0x1FD0, 0x1FD3);
    (0x1FD6, 0x1FDB); (0x1FE0, 0x1FEC); (0x1FF2, 0x1FF4); (0x1FF6, 0x1FFC);
    (0x2071, 0x2071); (0x207F, 0x207F); (0x2090, 0x209C); (0x2102, 0x2102);
    (0x2107, 0x2107); (0x210A, 0x2113); (0x2115, 0x2115); (0x2119, 0x211D);
    (0x2124, 0x2124); (0x2126, 0x2126); (0x2128, 0x2128); (0x212A, 0x212D);
    (0x212F, 0x2134); (0x2139, 0x2139); (0x213C, 0x213F); (0x2145, 0x2149);
    (0x214E, 0x214E); (0x2160, 0x217F); (0x2183, 0x2184); (0x24B6, 0x24E9);
    (0x2C00, 0x2CE4); (0x2CEB, 0x2CEE); (0x2CF2, 0x2CF3); (0x2D00, 0x2D25);
    (0x2D27, 0x2D27); (0x2D2D, 0x2D2D); (0xA640, 0xA66D); (0xA680, 0xA69D);
    (0xA722, 0xA787); (0xA78B, 0xA78E); (0xA790, 0xA7CA); (0xA7D0, 0xA7D1);
    (0xA7D3, 0xA7D3); (0xA7D5, 0xA7D9); (0xA7F5, 0xA7F6); (0xA7F8, 0xA7FA);
    (0xAB30, 0xAB5A); (0xAB5C, 0xAB68); (0xAB70, 0xABBF); (0xFB00, 0xFB06);
    (0xFB13, 0xFB17); (0xFF21, 0xFF3A); (0xFF41, 0xFF5A); (0x10400, 0x1044F);
    (0x104B0, 0x104D3); (0x104D8, 0x104FB); (0x10570, 0x1057A);
    (0x1057C, 0x1058A); (0x1058C, 0x10592); (0x10594, 0x10595);
    (0x10597, 0x105A1); (0x105A3, 0x105B1); (0x105B3, 0x105B9);
    (0x105BB, 0x105BC); (0x10780, 0x10780); (0x10783, 0x10785);
    (0x10787, 0x107B0); (0x107B2, 0x107BA); (0x10C80, 0x10CB2);
    (0x10CC0, 0x10CF2); (0x118A0, 0x118DF); (0x16E40, 0x16E7F);
    (0x1D400, 0x1D454); (0x1D456, 0x1D49C); (0x1D49E, 0x1D49F);
    (0x1D4A2, 0x1D4A2); (0x1D4A5, 0x1D4A6); (0x1D4A9, 0x1D4AC);
    (0x1D4AE, 0x1D4B9); (0x1D4BB, 0x1D4BB); (0x1D4BD, 0x1D4C3);
    (0x1D4C5, 0x1D505); (0x1D507, 0x1D50A); (0x1D50D, 0x1D514);
    (0x1D516, 0x1D51C); (0x1D51E, 0x1D539); (0x1D53B, 0x1D53E);
    (0x1D540, 0x1D544); (0x1D546, 0x1D546); (0x1D54A, 0x1D550);
    (0x1D552, 0x1D6A5); (0x1D6A8, 0x1D6C0); (0x1D6C2, 0x1D6DA);
    (0x1D6DC, 0x1D6FA); (0x1D6FC, 0x1D714); (0x1D716, 0x1D734);
    (0x1D736, 0x1D74E); (0x1D750, 0x1D76E); (0x1D770, 0x1D788);
    (0x1D78A, 0x1D7A8); (0x1D7AA, 0x1D7C2); (0x1D7C4, 0x1D7CB);
    (0x1DF00, 0x1DF09); (0x1DF0B, 0x1DF1E); (0x1E900, 0x1E943);
    (0x1F130, 0x1F149); (0x1F150, 0x1F169); (0x1F170, 0x1F189) ].

(** The property Case_Ignorable ([_PyUnicode_IsCaseIgnorable]). *)
Definition case_ignorable_table : list (N * N) :=
  [ (0x27, 0x27); (0x2E, 0x2E); (0x3A, 0x3A); (0x5E, 0x5E); (0x60, 0x60);
    (0xA8, 0xA8); (0xAD, 0xAD); (0xAF, 0xAF); (0xB4, 0xB4); (0xB7, 0xB8);
    (0x2B0, 0x36F); (0x374, 0x375); (0x37A, 0x37A); (0x384, 0x385);
    (0x387, 0x387); (0x483, 0x489); (0x559, 0x559); (0x55F, 0x55F);
    (0x591, 0x5BD); (0x5BF, 0x5BF); (0x5C1, 0x5C2); (0x5C4, 0x5C5);
    (0x5C7, 0x5C7); (0x5F4, 0x5F4); (0x600, 0x605); (0x610, 0x61A);
    (0x61C, 0x61C); (0x640, 0x640); (0x64B, 0x65F); (0x670, 0x670);
    (0x6D6, 0x6DD); (0x6DF, 0x6E8); (0x6EA, 0x6ED); (0x70F, 0x70F);
    (0x711, 0x711); (0x730, 0x74A); (0x7A6, 0x7B0); (0x7EB, 0x7F5);
    (0x7FA, 0x7FA); (0x7FD, 0x7FD); (0x816, 0x82D); (0x859, 0x85B);
    (0x888, 0x888); (0x890, 0x891); (0x898, 0x89F); (0x8C9, 0x902);
    (0x93A, 0x93A); (0x93C, 0x93C); (0x941, 0x948); (0x94D, 0x94D);
    (0x951, 0x957); (0x962, 0x963); (0x971, 0x971); (0x981, 0x981);
    (0x9BC, 0x9BC); (0x9C1, 0x9C4); (0x9CD, 0x9CD); (0x9E2, 0x9E3);
    (0x9FE, 0x9FE); (0xA01, 0xA02); (0xA3C, 0xA3C); (0xA41, 0xA42);
    (0xA47, 0xA48); (0xA4B, 0xA4D); (0xA51, 0xA51); (0xA70, 0xA71);
    (0xA75, 0xA75); (0xA81, 0xA82); (0xABC, 0xABC); (0xAC1, 0xAC5);
    (0xAC7, 0xAC8); (0xACD, 0xACD); (0xAE2, 0xAE3); (0xAFA, 0xAFF);
    (0xB01, 0xB01); (0xB3C, 0xB3C); (0xB3F, 0xB3F); (0xB41, 0xB44);
    (0xB4D, 0xB4D); (0xB55, 0xB56); (0xB62, 0xB63); (0xB82, 0xB82);
    (0xBC0, 0xBC0); (0xBCD, 0xBCD); (0xC00, 0xC00); (0xC04, 0xC04);
    (0xC3C, 0xC3C); (0xC3E, 0xC40); (0xC46, 0xC48); (0xC4A, 0xC4D);
    (0xC55, 0xC56); (0xC62, 0xC63); (0xC81, 0xC81); (0xCBC, 0xCBC);
    (0xCBF, 0xCBF); (0xCC6, 0xCC6); (0xCCC, 0xCCD); (0xCE2, 0xCE3);
    (0xD00, 0xD01); (0xD3B, 0xD3C); (0xD41, 0xD44); (0xD4D, 0xD4D);
    (0xD62, 0xD63); (0xD81, 0xD81); (0xDCA, 0xDCA); (0xDD2, 0xDD4);
    (0xDD6, 0xDD6); (0xE31, 0xE31); (0xE34, 0xE3A); (0xE46, 0xE4E);
    (0xEB1, 0xEB1); (0xEB4, 0xEBC); (0xEC6, 0xEC6); (0xEC8, 0xECD);
    (0xF18, 0xF19); (0xF35, 0xF35); (0xF37, 0xF37); (0xF39, 0xF39);
    (0xF71, 0xF7E); (0xF80, 0xF84); (0xF86, 0xF87); (0xF8D, 0xF97);
    (0xF99, 0xFBC); (0xFC6, 0xFC6); (0x102D, 0x1030); (0x1032, 0x1037);
    (0x1039, 0x103A); (0x103D, 0x103E); (0x1058, 0x1059); (0x105E, 0x1060);
    (0x1071, 0x1074); (0x1082, 0x1082); (0x1085, 0x1086); (0x108D, 0x108D);
    (0x109D, 0x109D); (0x10FC, 0x10FC); (0x135D, 0x135F); (0x1712, 0x1714);
    (0x1732, 0x1733); (0x1752, 0x1753); (0x1772, 0x1773); (0x17B4, 0x17B5);
    (0x17B7, 0x17BD); (0x17C6, 0x17C6); (0x17C9, 0x17D3); (0x17D7, 0x17D7);
    (0x17DD, 0x17DD); (0x180B, 0x180F); (0x1843, 0x1843); (0x1885, 0x1886);
    (0x18A9, 0x18A9); (0x1920, 0x1922); (0x1927, 0x1928); (0x1932, 0x1932);
    (0x1939, 0x193B); (0x1A17, 0x1A18); (0x1A1B, 0x1A1B); (0x1A56, 0x1A56);
    (0x1A58, 0x1A5E); (0x1A60, 0x1A60); (0x1A62, 0x1A62); (0x1A65, 0x1A6C);
    (0x1A73, 0x1A7C); (0x1A7F, 0x1A7F); (0x1AA7, 0x1AA7); (0x1AB0, 0x1ACE);
    (0x1B00, 0x1B03); (0x1B34, 0x1B34); (0x1B36, 0x1B3A); (0x1B3C, 0x1B3C);
    (0x1B42, 0x1B42); (0x1B6B, 0x1B73); (0x1B80, 0x1B81); (0x1BA2, 0x1BA5);
    (0x1BA8, 0x1BA9); (0x1BAB, 0x1BAD); (0x1BE6, 0x1BE6); (0x1BE8, 0x1BE9);
    (0x1BED, 0x1BED); (0x1BEF, 0x1BF1); (0x1C2C, 0x1C33); (0x1C36, 0x1C37);
    (0x1C78, 0x1C7D); (0x1CD0, 0x1CD2); (0x1CD4, 0x1CE0); (0x1CE2, 0x1CE8);
    (0x1CED, 0x1CED); (0x1CF4, 0x1CF4); (0x1CF8, 0x1CF9); (0x1D2C, 0x1D6A);
    (0x1D78, 0x1D78); (0x1D9B, 0x1DFF); (0x1FBD, 0x1FBD); (0x1FBF, 0x1FC1);
    (0x1FCD, 0x1FCF); (0x1FDD, 0x1FDF); (0x1FED, 0x1FEF); (0x1FFD, 0x1FFE);
    (0x200B, 0x200F); (0x2018, 0x2019); (0x2024, 0x2024); (0x2027, 0x2027);
    (0x202A, 0x202E); (0x2060, 0x2064); (0x2066, 0x206F); (0x2071, 0x2071);
    (0x207F, 0x207F); (0x2090, 0x209C); (0x20D0, 0x20F0); (0x2C7C, 0x2C7D);
    (0x2CEF, 0x2CF1); (0x2D6F, 0x2D6F); (0x2D7F, 0x2D7F); (0x2DE0, 0x2DFF);
    (0x2E2F, 0x2E2F); (0x3005, 0x3005); (0x302A, 0x302D); (0x3031, 0x3035);
    (0x303B, 0x303B); (0x3099, 0x309E); (0x30FC, 0x30FE); (0xA015, 0xA015);
    (0xA4F8, 0xA4FD); (0xA60C, 0xA60C); (0xA66F, 0xA672); (0xA674, 0xA67D);
    (0xA67F, 0xA67F); (0xA69C, 0xA69F); (0xA6F0, 0xA6F1); (0xA700, 0xA721);
    (0xA770, 0xA770); (0xA788, 0xA78A); (0xA7F2, 0xA7F4); (0xA7F8, 0xA7F9);
    (0xA802, 0xA802); (0xA806, 0xA806); (0xA80B, 0xA80B); (0xA825, 0xA826);
    (0xA82C, 0xA82C); (0xA8C4, 0xA8C5); (0xA8E0, 0xA8F1); (0xA8FF, 0xA8FF);
    (0xA926, 0xA92D); (0xA947, 0xA951); (0xA980, 0xA982); (0xA9B3, 0xA9B3);
    (0xA9B6, 0xA9B9); (0xA9BC, 0xA9BD); (0xA9CF, 0xA9CF); (0xA9E5, 0xA9E6);
    (0xAA29, 0xAA2E); (0xAA31, 0xAA32); (0xAA35, 0xAA36); (0xAA43, 0xAA43);
    (0xAA4C, 0xAA4C); (0xAA70, 0xAA70); (0xAA7C, 0xAA7C); (0xAAB0, 0xAAB0);
    (0xAAB2, 0xAAB4); (0xAAB7, 0xAAB8); (0xAABE, 0xAABF); (0xAAC1, 0xAAC1);
    (0xAADD, 0xAADD); (0xAAEC, 0xAAED); (0xAAF3, 0xAAF4); (0xAAF6, 0xAAF6);
    (0xAB5B, 0xAB5F); (0xAB69, 0xAB6B); (0xABE5, 0xABE5); (0xABE8, 0xABE8);
    (0xABED, 0xABED); (0xFB1E, 0xFB1E); (0xFBB2, 0xFBC2); (0xFE00, 0xFE0F);
    (0xFE13, 0xFE13); (0xFE20, 0xFE2F); (0xFE52, 0xFE52); (0xFE55, 0xFE55);
    (0xFEFF, 0xFEFF); (0xFF07, 0xFF07); (0xFF0E, 0xFF0E); (0xFF1A, 0xFF1A);
    (0xFF3E, 0xFF3E); (0xFF40, 0xFF40); (0xFF70, 0xFF70); (0xFF9E, 0xFF9F);
    (0xFFE3, 0xFFE3); (0xFFF9, 0xFFFB); (0x101FD, 0x101FD);
    (0x102E0, 0x102E0); (0x10376, 0x1037A); (0x10780, 0x10785);
    (0x10787, 0x107B0); (0x107B2, 0x107BA); (0x10A01, 0x10A03);
    (0x10A05, 0x10A06); (0x10A0C, 0x10A0F); (0x10A38, 0x10A3A);
    (0x10A3F, 0x10A3F); (0x10AE5, 0x10AE6); (0x10D24, 0x10D27);
    (0x10EAB, 0x10EAC); (0x10F46, 0x10F50); (0x10F82, 0x10F85);
    (0x11001, 0x11001); (0x11038, 0x11046); (0x11070, 0x11070);
    (0x11073, 0x11074); (0x1107F, 0x11081); (0x110B3, 0x110B6);
    (0x110B9, 0x110BA); (0x110BD, 0x110BD); (0x110C2, 0x110C2);
    (0x110CD, 0x110CD); (0x11100, 0x11102); (0x11127, 0x1112B);
    (0x1112D, 0x11134); (0x11173, 0x11173); (0x11180, 0x11181);
    (0x111B6, 0x111BE); (0x111C9, 0x111CC); (0x111CF, 0x111CF);
    (0x1122F, 0x11231); (0x11234, 0x11234); (0x11236, 0x11237);
    (0x1123E, 0x1123E); (0x112DF, 0x112DF); (0x112E3, 0x112EA);
    (0x11300, 0x11301); (0x1133B, 0x1133C); (0x11340, 0x11340);
    (0x11366, 0x1136C); (0x11370, 0x11374); (0x11438, 0x1143F);
    (0x11442, 0x11444); (0x11446, 0x11446); (0x1145E, 0x1145E);
    (0x114B3, 0x114B8); (0x114BA, 0x114BA); (0x114BF, 0x114C0);
    (0x114C2, 0x114C3); (0x115B2, 0x115B5); (0x115BC, 0x115BD);
    (0x115BF, 0x115C0); (0x115DC, 0x115DD); (0x11633, 0x1163A);
    (0x1163D, 0x1163D); (0x1163F, 0x11640); (0x116AB, 0x116AB);
    (0x116AD, 0x116AD); (0x116B0, 0x116B5); (0x116B7, 0x116B7);
    (0x1171D, 0x1171F); (0x11722, 0x11725); (0x11727, 0x1172B);
    (0x1182F, 0x11837); (0x11839, 0x1183A); (0x1193B, 0x1193C);
    (0x1193E, 0x1193E); (0x11943, 0x11943); (0x119D4, 0x119D7);
    (0x119DA, 0x119DB); (0x119E0, 0x119E0); (0x11A01, 0x11A0A);
    (0x11A33, 0x11A38); (0x11A3B, 0x11A3E); (0x11A47, 0x11A47);
    (0x11A51, 0x11A56); (0x11A59, 0x11A5B); (0x11A8A, 0x11A96);
    (0x11A98, 0x11A99); (0x11C30, 0x11C36); (0x11C38, 0x11C3D);
    (0x11C3F, 0x11C3F); (0x11C92, 0x11CA7); (0x11CAA, 0x11CB0);
    (0x11CB2, 0x11CB3); (0x11CB5, 0x11CB6); (0x11D31, 0x11D36);
    (0x11D3A, 0x11D3A); (0x11D3C, 0x11D3D); (0x11D3F, 0x11D45);
    (0x11D47, 0x11D47); (0x11D90, 0x11D91); (0x11D95, 0x11D95);
    (0x11D97, 0x11D97); (0x11EF3, 0x11EF4); (0x13430, 0x13438);
    (0x16AF0, 0x16AF4); (0x16B30, 0x16B36); (0x16B40, 0x16B43);
    (0x16F4F, 0x16F4F); (0x16F8F, 0x16F9F); (0x16FE0, 0x16FE1);
    (0x16FE3, 0x16FE4); (0x1AFF0, 0x1AFF3); (0x1AFF5, 0x1AFFB);
    (0x1AFFD, 0x1AFFE); (0x1BC9D, 0x1BC9E); (0x1BCA0, 0x1BCA3);
    (0x1CF00, 0x1CF2D); (0x1CF30, 0x1CF46); (0x1D167, 0x1D169);
    (0x1D173, 0x1D182); (0x1D185, 0x1D18B); (0x1D1AA, 0x1D1AD);
    (0x1D242, 0x1D244); (0x1DA00, 0x1DA36); (0x1DA3B, 0x1DA6C);
    (0x1DA75, 0x1DA75); (0x1DA84, 0x1DA84); (0x1DA9B, 0x1DA9F);
    (0x1DAA1, 0x1DAAF); (0x1E000, 0x1E006); (0x1E008, 0x1E018);
    (0x1E01B, 0x1E021); (0x1E023, 0x1E024); (0x1E026, 0x1E02A);
    (0x1E130, 0x1E13D); (0x1E2AE, 0x1E2AE); (0x1E2EC, 0x1E2EF);
    (0x1E8D0, 0x1E8D6); (0x1E944, 0x1E94B); (0x1F3FB, 0x1F3FF);
    (0xE0001, 0xE0001); (0xE0020, 0xE007F); (0xE0100, 0xE01EF) ].

(** The lower-case mapping, in blocks [(first, last, step, target)]: a code
    point [n] of [first .. last] with [n - first] a multiple of [step] has
    the lower case [target + (n - first)].  The blocks are in ascending
    order.  U+0130, whose lower case has two code points, and U+03A3, whose
    lower case depends on its place in the word, are left to [lower]. *)
Definition lower_blocks : list (N * N * N * N) :=
  [ (0x41, 0x5A, 1, 0x61); (0xC0, 0xD6, 1, 0xE0); (0xD8, 0xDE, 1, 0xF8);
    (0x100, 0x12E, 2, 0x101); (0x132, 0x136, 2, 0x133);
    (0x139, 0x147, 2, 0x13A); (0x14A, 0x176, 2, 0x14B);
    (0x178, 0x178, 1, 0xFF); (0x179, 0x17D, 2, 0x17A);
    (0x181, 0x181, 1, 0x253); (0x182, 0x184, 2, 0x183);
    (0x186, 0x186, 1, 0x254); (0x187, 0x187, 1, 0x188);
    (0x189, 0x18A, 1, 0x256); (0x18B, 0x18B, 1, 0x18C);
    (0x18E, 0x18E, 1, 0x1DD); (0x18F, 0x18F, 1, 0x259);
    (0x190, 0x190, 1, 0x25B); (0x191, 0x191, 1, 0x192);
    (0x193, 0x193, 1, 0x260); (0x194, 0x194, 1, 0x263);
    (0x196, 0x196, 1, 0x269); (0x197, 0x197, 1, 0x268);
    (0x198, 0x198, 1, 0x199); (0x19C, 0x19C, 1, 0x26F);
    (0x19D, 0x19D, 1, 0x272); (0x19F, 0x19F, 1, 0x275);
    (0x1A0, 0x1A4, 2, 0x1A1); (0x1A6, 0x1A6, 1, 0x280);
    (0x1A7, 0x1A7, 1, 0x1A8); (0x1A9, 0x1A9, 1, 0x283);
    (0x1AC, 0x1AC, 1, 0x1AD); (0x1AE, 0x1AE, 1, 0x288);
    (0x1AF, 0x1AF, 1, 0x1B0); (0x1B1, 0x1B2, 1, 0x28A);
    (0x1B3, 0x1B5, 2, 0x1B4); (0x1B7, 0x1B7, 1, 0x292);
    (0x1B8, 0x1B8, 1, 0x1B9); (0x1BC, 0x1BC, 1, 0x1BD);
    (0x1C4, 0x1C4, 1, 0x1C6); (0x1C5, 0x1C5, 1, 0x1C6);
    (0x1C7, 0x1C7, 1, 0x1C9); (0x1C8, 0x1C8, 1, 0x1C9);
    (0x1CA, 0x1CA, 1, 0x1CC); (0x1CB, 0x1DB, 2, 0x1CC);
    (0x1DE, 0x1EE, 2, 0x1DF); (0x1F1, 0x1F1, 1, 0x1F3);
    (0x1F2, 0x1F4, 2, 0x1F3); (0x1F6, 0x1F6, 1, 0x195);
    (0x1F7, 0x1F7, 1, 0x1BF); (0x1F8, 0x21E, 2, 0x1F9);
    (0x220, 0x220, 1, 0x19E); (0x222, 0x232, 2, 0x223);
    (0x23A, 0x23A, 1, 0x2C65); (0x23B, 0x23B, 1, 0x23C);
    (0x23D, 0x23D, 1, 0x19A); (0x23E, 0x23E, 1, 0x2C66);
    (0x241, 0x241, 1, 0x242); (0x243, 0x243, 1, 0x180);
    (0x244, 0x244, 1, 0x289); (0x245, 0x245, 1, 0x28C);
    (0x246, 0x24E, 2, 0x247); (0x370, 0x372, 2, 0x371);
    (0x376, 0x376, 1, 0x377); (0x37F, 0x37F, 1, 0x3F3);
    (0x386, 0x386, 1, 0x3AC); (0x388, 0x38A, 1, 0x3AD);
    (0x38C, 0x38C, 1, 0x3CC); (0x38E, 0x38F, 1, 0x3CD);
    (0x391, 0x3A1, 1, 0x3B1); (0x3A3, 0x3AB, 1, 0x3C3);
    (0x3CF, 0x3CF, 1, 0x3D7); (0x3D8, 0x3EE, 2, 0x3D9);
    (0x3F4, 0x3F4, 1, 0x3B8); (0x3F7, 0x3F7, 1, 0x3F8);
    (0x3F9, 0x3F9, 1, 0x3F2); (0x3FA, 0x3FA, 1, 0x3FB);
    (0x3FD, 0x3FF, 1, 0x37B); (0x400, 0x40F, 1, 0x450);
    (0x410, 0x42F, 1, 0x430); (0x460, 0x480, 2, 0x461);
    (0x48A, 0x4BE, 2, 0x48B); (0x4C0, 0x4C0, 1, 0x4CF);
    (0x4C1, 0x4CD, 2, 0x4C2); (0x4D0, 0x52E, 2, 0x4D1);
    (0x531, 0x556, 1, 0x561); (0x10A0, 0x10C5, 1, 0x2D00);
    (0x10C7, 0x10C7, 1, 0x2D27); (0x10CD, 0x10CD, 1, 0x2D2D);
    (0x13A0, 0x13EF, 1, 0xAB70); (0x13F0, 0x13F5, 1, 0x13F8);
    (0x1C90, 0x1CBA, 1, 0x10D0); (0x1CBD, 0x1CBF, 1, 0x10FD);
    (0x1E00, 0x1E94, 2, 0x1E01); (0x1E9E, 0x1E9E, 1, 0xDF);
    (0x1EA0, 0x1EFE, 2, 0x1EA1); (0x1F08, 0x1F0F, 1, 0x1F00);
    (0x1F18, 0x1F1D, 1, 0x1F10); (0x1F28, 0x1F2F, 1, 0x1F20);
    (0x1F38, 0x1F3F, 1, 0x1F30); (0x1F48, 0x1F4D, 1, 0x1F40);
    (0x1F59, 0x1F5F, 2, 0x1F51); (0x1F68, 0x1F6F, 1, 0x1F60);
    (0x1F88, 0x1F8F, 1, 0x1F80); (0x1F98, 0x1F9F, 1, 0x1F90);
    (0x1FA8, 0x1FAF, 1, 0x1FA0); (0x1FB8, 0x1FB9, 1, 0x1FB0);
    (0x1FBA, 0x1FBB, 1, 0x1F70); (0x1FBC, 0x1FBC, 1, 0x1FB3);
    (0x1FC8, 0x1FCB, 1, 0x1F72); (0x1FCC, 0x1FCC, 1, 0x1FC3);
    (0x1FD8, 0x1FD9, 1, 0x1FD0); (0x1FDA, 0x1FDB, 1, 0x1F76);
    (0x1FE8, 0x1FE9, 1, 0x1FE0); (0x1FEA, 0x1FEB, 1, 0x1F7A);
    (0x1FEC, 0x1FEC, 1, 0x1FE5); (0x1FF8, 0x1FF9, 1, 0x1F78);
    (0x1FFA, 0x1FFB, 1, 0x1F7C); (0x1FFC, 0x1FFC, 1, 0x1FF3);
    (0x2126, 0x2126, 1, 0x3C9); (0x212A, 0x212A, 1, 0x6B);
    (0x212B, 0x212B, 1, 0xE5); (0x2132, 0x2132, 1, 0x214E);
    (0x2160, 0x216F, 1, 0x2170); (0x2183, 0x2183, 1, 0x2184);
    (0x24B6, 0x24CF, 1, 0x24D0); (0x2C00, 0x2C2F, 1, 0x2C30);
    (0x2C60, 0x2C60, 1, 0x2C61); (0x2C62, 0x2C62, 1, 0x26B);
    (0x2C63, 0x2C63, 1, 0x1D7D); (0x2C64, 0x2C64, 1, 0x27D);
    (0x2C67, 0x2C6B, 2, 0x2C68); (0x2C6D, 0x2C6D, 1, 0x251);
    (0x2C6E, 0x2C6E, 1, 0x271); (0x2C6F, 0x2C6F, 1, 0x250);
    (0x2C70, 0x2C70, 1, 0x252); (0x2C72, 0x2C72, 1, 0x2C73);
    (0x2C75, 0x2C75, 1, 0x2C76); (0x2C7E, 0x2C7F, 1, 0x23F);
    (0x2C80, 0x2CE2, 2, 0x2C81); (0x2CEB, 0x2CED, 2, 0x2CEC);
    (0x2CF2, 0x2CF2, 1, 0x2CF3); (0xA640, 0xA66C, 2, 0xA641);
    (0xA680, 0xA69A, 2, 0xA681); (0xA722, 0xA72E, 2, 0xA723);
    (0xA732, 0xA76E, 2, 0xA733); (0xA779, 0xA77B, 2, 0xA77A);
    (0xA77D, 0xA77D, 1, 0x1D79); (0xA77E, 0xA786, 2, 0xA77F);
    (0xA78B, 0xA78B, 1, 0xA78C); (0xA78D, 0xA78D, 1, 0x265);
    (0xA790, 0xA792, 2, 0xA791); (0xA796, 0xA7A8, 2, 0xA797);
    (0xA7AA, 0xA7AA, 1, 0x266); (0xA7AB, 0xA7AB, 1, 0x25C);
    (0xA7AC, 0xA7AC, 1, 0x261); (0xA7AD, 0xA7AD, 1, 0x26C);
    (0xA7AE, 0xA7AE, 1, 0x26A); (0xA7B0, 0xA7B0, 1, 0x29E);
    (0xA7B1, 0xA7B1, 1, 0x287); (0xA7B2, 0xA7B2, 1, 0x29D);
    (0xA7B3, 0xA7B3, 1, 0xAB53); (0xA7B4, 0xA7C2, 2, 0xA7B5);
    (0xA7C4, 0xA7C4, 1, 0xA794); (0xA7C5, 0xA7C5, 1, 0x282);
    (0xA7C6, 0xA7C6, 1, 0x1D8E); (0xA7C7, 0xA7C9, 2, 0xA7C8);
    (0xA7D0, 0xA7D0, 1, 0xA7D1); (0xA7D6, 0xA7D8, 2, 0xA7D7);
    (0xA7F5, 0xA7F5, 1, 0xA7F6); (0xFF21, 0xFF3A, 1, 0xFF41);
    (0x10400, 0x10427, 1, 0x10428); (0x104B0, 0x104D3, 1, 0x104D8);
    (0x10570, 0x1057A, 1, 0x10597); (0x1057C, 0x1058A, 1, 0x105A3);
    (0x1058C, 0x10592, 1, 0x105B3); (0x10594, 0x10595, 1, 0x105BB);
    (0x10C80, 0x10CB2, 1, 0x10CC0); (0x118A0, 0x118BF, 1, 0x118C0);
    (0x16E40, 0x16E5F, 1, 0x16E60); (0x1E900, 0x1E921, 1, 0x1E922) ].

Fixpoint lower_lookup (n : N) (blocks : list (N * N * N * N)) : N :=
  match blocks with
  | [] => n
  | (first, last, step, target) :: rest =>
      if n <? first then n
      else if (n <=? last) && ((n - first) mod step =? 0)
      then target + (n - first)
      else lower_lookup n rest
  end.

(** [_PyUnicode_ToLowerFull] *)
Definition to_lower_full (n : N) : list N :=
  if n =? 0x130 then [0x69; 0x307] else [lower_lookup n lower_blocks].

End Unicode.

(** ** Python string primitives *)

Module Py.

(** [c.isspace()] *)
Definition isspace (c : Unicode.char) : bool :=
  Unicode.in_ranges (Unicode.point c) Unicode.white_space_table.

(** The class [\d] of [re] on a [str]. *)
Definition isdigit (c : Unicode.char) : bool :=
  Unicode.in_ranges (Unicode.point c) Unicode.decimal_table.

(** The class [\w] of [re] on a [str]. *)
Definition isword (c : Unicode.char) : bool :=
  Unicode.in_ranges (Unicode.point c) Unicode.word_table.

Definition cased (c : Unicode.char) : bool :=
  Unicode.in_ranges (Unicode.point c) Unicode.cased_table.

Definition case_ignorable (c : Unicode.char) : bool :=
  Unicode.in_ranges (Unicode.point c) Unicode.case_ignorable_table.

(** The lower case of one character that is not U+03A3; a character without
    a lower case of its own keeps its bytes. *)
Definition lower_char (c : Unicode.char) : string :=
  match Unicode.to_lower_full (Unicode.point c) with
  | [n] => if N.eqb n (Unicode.point c) then Unicode.bytes c
           else Unicode.encode n
  | ns => String.concat "" (map Unicode.encode ns)
  end.

(** The second half of [handle_capital_sigma]: behind the sigma, past the
    case-ignorable characters, the string ends or a character follows that
    is not cased. *)
Fixpoint sigma_ends_word (rest : list Unicode.char) : bool :=
  match rest with
  | [] => true
  | c :: r => if case_ignorable c then sigma_ends_word r else negb (cased c)
  end.

(** The loop of [do_lower].  [after_cased] is the first half of
    [handle_capital_sigma] for the character at hand: in front of it, past
    the case-ignorable characters, stands a cased character.  A capital
    sigma in that place at the end of a word becomes U+03C2, any other one
    U+03C3. *)
Fixpoint lower_chars (after_cased : bool) (cs : list Unicode.char) : string :=
  match cs with
  | [] => EmptyString
  | c :: r =>
      (if N.eqb (Unicode.point c) 0x3A3%N then
         if after_cased && sigma_ends_word r then Unicode.encode 0x3C2%N
         else Unicode.encode 0x3C3%N
       else lower_char c)
      ++ lower_chars (if case_ignorable c then after_cased else cased c) r
  end.

(** [s.lower()] *)
Definition lower (s : string) : string := lower_chars false (Unicode.chars s).

(** [s.startswith(p)] *)
Definition startswith (s p : string) : bool := String.prefix p s.

(** [sub in s] for two strings: [sub] occurs in [s] as a contiguous block.
    A block of code points is a block of bytes and conversely, since no
    sequence of UTF-8 starts inside another one. *)
Fixpoint contains (sub s : string) : bool :=
  String.prefix sub s ||
  match s with
  | EmptyString => false
  | String _ r => contains sub r
  end.

(** The characters of [s.lstrip()] *)
Fixpoint lstrip (cs : list Unicode.char) : list Unicode.char :=
  match cs with
  | [] => []
  | c :: r => if isspace c then lstrip r else cs
  end.

(** The characters of [s.rstrip()] *)
Fixpoint rstrip (cs : list Unicode.char) : list Unicode.char :=
  match cs with
  | [] => []
  | c :: r =>
      match rstrip r with
      | [] => if isspace c then [] else [c]
      | r' => c :: r'
      end
  end.

(** [s.strip()] *)
Definition strip (s : string) : string :=
  Unicode.text (rstrip (lstrip (Unicode.chars s))).

(** [s.split()] without argument: the maximal runs of characters that are not
    white space, in order; [cur] is the run being read, reversed. *)
Fixpoint split_aux (cur : list Unicode.char) (cs : list Unicode.char)
  : list string :=
  let flush (k : list string) :=
    match cur with
    | [] => k
    | _ => Unicode.text (rev cur) :: k
    end in
  match cs with
  | [] => flush []
  | c :: r =>
      if isspace c then flush (split_aux [] r) else split_aux (c :: cur) r
  end.

Definition split (s : string) : list string :=
  split_aux [] (Unicode.chars s).

(** [sep.join(xs)] *)
Definition join (sep : string) (xs : list string) : string :=
  String.concat sep xs.

(** [x in xs] for a list of strings. *)
Definition mem (x : string) (xs : list string) : bool :=
  existsb (String.eqb x) xs.

(** Truth value of a string: [not s] holds of the empty string only. *)
Definition truthy (s : string) : bool :=
  match s with EmptyString => false | _ => true end.

End Py.

(** ** The regular expressions of the numeric token extractor

    [re.findall] is modelled for the four patterns of [number_patterns], which
    are patterns on [str]: [\w], [\d], [\s] and [\b] are the Unicode classes.
    A pattern is given by its matcher at one position: from the character in
    front of the position ([None] at the start of the text) and the
    characters from the position on, it yields the text of group 1 and the
    length of the whole match in characters.  None of the four patterns can
    match in two ways at one position (a decimal digit is a word character
    and no white space is), so backtracking never shows. *)

Module Re.

Definition matcher : Type :=
  option Unicode.char -> list Unicode.char -> option (string * nat).

(** [\b] in front of a word character: no word character precedes. *)
Definition boundary_before (prev : option Unicode.char) : bool :=
  match prev with
  | None => true
  | Some c => negb (Py.isword c)
  end.

(** [\b] behind a word character: no word character follows. *)
Definition boundary_after (s : list Unicode.char) : bool :=
  match s with
  | [] => true
  | c :: _ => negb (Py.isword c)
  end.

(** The longest prefix of [s] whose characters satisfy [p], and the rest. *)
Fixpoint span (p : Unicode.char -> bool) (s : list Unicode.char)
  : list Unicode.char * list Unicode.char :=
  match s with
  | [] => ([], [])
  | c :: r =>
      if p c then let '(x, y) := span p r in (c :: x, y)
      else ([], s)
  end.

(** The characters behind the prefix [p] of [s], when [s] starts with [p]. *)
Fixpoint drop_prefix (p s : list Unicode.char) : option (list Unicode.char) :=
  match p, s with
  | [], _ => Some s
  | a :: p', c :: s' =>
      if N.eqb (Unicode.point a) (Unicode.point c) then drop_prefix p' s'
      else None
  | _ :: _, [] => None
  end.

(** The character is the ASCII character [a]. *)
Definition is_char (a : ascii) (c : Unicode.char) : bool :=
  N.eqb (Unicode.point c) (N_of_ascii a).

(** The class [[2-6]]. *)
Definition is_2_to_6 (c : Unicode.char) : bool :=
  N.leb 0x32%N (Unicode.point c) && N.leb (Unicode.point c) 0x36%N.

(** [\b(14[2-6])\b] *)
Definition pat_unit_range : matcher := fun prev s =>
  match s with
  | c1 :: c2 :: c3 :: r =>
      if boundary_before prev
         && is_char "1" c1 && is_char "4" c2 && is_2_to_6 c3
         && boundary_after r
      then Some (Unicode.text [c1; c2; c3], 3)
      else None
  | _ => None
  end.

(** [\bKW\s+(\d+)\b] for a keyword [KW] that starts with a word character:
    [apartment] and [unit]. *)
Definition pat_keyword_number (kw : string) : matcher := fun prev s =>
  if boundary_before prev then
    match drop_prefix (Unicode.chars kw) s with
    | Some r =>
        let '(ws, r1) := span Py.isspace r in
        let '(ds, r2) := span Py.isdigit r1 in
        if Nat.leb 1 (List.length ws) && Nat.leb 1 (List.length ds)
           && boundary_after r2
        then Some (Unicode.text ds,
                   List.length (Unicode.chars kw) + List.length ws
                   + List.length ds)
        else None
    | None => None
    end
  else None.

(** [\b(\d{3})\b] *)
Definition pat_three_digits : matcher := fun prev s =>
  match s with
  | c1 :: c2 :: c3 :: r =>
      if boundary_before prev
         && Py.isdigit c1 && Py.isdigit c2 && Py.isdigit c3
         && boundary_after r
      then Some (Unicode.text [c1; c2; c3], 3)
      else None
  | _ => None
  end.

(** The scan of [re.findall]: positions are tried from left to right, and the
    search resumes behind a match; [skip] counts the characters of the last
    match still to be passed. *)
Fixpoint scan (m : matcher) (prev : option Unicode.char) (skip : nat)
  (s : list Unicode.char) : list string :=
  match s with
  | [] => []
  | c :: r =>
      match skip with
      | S k => scan m (Some c) k r
      | O =>
          match m prev s with
          | Some (g, len) => g :: scan m (Some c) (len - 1) r
          | None => scan m (Some c) 0 r
          end
      end
  end.

(** [re.findall(pattern, text)] *)
Definition findall (m : matcher) (text : string) : list string :=
  scan m None 0 (Unicode.chars text).

End Re.

(** ** difflib.SequenceMatcher

    [SequenceMatcher(None, a, b).ratio()] of the Python standard library, on
    the code points of two strings: no junk predicate, automatic junk
    heuristic on.  The library keeps the
    indices of [b] per character in [b2j], drops from it the characters that
    fill more than 1% of a [b] of 200 characters or more, finds the longest
    matching block of a window by dynamic programming on the lengths [j2len]
    of the matches that end at an index of [b], and recurses to the left and to
    the right of the block. *)

Module Difflib.

Section SequenceMatcher.

Variables a b : list N.

Definition zero_char : N := 0%N.

(** Indices of [l], counted from [j], that hold [c], ascending. *)
Fixpoint indices (c : N) (l : list N) (j : nat) : list nat :=
  match l with
  | [] => []
  | x :: r => if N.eqb x c then j :: indices c r (S j) else indices c r (S j)
  end.

(** Membership of the set [bpopular] of [__chain_b]. *)
Definition popular (c : N) : bool :=
  Nat.leb 200 (List.length b)
  && Nat.ltb (List.length b / 100 + 1) (List.length (indices c b 0)).

(** [b2j.get(c, [])] *)
Definition b2j (c : N) : list nat :=
  if popular c then [] else indices c b 0.

(** [j2len.get(j, 0)] on a dictionary kept as an association list. *)
Definition j2len_get (j2len : list (nat * nat)) (j : nat) : nat :=
  match find (fun p => Nat.eqb (fst p) j) j2len with
  | Some p => snd p
  | None => 0
  end.

(** [j2len.get(j-1, 0)]: no key is negative. *)
Definition j2len_prev (j2len : list (nat * nat)) (j : nat) : nat :=
  match j with
  | O => 0
  | S j' => j2len_get j2len j'
  end.

(** A block [(besti, bestj, bestsize)]. *)
Definition block : Type := nat * nat * nat.

(** The loop over [j] of [find_longest_match] for one [i]; the indices are
    ascending, so leaving the loop at the first [j >= bhi] skips exactly the
    indices that are not below [bhi]. *)
Definition inner_loop (i blo bhi : nat) (j2len : list (nat * nat))
  (best : block) (js : list nat) : list (nat * nat) * block :=
  fold_left
    (fun (st : list (nat * nat) * block) (j : nat) =>
       let '(newj2len, (besti, bestj, bestsize)) := st in
       if Nat.ltb j blo then st
       else if Nat.leb bhi j then st
       else
         let k := j2len_prev j2len j + 1 in
         ((j, k) :: newj2len,
          if Nat.ltb bestsize k then (i + 1 - k, j + 1 - k, k)
          else (besti, bestj, bestsize)))
    js ([], best).

(** The loop over [i] of [find_longest_match]. *)
Definition outer_loop (alo ahi blo bhi : nat) : block :=
  snd (fold_left
         (fun (st : list (nat * nat) * block) (i : nat) =>
            let '(j2len, best) := st in
            inner_loop i blo bhi j2len best (b2j (nth i a zero_char)))
         (seq alo (ahi - alo)) ([], (alo, blo, 0))).

(** First extension loop: grow the block to the left while the elements in
    front of it agree; at most [n] rounds. *)
Fixpoint extend_left (n alo blo : nat) (best : block) : block :=
  let '(besti, bestj, bestsize) := best in
  match n with
  | O => best
  | S n' =>
      if Nat.ltb alo besti && Nat.ltb blo bestj
         && N.eqb (nth (besti - 1) a zero_char) (nth (bestj - 1) b zero_char)
      then extend_left n' alo blo (besti - 1, bestj - 1, bestsize + 1)
      else best
  end.

(** Second extension loop: grow the block to the right. *)
Fixpoint extend_right (n ahi bhi : nat) (best : block) : block :=
  let '(besti, bestj, bestsize) := best in
  match n with
  | O => best
  | S n' =>
      if Nat.ltb (besti + bestsize) ahi && Nat.ltb (bestj + bestsize) bhi
         && N.eqb (nth (besti + bestsize) a zero_char)
                      (nth (bestj + bestsize) b zero_char)
      then extend_right n' ahi bhi (besti, bestj, bestsize + 1)
      else best
  end.

(** [find_longest_match(alo, ahi, blo, bhi)].  With no junk predicate the two
    loops over junk elements do nothing and are left out.  The left extension
    runs fewer than [besti + 1] times and the right one fewer than [ahi + 1]
    times. *)
Definition find_longest_match (alo ahi blo bhi : nat) : block :=
  let best := outer_loop alo ahi blo bhi in
  let best := extend_left (fst (fst best)) alo blo best in
  extend_right ahi ahi bhi best.

(** The sum of the sizes of the blocks of [get_matching_blocks] within a
    window; the library keeps the windows still to do in a queue, here they
    are the two recursive calls.  [fuel] bounds the depth. *)
Fixpoint matches (fuel alo ahi blo bhi : nat) : nat :=
  match fuel with
  | O => 0
  | S fuel' =>
      let '(i, j, k) := find_longest_match alo ahi blo bhi in
      if Nat.eqb k 0 then 0
      else
        k
        + (if Nat.ltb alo i && Nat.ltb blo j then matches fuel' alo i blo j else 0)
        + (if Nat.ltb (i + k) ahi && Nat.ltb (j + k) bhi
           then matches fuel' (i + k) ahi (j + k) bhi else 0)
  end.

End SequenceMatcher.

(** [_calculate_ratio(matches, length)] *)
Definition calculate_ratio (m len : nat) : Q :=
  match len with
  | O => 1.0%Q
  | S _ => Qmake (Z.of_nat (2 * m)) (Pos.of_nat len)
  end.

(** [SequenceMatcher(None, s, t).ratio()].  Every block found has a positive
    size and the windows of the recursive calls lie beside it, so the depth
    never exceeds the length of [s]. *)
Definition ratio (s t : string) : Q :=
  let a := Unicode.points s in
  let b := Unicode.points t in
  calculate_ratio
    (matches a b (S (List.length a)) 0 (List.length a) 0 (List.length b))
    (List.length a + List.length b).

End Difflib.

(** ** Formatting of a score

    [f"{x:.2f}"] prints the decimal with two fraction digits nearest to the
    binary value of the float [x], an exact tie going to the even last digit.
    The float is the double nearest to the quotient that difflib computes, so
    the text is obtained from the rational score by rounding twice: to 53
    significant bits, then to two decimals. *)

(** The integer nearest to [n / d] for [0 < d], ties to even. *)
Definition round_half_even (n d : Z) : Z :=
  let q := (n / d)%Z in
  let r := (n mod d)%Z in
  if (2 * r <? d)%Z then q
  else if (2 * r =? d)%Z then (if Z.even q then q else q + 1)%Z
  else (q + 1)%Z.

(** The double nearest to a rational [0 < x <= 1], as [m / 2^k] with
    [2^52 <= m <= 2^53]; [0] for [x <= 0]. *)
Definition binary64 (x : Q) : Z * Z :=
  let n := Qnum x in
  let d := Zpos (Qden x) in
  if (n <=? 0)%Z then (0%Z, 0%Z)
  else
    let e0 := (Z.log2 d - Z.log2 n)%Z in
    let k0 := (52 + e0)%Z in
    let k := if (n * 2 ^ k0 <? d * 2 ^ 52)%Z then (k0 + 1)%Z else k0 in
    (round_half_even (n * 2 ^ k) d, k).

Definition string_of_nat (n : nat) : string :=
  NilEmpty.string_of_uint (Nat.to_uint n).

Definition format_2f (x : Q) : string :=
  let '(m, k) := binary64 x in
  let n := Z.to_nat (round_half_even (m * 100) (2 ^ k)) in
  let frac := n mod 100 in
  string_of_nat (n / 100) ++ "."
  ++ (if Nat.ltb frac 10 then "0" else "") ++ string_of_nat frac.

(** ** Data model *)

(** One [acc["node"]] of the chart of accounts, with the fields the engine
    reads: [id], [name], [type.name], [subtype.name] (read with
    [.get("subtype", {}).get("name", "")], so it may be missing) and
    [isArchived]. *)
Record Account : Type := {
  acc_id : string;
  acc_name : string;
  acc_type : string;
  acc_subtype : option string;
  isArchived : bool
}.

(** The returned tuple [(account_id, account_name, match_score, explanation)]. *)
Record MatchResult : Type := {
  accountId : option string;
  accountName : option string;
  score : Q;
  explanation : string
}.

(** [WaveClient.EXPENSE_SYNONYMS] *)
Definition EXPENSE_SYNONYMS : list (string * list string) :=
  [ ("food", ["meals"; "restaurant"; "dining"; "eating"; "lunch"; "dinner"; "breakfast"]);
    ("gas", ["fuel"; "gasoline"; "petrol"; "diesel"]);
    ("travel", ["transportation"; "transport"; "trip"; "journey"]);
    ("office", ["supplies"; "equipment"; "materials"; "stationery"]);
    ("car", ["vehicle"; "auto"; "automobile"; "automotive"]);
    ("phone", ["mobile"; "cellular"; "telecommunications"; "telecom"]);
    ("internet", ["web"; "online"; "broadband"; "wifi"]);
    ("insurance", ["coverage"; "policy"; "premium"]);
    ("rent", ["rental"; "lease"; "leasing"]);
    ("utilities", ["electric"; "electricity"; "water"; "gas"; "power"]);
    ("marketing", ["advertising"; "promotion"; "ads"]);
    ("software", ["subscription"; "saas"; "app"; "application"]);
    ("training", ["education"; "learning"; "course"; "workshop"]);
    ("legal", ["attorney"; "lawyer"; "law"; "professional"]);
    ("accounting", ["bookkeeping"; "tax"; "financial"]);
    ("maintenance", ["repair"; "service"; "upkeep"]);
    ("entertainment", ["client"; "business"]) ].

(** [WaveClient.INCOME_SYNONYMS] *)
Definition INCOME_SYNONYMS : list (string * list string) :=
  [ ("sales", ["revenue"; "income"; "receipts"; "earnings"]);
    ("consulting", ["services"; "professional"; "advisory"; "expertise"]);
    ("freelance", ["contract"; "project"; "gig"; "independent"]);
    ("commission", ["referral"; "bonus"; "incentive"]);
    ("interest", ["dividend"; "investment"; "return"]);
    ("rental", ["rent"; "lease"; "property"; "real estate"; "rental income";
                "rent income"; "property income"; "leasing"; "tenant"]);
    ("royalty", ["licensing"; "intellectual property"; "patent"]);
    ("other", ["miscellaneous"; "misc"; "various"; "general"]) ].

(** ** Exceptions *)

Inductive exception : Type :=
| IndexError.

(** A computation that returns a value or raises. *)
Inductive exc (A : Type) : Type :=
| Value (a : A)
| Raise (e : exception).

Arguments Value {A} a.
Arguments Raise {A} e.

Definition bind {A B : Type} (c : exc A) (k : A -> exc B) : exc B :=
  match c with
  | Value a => k a
  | Raise e => Raise e
  end.

Notation "x <- c ;; k" := (bind c (fun x => k))
  (at level 61, c at next level, right associativity).

(** [l[i]] *)
Definition index {A : Type} (l : list A) (i : nat) : exc A :=
  match nth_error l i with
  | Some x => Value x
  | None => Raise IndexError
  end.

(** ** Control-flow helpers *)

(** A loop [for x in l: ... return ...] whose body either returns or goes on
    to the next element: the first result of [f] along [l]. *)
Fixpoint first_hit {A B : Type} (f : A -> option B) (l : list A) : option B :=
  match l with
  | [] => None
  | x :: r =>
      match f x with
      | Some y => Some y
      | None => first_hit f r
      end
  end.

(** The same loop when the body may raise. *)
Fixpoint first_hitM {A B : Type} (f : A -> exc (option B)) (l : list A)
  : exc (option B) :=
  match l with
  | [] => Value None
  | x :: r =>
      y <- f x ;;
      match y with
      | Some b => Value (Some b)
      | None => first_hitM f r
      end
  end.

(** Truth value of a list: [not l] holds of the empty list only. *)
Definition nonempty {A : Type} (l : list A) : bool :=
  match l with
  | [] => false
  | _ :: _ => true
  end.

(** [x > y] and [x >= y] on scores. *)
Definition Qgtb (x y : Q) : bool := negb (Qle_bool x y).
Definition Qgeb (x y : Q) : bool := Qle_bool y x.

(** ** Iteration order of a Python set *)

(** [list(set(xs))]: some duplicate-free enumeration of the elements of
    [xs]. *)
Class SetOrder : Type := {
  list_of_set : list string -> list string;
  list_of_set_NoDup : forall xs, NoDup (list_of_set xs);
  list_of_set_In : forall xs x, In x (list_of_set xs) <-> In x xs
}.

(** ** Account catalog filter (lines 467-499) *)

Definition strategy1 (account_type : string) (accounts : list Account) : list Account :=
  filter (fun acc => String.eqb (acc_type acc) account_type
                     && negb (isArchived acc)) accounts.

Definition strategy2 (account_type : string) (accounts : list Account) : list Account :=
  filter (fun acc => String.eqb (Py.lower (acc_type acc)) (Py.lower account_type)
                     && negb (isArchived acc)) accounts.

Definition income_variations : list string :=
  ["Income"; "INCOME"; "Revenue"; "REVENUE"; "income"].

Definition strategy3 (accounts : list Account) : list Account :=
  filter (fun acc => Py.mem (acc_type acc) income_variations
                     && negb (isArchived acc)) accounts.

Definition income_subtypes : list string :=
  ["INCOME"; "REVENUE"; "SALES"; "OTHER_INCOME"].

(** [acc["node"].get("subtype", {}).get("name", "")] *)
Definition subtype_name (acc : Account) : string :=
  match acc_subtype acc with
  | Some n => n
  | None => ""
  end.

Definition strategy4 (accounts : list Account) : list Account :=
  filter (fun acc => Py.mem (subtype_name acc) income_subtypes
                     && negb (isArchived acc)) accounts.

(** The value of [filtered_accounts] at line 501. *)
Definition filter_accounts (account_type : string) (accounts : list Account)
  : list Account :=
  let filtered_accounts := strategy1 account_type accounts in
  let filtered_accounts :=
    if negb (nonempty filtered_accounts)
    then strategy2 account_type accounts else filtered_accounts in
  let filtered_accounts :=
    if negb (nonempty filtered_accounts) && String.eqb account_type "Income"
    then strategy3 accounts else filtered_accounts in
  let filtered_accounts :=
    if negb (nonempty filtered_accounts) && String.eqb account_type "Income"
    then strategy4 accounts else filtered_accounts in
  filtered_accounts.

(** ** Numeric token extractor (lines 519-537) *)

Definition number_patterns : list Re.matcher :=
  [ Re.pat_unit_range;
    Re.pat_keyword_number "apartment";
    Re.pat_keyword_number "unit";
    Re.pat_three_digits ].

(** [all_user_text = f"{user_category} {user_context or ''}"] *)
Definition all_user_text (user_category : string) (user_context : option string)
  : string :=
  user_category ++ " " ++ match user_context with Some c => c | None => "" end.

(** The list [apartment_numbers] before duplicates are removed: the matches
    of the patterns, pattern after pattern. *)
Definition collect_matches (patterns : list Re.matcher) (text : string)
  : list string :=
  flat_map (fun pattern => Re.findall pattern (Py.lower text)) patterns.

(** ** Match pipeline (lines 511-668) *)

(** A returned tuple that names an account. *)
Definition found (account : Account) (s : Q) (expl : string) : MatchResult :=
  {| accountId := Some (acc_id account);
     accountName := Some (acc_name account);
     score := s;
     explanation := expl |}.

(** A returned tuple [None, None, 0.0, expl]. *)
Definition not_found (expl : string) : MatchResult :=
  {| accountId := None; accountName := None; score := 0.0%Q; explanation := expl |}.

(** The message of lines 505-508. *)
Definition error_msg (account_type : string) : string :=
  let error_msg := "No " ++ Py.lower account_type ++ " accounts found." in
  if String.eqb account_type "Income" then
    error_msg ++ " This might explain the rental income matching issue. "
    ++ "Try using the 'debug_accounts' tool to see all account types and identify your rental income accounts."
  else error_msg.

(** [', '.join([acc['name'] for acc in filtered_accounts[:3]])] *)
Definition available_accounts (filtered_accounts : list Account) : string :=
  Py.join ", " (map acc_name (firstn 3 filtered_accounts)).

(** *** Stage 0: apartment number (lines 541-548) *)

Definition stage0_test (number : string) (account : Account) : option MatchResult :=
  let account_name_lower := Py.lower (acc_name account) in
  if Py.contains number account_name_lower
     && Py.contains "rental" account_name_lower
  then Some (found account 0.98%Q
               ("Apartment-specific match: Found apartment " ++ number
                ++ " in '" ++ acc_name account ++ "'"))
  else None.

Definition stage0 (account_type : string) (apartment_numbers : list string)
  (filtered_accounts : list Account) : option MatchResult :=
  if nonempty apartment_numbers && String.eqb account_type "Income" then
    first_hit (fun number => first_hit (stage0_test number) filtered_accounts)
      apartment_numbers
  else None.

(** *** Stage 1: substring and prefix rules (lines 550-565) *)

Definition stage1_test (user_category user_category_lower : string)
  (account : Account) : exc (option MatchResult) :=
  let account_name_lower := Py.lower (acc_name account) in
  if Py.contains user_category_lower account_name_lower then
    Value (Some (found account 1.0%Q
                   ("Exact substring match: '" ++ user_category
                    ++ "' found in '" ++ acc_name account ++ "'")))
  else if Py.startswith account_name_lower user_category_lower then
    Value (Some (found account 0.95%Q
                   ("Prefix match: '" ++ acc_name account ++ "' starts with '"
                    ++ user_category ++ "'")))
  else
    let words_in_account := Py.split account_name_lower in
    if nonempty words_in_account then
      w0 <- index words_in_account 0 ;;
      if Py.startswith user_category_lower w0 then
        Value (Some (found account 0.92%Q
                       ("Category prefix match: '" ++ user_category
                        ++ "' starts with '" ++ w0 ++ "' from '"
                        ++ acc_name account ++ "'")))
      else Value None
    else Value None.

Definition stage1 (user_category user_category_lower : string)
  (filtered_accounts : list Account) : exc (option MatchResult) :=
  first_hitM (stage1_test user_category user_category_lower) filtered_accounts.

(** *** Stage 2: fuzzy and synonym scoring (lines 567-619) *)

(** The three variables [best_match], [best_score], [best_explanation]. *)
Record Best : Type := {
  best_match : option Account;
  best_score : Q;
  best_explanation : string
}.

Definition initial_best : Best :=
  {| best_match := None; best_score := 0.0%Q; best_explanation := "" |}.

(** [if s > best_score: best_match, best_score, best_explanation = ...] *)
Definition consider (account : Account) (s : Q) (expl : string) (st : Best) : Best :=
  if Qgtb s (best_score st) then
    {| best_match := Some account; best_score := s; best_explanation := expl |}
  else st.

(** Lines 572-576. *)
Definition direct_step (user_category_lower : string) (account : Account)
  (st : Best) : Best :=
  let similarity := Difflib.ratio user_category_lower (Py.lower (acc_name account)) in
  consider account similarity
    ("Direct fuzzy match (score: " ++ format_2f similarity ++ ")") st.

(** Lines 579-585. *)
Definition words_step (user_category user_category_lower : string)
  (account : Account) (st : Best) : Best :=
  fold_left
    (fun st word =>
       let word_similarity := Difflib.ratio user_category_lower word in
       consider account word_similarity
         ("Word match: '" ++ user_category ++ "' ~ '" ++ word ++ "' (score: "
          ++ format_2f word_similarity ++ ")") st)
    (Py.split (Py.lower (acc_name account))) st.

(** Lines 590-605: the category is the key or one of its synonyms; the key
    in the account name scores 0.9, a synonym in the account name 0.85. *)
Definition synonym_block1 (user_category user_category_lower : string)
  (account : Account) (key : string) (synonym_list : list string) (st : Best)
  : Best :=
  let account_name_lower := Py.lower (acc_name account) in
  if String.eqb user_category_lower key || Py.mem user_category_lower synonym_list
  then
    let st :=
      if Py.contains key account_name_lower then
        consider account 0.9%Q
          ("Synonym match: '" ++ user_category ++ "' relates to '" ++ key
           ++ "' found in '" ++ acc_name account ++ "'") st
      else st in
    fold_left
      (fun st synonym =>
         if Py.contains synonym account_name_lower then
           consider account 0.85%Q
             ("Synonym match: '" ++ user_category ++ "' relates to '"
              ++ synonym ++ "' found in '" ++ acc_name account ++ "'") st
         else st)
      synonym_list st
  else st.

(** Lines 607-615: the category is among [[key] + synonym_list]; any of
    these in the account name scores 0.88. *)
Definition synonym_block2 (user_category user_category_lower : string)
  (account : Account) (key : string) (synonym_list : list string) (st : Best)
  : Best :=
  let account_name_lower := Py.lower (acc_name account) in
  if Py.mem user_category_lower (key :: synonym_list) then
    fold_left
      (fun st synonym =>
         if Py.contains synonym account_name_lower then
           consider account 0.88%Q
             ("Synonym match: '" ++ user_category ++ "' relates to '"
              ++ synonym ++ "' in '" ++ acc_name account ++ "'") st
         else st)
      (key :: synonym_list) st
  else st.

(** The body of the loop over [synonyms.items()], lines 588-615. *)
Definition synonym_step (user_category user_category_lower : string)
  (account : Account) (st : Best) (entry : string * list string) : Best :=
  let '(key, synonym_list) := entry in
  synonym_block2 user_category user_category_lower account key synonym_list
    (synonym_block1 user_category user_category_lower account key synonym_list st).

(** The body of the loop over the accounts, lines 569-615. *)
Definition account_step (synonyms : list (string * list string))
  (user_category user_category_lower : string) (st : Best) (account : Account)
  : Best :=
  let st := direct_step user_category_lower account st in
  let st := words_step user_category user_category_lower account st in
  fold_left (synonym_step user_category user_category_lower account) synonyms st.

(** The values of the three variables behind the loop, at line 617. *)
Definition stage2 (synonyms : list (string * list string))
  (user_category user_category_lower : string)
  (filtered_accounts : list Account) : Best :=
  fold_left (account_step synonyms user_category user_category_lower)
    filtered_accounts initial_best.

(** Lines 618-619. *)
Definition accept (best : Best) : option MatchResult :=
  match best_match best with
  | Some m =>
      if Qgeb (best_score best) 0.6%Q
      then Some (found m (best_score best) (best_explanation best))
      else None
  | None => None
  end.

(** *** Stage 3: fallback (lines 621-668) *)

(** Lines 632-636: the key and synonyms of the first entry the category
    belongs to. *)
Fixpoint relevant_keywords (user_category_lower : string)
  (synonyms : list (string * list string)) : list string :=
  match synonyms with
  | [] => []
  | (key, synonym_list) :: rest =>
      if String.eqb user_category_lower key || Py.mem user_category_lower synonym_list
      then key :: synonym_list
      else relevant_keywords user_category_lower rest
  end.

(** Lines 639-646. *)
Definition keyword_fallback (user_category : string) (keywords : list string)
  (filtered_accounts : list Account) : option MatchResult :=
  if nonempty keywords then
    first_hit
      (fun account =>
         first_hit
           (fun keyword =>
              if Py.contains keyword (Py.lower (acc_name account)) then
                Some (found account 0.5%Q
                        ("Fallback match: Found '" ++ keyword ++ "' in '"
                         ++ acc_name account ++ "' based on category '"
                         ++ user_category ++ "'. Available accounts: "
                         ++ available_accounts filtered_accounts))
              else None)
           keywords)
      filtered_accounts
  else None.

Definition avoid_terms : list string :=
  ["foreign"; "exchange"; "gain"; "loss"; "interest"; "dividend"].

(** Lines 649-656. *)
Definition rental_fallback (user_category_lower : string)
  (filtered_accounts : list Account) : option MatchResult :=
  if Py.mem user_category_lower ["rent"; "rental"; "property"]
     && Nat.ltb 1 (List.length filtered_accounts)
  then
    first_hit
      (fun account =>
         if negb (existsb (fun avoid_term =>
                             Py.contains avoid_term (Py.lower (acc_name account)))
                    avoid_terms)
         then Some (found account 0.2%Q
                      ("Smart fallback: Selected '" ++ acc_name account
                       ++ "' (avoided obviously unrelated accounts). Available accounts: "
                       ++ available_accounts filtered_accounts))
         else None)
      filtered_accounts
  else None.

(** Lines 659-666. *)
Definition default_fallback (user_category account_type : string)
  (filtered_accounts : list Account) : exc MatchResult :=
  first_account <- index filtered_accounts 0 ;;
  let explanation :=
    "No good match for '" ++ user_category ++ "'. Using default: '"
    ++ acc_name first_account ++ "'. Available accounts: "
    ++ available_accounts filtered_accounts in
  let explanation :=
    if Nat.eqb (List.length filtered_accounts) 1 then
      explanation ++ ". ‚ö†Ô∏è WARNING: Only one " ++ Py.lower account_type
      ++ " account found - this suggests account filtering issues. Use 'debug_accounts' tool to investigate."
    else explanation in
  Value (found first_account 0.1%Q explanation).

(** Lines 624-626. *)
Definition low_confidence (best : Best) (filtered_accounts : list Account)
  : option MatchResult :=
  match best_match best with
  | Some m =>
      if Qgtb (best_score best) 0.3%Q then
        Some (found m (best_score best)
                ("Best available match (low confidence): "
                 ++ best_explanation best ++ ". Available accounts: "
                 ++ available_accounts filtered_accounts))
      else None
  | None => None
  end.

(** Lines 622-668; the last line is reached with an empty list only. *)
Definition stage3 (synonyms : list (string * list string))
  (user_category user_category_lower account_type : string)
  (best : Best) (filtered_accounts : list Account) : exc MatchResult :=
  if nonempty filtered_accounts then
    match low_confidence best filtered_accounts with
    | Some r => Value r
    | None =>
        match keyword_fallback user_category
                (relevant_keywords user_category_lower synonyms)
                filtered_accounts with
        | Some r => Value r
        | None =>
            match rental_fallback user_category_lower filtered_accounts with
            | Some r => Value r
            | None =>
                default_fallback user_category account_type filtered_accounts
            end
        end
    end
  else
    Value (not_found ("No " ++ Py.lower account_type ++ " accounts available")).

(** *** The engine *)

Section Engine.

Context {set_order : SetOrder}.

(** The value of [apartment_numbers] at line 537. *)
Definition extract_numbers (patterns : list Re.matcher)
  (user_category : string) (user_context : option string) : list string :=
  list_of_set (collect_matches patterns (all_user_text user_category user_context)).

(** The pipeline behind the two guards, on the filtered accounts. *)
Definition match_pipeline (user_category account_type : string)
  (user_context : option string) (filtered_accounts : list Account)
  : exc MatchResult :=
  let user_category_lower := Py.strip (Py.lower user_category) in
  let synonyms :=
    if String.eqb account_type "Expenses" then EXPENSE_SYNONYMS
    else INCOME_SYNONYMS in
  let apartment_numbers :=
    extract_numbers number_patterns user_category user_context in
  match stage0 account_type apartment_numbers filtered_accounts with
  | Some r => Value r
  | None =>
      hit <- stage1 user_category user_category_lower filtered_accounts ;;
      match hit with
      | Some r => Value r
      | None =>
          let best :=
            stage2 synonyms user_category user_category_lower filtered_accounts in
          match accept best with
          | Some r => Value r
          | None =>
              stage3 synonyms user_category user_category_lower account_type
                best filtered_accounts
          end
      end
  end.

(** [WaveClient.find_best_account_match] *)
Definition find_best_account_match (user_category : string)
  (accounts : list Account) (account_type : string)
  (user_context : option string) : exc MatchResult :=
  if negb (Py.truthy user_category) then Value (not_found "No category provided")
  else
    let filtered_accounts := filter_accounts account_type accounts in
    if negb (nonempty filtered_accounts)
    then Value (not_found (error_msg account_type))
    else match_pipeline user_category account_type user_context filtered_accounts.

End Engine.

(** An enumeration order for running the engine: the last occurrence of each
    element is kept, in the order of the list. *)
#[export] Instance list_order : SetOrder := {|
  list_of_set := nodup string_dec;
  list_of_set_NoDup := NoDup_nodup string_dec;
  list_of_set_In := fun xs x => nodup_In string_dec xs x
|}.

(** ** Sample charts of accounts *)

(** An account that is not archived, with its name as identifier. *)
Definition sample_account (type name : string) : Account :=
  {| acc_id := "Account:" ++ name;
     acc_name := name;
     acc_type := type;
     acc_subtype := None;
     isArchived := false |}.

Definition expense_account : string -> Account := sample_account "Expenses".
Definition income_account : string -> Account := sample_account "Income".

(** ** Predicates of the statements *)

(** The result names an account of the list [l], with a score of at least
    [0.1] and an explanation that is not empty. *)
Definition names_account (l : list Account) (r : MatchResult) : Prop :=
  exists acc,
    In acc l
    /\ accountId r = Some (acc_id acc)
    /\ accountName r = Some (acc_name acc)
    /\ (0.1 <= score r)%Q
    /\ explanation r <> "".

(** The test of stage 0 on one number and one account. *)
Definition qualifies (number : string) (account : Account) : bool :=
  Py.contains number (Py.lower (acc_name account))
  && Py.contains "rental" (Py.lower (acc_name account)).

(** The value of a computation that does not raise. *)
Definition value_of {B : Type} (c : exc (option B)) : option B :=
  match c with
  | Value o => o
  | Raise _ => None
  end.

(** The shapes of the explanations that stage 2 writes. *)
Definition stage2_expl (e : string) : Prop :=
  exists rest,
    e = "Direct fuzzy match (score: " ++ rest
    \/ e = "Word match: '" ++ rest
    \/ e = "Synonym match: '" ++ rest.

(** [f] updates the best match by a sequence of steps [consider account _ _]
    with explanations of stage 2: it keeps every property that these steps
    keep. *)
Definition considers (account : Account) (f : Best -> Best) : Prop :=
  forall P : Best -> Prop,
    (forall st s e, stage2_expl e -> P st -> P (consider account s e st)) ->
    forall st, P st -> P (f st).

(** The three variables agree: without a best match the score and the
    explanation are the initial ones; a best match is a filtered account and
    comes with an explanation of stage 2. *)
Definition best_ok (l : list Account) (st : Best) : Prop :=
  match best_match st with
  | Some m => In m l /\ stage2_expl (best_explanation st)
  | None => best_score st = 0.0%Q /\ best_explanation st = ""
  end.

(** The score never goes down. *)
Definition inflationary (f : Best -> Best) : Prop :=
  forall st, (best_score st <= best_score (f st))%Q.

(** The shapes of the explanations that stage 3 writes. *)
Definition stage3_expl (e : string) : Prop :=
  exists rest,
    e = "Best available match (low confidence): " ++ rest
    \/ e = "Fallback match: Found '" ++ rest
    \/ e = "Smart fallback: Selected '" ++ rest
    \/ e = "No " ++ rest.

(** The category is the key or one of its synonyms. *)
Definition related (user_category_lower key : string)
  (synonym_list : list string) : Prop :=
  user_category_lower = key \/ In user_category_lower synonym_list.

(** A block of the window [alo, ahi) of the first sequence. *)
Definition block_in (alo ahi : nat) (best : Difflib.block) : Prop :=
  let '(besti, _, bestsize) := best in
  alo <= besti /\ besti + bestsize <= ahi.

(** No length recorded in [j2len] exceeds [n]. *)
Definition j2len_bounded (n : nat) (j2len : list (nat * nat)) : Prop :=
  Forall (fun p => snd p <= n) j2len.

(** A block of the window [blo, bhi) of the second sequence. *)
Definition block_in_b (blo bhi : nat) (best : Difflib.block) : Prop :=
  let '(_, bestj, bestsize) := best in
  blo <= bestj /\ bestj + bestsize <= bhi.

(** Every entry [(j, k)] of [j2len] is a run of [k] elements that ends at
    [j] inside the window [blo, bhi). *)
Definition j2len_in (blo bhi : nat) (j2len : list (nat * nat)) : Prop :=
  Forall (fun p => blo + snd p <= fst p + 1 /\ fst p < bhi) j2len.

(** [f] keeps the best score at or below 1. *)
Definition keeps_unit (f : Best -> Best) : Prop :=
  forall st, (best_score st <= 1)%Q -> (best_score (f st) <= 1)%Q.

(** Comparison of two score literals. *)
Ltac score_literal := apply Qle_bool_iff; reflexivity.

(** * The tool layer

    The rest of src/mcp_server.py: the pagination of the chart of accounts,
    the selection of the accounts of a transaction and the tool handlers.  A
    handler awaits requests to the Wave API; the model takes the outcome of
    each awaited request as an argument, a value or the exception that the
    request raised. *)

(** ** Exceptions with their text *)

(** The exceptions that the tool layer can meet, as far as [str(e)] tells
    them apart: a missing dictionary key, a list subscript out of range, and
    any exception of a request to the API with its text. *)
Inductive failure : Type :=
| KeyError (key : string)
| ListIndexError
| RequestError (message : string).

(** [str(e)] *)
Definition str_of_failure (e : failure) : string :=
  match e with
  | KeyError key => "'" ++ key ++ "'"
  | ListIndexError => "list index out of range"
  | RequestError message => message
  end.

(** The outcome of a computation of the tool layer. *)
Inductive res (A : Type) : Type :=
| Ok (a : A)
| Err (e : failure).

Arguments Ok {A} a.
Arguments Err {A} e.

Definition res_bind {A B : Type} (c : res A) (k : A -> res B) : res B :=
  match c with
  | Ok a => k a
  | Err e => Err e
  end.

Notation "x <~ c ;; k" := (res_bind c (fun x => k))
  (at level 61, c at next level, right associativity).

(** An outcome of the engine as an outcome of the tool layer. *)
Definition res_of_exc {A : Type} (c : exc A) : res A :=
  match c with
  | Value a => Ok a
  | Raise IndexError => Err ListIndexError
  end.

(** A list comprehension [[x for x in l if p(x)]] whose condition may
    raise: the elements are tested in order. *)
Fixpoint filter_res {A : Type} (p : A -> res bool) (l : list A)
  : res (list A) :=
  match l with
  | [] => Ok []
  | x :: r =>
      b <~ p x ;;
      rest <~ filter_res p r ;;
      Ok (if b then x :: rest else rest)
  end.

(** ** WaveClient.get_accounts (lines 170-268) *)

(** The object [pageInfo] of a response; either field may be missing. *)
Record PageInfo : Type := {
  currentPage : option Z;
  totalPages : option Z
}.

(** [result["data"]["business"]["accounts"]]: the accounts of one page and
    the pagination data, which may be missing. *)
Record AccountsResponse : Type := {
  edges : list Account;
  pageInfo : option PageInfo
}.

(** [accounts_response.get("pageInfo", {}).get(field, default)] *)
Definition page_info_get (field : PageInfo -> option Z)
  (accounts_response : AccountsResponse) (default : Z) : Z :=
  match pageInfo accounts_response with
  | Some page_info =>
      match field page_info with
      | Some v => v
      | None => default
      end
  | None => default
  end.

(** The loop of lines 176-236 from the state [(page, all_accounts)];
    [request page] is the outcome of the request for that page.  The loop
    leaves when the page reached is the last one or when [page] passes 20;
    [fuel] counts the rounds left. *)
Fixpoint get_accounts_loop (request : Z -> res AccountsResponse) (fuel : nat)
  (page : Z) (all_accounts : list Account) : res (list Account) :=
  match fuel with
  | O => Ok all_accounts
  | S fuel' =>
      accounts_response <~ request page ;;
      let all_accounts := (all_accounts ++ edges accounts_response)%list in
      let current_page := page_info_get currentPage accounts_response page in
      let total_pages := page_info_get totalPages accounts_response 1%Z in
      if (current_page >=? total_pages)%Z then Ok all_accounts
      else
        let page := (page + 1)%Z in
        if (page >? 20)%Z then Ok all_accounts
        else get_accounts_loop request fuel' page all_accounts
  end.

(** [WaveClient.get_accounts]; the statistics that the function logs behind
    the loop do not change the list. *)
Definition get_accounts (request : Z -> res AccountsResponse)
  : res (list Account) :=
  get_accounts_loop request 20 1%Z [].

(** ** WaveClient.get_anchor_accounts (lines 355-364) *)

(** [acc["node"]["subtype"]["name"]] *)
Definition subtype_required (acc : Account) : res string :=
  match acc_subtype acc with
  | Some n => Ok n
  | None => Err (KeyError "subtype")
  end.

Definition anchor_types : list string :=
  ["Assets"; "Liabilities & Credit Cards"].

Definition anchor_subtypes : list string :=
  ["Cash & Bank"; "Credit Card"; "Loan and Line of Credit"].

(** The condition of the comprehension, from left to right. *)
Definition anchor_test (acc : Account) : res bool :=
  if Py.mem (acc_type acc) anchor_types then
    subtype <~ subtype_required acc ;;
    Ok (Py.mem subtype anchor_subtypes && negb (isArchived acc))
  else Ok false.

(** The comprehension of lines 358-363 over the accounts received. *)
Definition anchor_accounts_of (accounts : list Account) : res (list Account) :=
  filter_res anchor_test accounts.

(** [WaveClient.get_anchor_accounts] *)
Definition get_anchor_accounts (request : Z -> res AccountsResponse)
  : res (list Account) :=
  accounts <~ get_accounts request ;;
  anchor_accounts_of accounts.

(** The pages [first], [first + 1], ... ([count] of them) of a server whose
    requests all succeed. *)
Fixpoint pages_from (page_edges : Z -> list Account) (first : Z) (count : nat)
  : list Account :=
  match count with
  | O => []
  | S n => (page_edges first ++ pages_from page_edges (first + 1)%Z n)%list
  end.

(** ** decode_business_id (lines 50-70)

    A [bytes] object is a Rocq [string] of 8-bit characters, and in this part
    a [str] is given by its UTF-8 encoding, so that [bytes.decode('utf-8')]
    is the identity on valid input; the literal 'Business:' is ASCII, its
    length in characters is its length in bytes. *)

Module Base64.

(** The value of a character of the alphabet [A-Za-z0-9+/], the table
    [table_a2b_base64] of binascii. *)
Definition value (ch : ascii) : option nat :=
  let n := nat_of_ascii ch in
  if Nat.leb 65 n && Nat.leb n 90 then Some (n - 65)
  else if Nat.leb 97 n && Nat.leb n 122 then Some (n - 71)
  else if Nat.leb 48 n && Nat.leb n 57 then Some (n + 4)
  else if Nat.eqb n 43 then Some 62
  else if Nat.eqb n 47 then Some 63
  else None.

(** The character of a value below 64, the table [table_b2a_base64]. *)
Definition char (v : nat) : ascii :=
  if Nat.ltb v 26 then ascii_of_nat (v + 65)
  else if Nat.ltb v 52 then ascii_of_nat (v + 71)
  else if Nat.ltb v 62 then ascii_of_nat (v - 4)
  else if Nat.eqb v 62 then "+"%char
  else "/"%char.

Definition pad : ascii := "="%char.

(** [base64.b64encode(s)]: three bytes give four characters, and the last
    one or two bytes are padded. *)
Fixpoint b64encode (s : string) : string :=
  match s with
  | EmptyString => EmptyString
  | String a EmptyString =>
      let x := nat_of_ascii a in
      String (char (x / 4)) (String (char (x mod 4 * 16))
        (String pad (String pad EmptyString)))
  | String a (String b EmptyString) =>
      let x := nat_of_ascii a in
      let y := nat_of_ascii b in
      String (char (x / 4)) (String (char (x mod 4 * 16 + y / 16))
        (String (char (y mod 16 * 4)) (String pad EmptyString)))
  | String a (String b (String c r)) =>
      let x := nat_of_ascii a in
      let y := nat_of_ascii b in
      let z := nat_of_ascii c in
      String (char (x / 4)) (String (char (x mod 4 * 16 + y / 16))
        (String (char (y mod 16 * 4 + z / 64)) (String (char (z mod 64))
          (b64encode r))))
  end.

(** The loop of [binascii.a2b_base64] without strict mode, from the state
    [(quad_pos, leftchar, pads)] with the bytes written so far in [out],
    last one first.  Characters outside the alphabet are passed over; a pad
    character ends the input when it completes a group of four; input that
    ends inside a group raises [binascii.Error], here [None].  The bits that
    the C code joins with a bitwise or do not overlap, so the or is a sum. *)
Fixpoint a2b_loop (s : string) (quad_pos leftchar pads : nat)
  (out : list ascii) : option string :=
  match s with
  | EmptyString =>
      if Nat.eqb quad_pos 0 then Some (string_of_list_ascii (rev out))
      else None
  | String this_ch rest =>
      if Ascii.eqb this_ch pad then
        if Nat.leb 2 quad_pos then
          if Nat.leb 4 (quad_pos + (pads + 1))
          then Some (string_of_list_ascii (rev out))
          else a2b_loop rest quad_pos leftchar (pads + 1) out
        else a2b_loop rest quad_pos leftchar pads out
      else
        match value this_ch with
        | None => a2b_loop rest quad_pos leftchar pads out
        | Some v =>
            match quad_pos with
            | 0 => a2b_loop rest 1 v 0 out
            | 1 =>
                a2b_loop rest 2 (v mod 16) 0
                  (ascii_of_nat ((leftchar * 4 + v / 16) mod 256) :: out)
            | 2 =>
                a2b_loop rest 3 (v mod 4) 0
                  (ascii_of_nat ((leftchar * 16 + v / 4) mod 256) :: out)
            | _ =>
                a2b_loop rest 0 0 0
                  (ascii_of_nat ((leftchar * 64 + v) mod 256) :: out)
            end
        end
  end.

(** [s.encode('ascii')] succeeds: every character is below 128. *)
Fixpoint is_ascii (s : string) : bool :=
  match s with
  | EmptyString => true
  | String c r => Nat.ltb (nat_of_ascii c) 128 && is_ascii r
  end.

(** [base64.b64decode(s)] for a [str]; [None] when it raises. *)
Definition b64decode (s : string) : option string :=
  if is_ascii s then a2b_loop s 0 0 0 [] else None.

End Base64.

Module Utf8.

(** A byte in the range [lo, hi]. *)
Definition between (lo hi : nat) (c : ascii) : bool :=
  Nat.leb lo (nat_of_ascii c) && Nat.leb (nat_of_ascii c) hi.

(** A continuation byte. *)
Definition cont (c : ascii) : bool := between 128 191 c.

(** The strict decoder accepts the input: every sequence is well formed
    (no overlong form, no surrogate, nothing above U+10FFFF).  [n] bounds
    the number of sequences. *)
Fixpoint valid_fuel (n : nat) (s : string) : bool :=
  match n with
  | O => match s with EmptyString => true | _ => false end
  | S n' =>
      match s with
      | EmptyString => true
      | String a r =>
          if between 0 127 a then valid_fuel n' r
          else
            match r with
            | String b r1 =>
                if between 194 223 a then cont b && valid_fuel n' r1
                else
                  match r1 with
                  | String c r2 =>
                      if between 224 239 a then
                        (if between 224 224 a then between 160 191 b
                         else if between 237 237 a then between 128 159 b
                         else cont b)
                        && cont c && valid_fuel n' r2
                      else
                        match r2 with
                        | String d r3 =>
                            between 240 244 a
                            && (if between 240 240 a then between 144 191 b
                                else if between 244 244 a then between 128 143 b
                                else cont b)
                            && cont c && cont d && valid_fuel n' r3
                        | EmptyString => false
                        end
                  | EmptyString => false
                  end
            | EmptyString => false
            end
      end
  end.

(** [bytes.decode('utf-8')] does not raise. *)
Definition valid (s : string) : bool := valid_fuel (String.length s) s.

End Utf8.

(** [decoded[len('Business:'):]] when [decoded] starts with 'Business:',
    [decoded] otherwise. *)
Definition strip_business_prefix (decoded : string) : string :=
  if Py.startswith decoded "Business:"
  then String.substring 9 (String.length decoded - 9) decoded
  else decoded.

(** [decode_business_id]: any exception of the decoding gives the argument
    back. *)
Definition decode_business_id (encoded_business_id : string) : string :=
  match Base64.b64decode encoded_business_id with
  | Some bytes =>
      if Utf8.valid bytes then strip_business_prefix bytes
      else encoded_business_id
  | None => encoded_business_id
  end.

(** The value that [main] (line 1343) stores for the environment variable
    WAVE_BUSINESS_ID. *)
Definition encode_business_id (business_id : string) : string :=
  Base64.b64encode ("Business:" ++ business_id).

(** ** The tool handlers (lines 920-1324)

    The texts are those of the source, byte for byte; [nl] is the line feed
    that the source writes as a backslash followed by n in a string
    literal. *)

Definition nl : string := String (ascii_of_nat 10) EmptyString.

(** A vendor or customer node, with the fields the handlers read. *)
Record Contact : Type := {
  contact_id : string;
  contact_name : string;
  contact_email : option string
}.

(** One entry of [inputErrors]; [error_path] is the text of [err['path']]. *)
Record InputError : Type := {
  error_path : string;
  error_message : string
}.

(** The object [moneyTransactionCreate] of a response; [transaction] is null
    when the creation failed. *)
Record CreateResult : Type := {
  didSucceed : bool;
  transaction_id : option string;
  inputErrors : list InputError
}.

(** The arguments of [WaveClient.create_expense] and
    [WaveClient.create_income]; [call_party_id] is the vendor or customer. *)
Record TransactionCall : Type := {
  call_business_id : string;
  call_party_id : option string;
  call_account_id : string;
  call_anchor_account_id : string;
  call_amount : string;
  call_date : string;
  call_description : string
}.

(** The outcomes of the requests that a handler awaits: the vendors, the
    customers, the pages of the chart of accounts at the call of
    [get_accounts] and at the later call within [get_anchor_accounts], and
    the two creations. *)
Record Api : Type := {
  api_vendors : res (list Contact);
  api_customers : res (list Contact);
  api_accounts : Z -> res AccountsResponse;
  api_anchor_accounts : Z -> res AccountsResponse;
  api_create_expense : TransactionCall -> res CreateResult;
  api_create_income : TransactionCall -> res CreateResult
}.

(** The dictionary [arguments], with string values as the input schemas
    declare them. *)
Definition Arguments : Type := string -> option string.

(** [arguments[key]] *)
Definition required (arguments : Arguments) (key : string) : res string :=
  match arguments key with
  | Some v => Ok v
  | None => Err (KeyError key)
  end.

(** [arguments.get(key, default)] *)
Definition get_default (arguments : Arguments) (key default : string) : string :=
  match arguments key with
  | Some v => v
  | None => default
  end.

(** Truth value of an optional string: [None] and the empty string are
    false. *)
Definition truthy_opt (x : option string) : bool :=
  match x with
  | Some s => Py.truthy s
  | None => false
  end.

(** [x or default] *)
Definition or_else (x : option string) (default : string) : string :=
  match x with
  | Some s => if Py.truthy s then s else default
  | None => default
  end.

(** [f"{x}"] for an optional string. *)
Definition str_of_option (x : option string) : string :=
  match x with
  | Some s => s
  | None => "None"
  end.

(** [l[i]] in the tool layer. *)
Definition index_res {A : Type} (l : list A) (i : nat) : res A :=
  match nth_error l i with
  | Some x => Ok x
  | None => Err ListIndexError
  end.

(** [f"{x:.1%}"] for [0 <= x]: the double nearest to 100 times the float,
    with one fraction digit, ties to even.  [binary64] is exact for the
    product as well, which stays far below 2^52. *)
Definition format_percent1 (x : Q) : string :=
  let '(m, k) := binary64 x in
  let '(m2, k2) := binary64 (Qmake (m * 100) (Z.to_pos (2 ^ k))) in
  let n := Z.to_nat (round_half_even (m2 * 10) (2 ^ k2)) in
  string_of_nat (n / 10) ++ "." ++ string_of_nat (n mod 10) ++ "%".

(** [x < y] on scores. *)
Definition Qltb (x y : Q) : bool := negb (Qle_bool y x).

(** A handler either returns a text before the creation or goes on with the
    values it has gathered. *)
Inductive step (A : Type) : Type :=
| Reply (text : string)
| Proceed (a : A).

Arguments Reply {A} text.
Arguments Proceed {A} a.

Definition no_client_text : string :=
  ("Error: Wave client not initialized. Please check your WAVE_ACCESS_TOKEN environment variable.").

Definition no_business_text : string :=
  ("Error: No business selected. Use set_business tool first.").

(** The loops of lines 966, 990, 1139 and 1163: the first node whose name is
    the name asked for, up to case. *)
Definition find_contact (name : string) (contacts : list Contact)
  : option Contact :=
  find (fun c => String.eqb (Py.lower (contact_name c)) (Py.lower name))
    contacts.

(** The loops of lines 1019 and 1194. *)
Definition find_anchor (name : string) (anchor_accounts : list Account)
  : option Account :=
  find (fun account => String.eqb (Py.lower (acc_name account)) (Py.lower name))
    anchor_accounts.

(** Lines 1014-1033 and 1189-1208: the anchor account of the transaction.
    A requested account is looked up by name; when it is not found the
    handler returns [not_found]; without a request the first anchor account
    is taken. *)
Definition select_anchor (requested : option string) (not_found : string)
  (anchor_accounts : list Account) : res (step (string * string)) :=
  let found :=
    match requested with
    | Some name => if Py.truthy name then find_anchor name anchor_accounts
                   else None
    | None => None
    end in
  let anchor_account_id := option_map acc_id found in
  let anchor_account_name := option_map acc_name found in
  if truthy_opt requested && negb (truthy_opt anchor_account_id)
  then Ok (Reply not_found)
  else if negb (truthy_opt anchor_account_id) then
    first <~ index_res anchor_accounts 0 ;;
    Ok (Proceed (acc_id first, acc_name first))
  else
    Ok (Proceed (str_of_option anchor_account_id,
                 str_of_option anchor_account_name)).

(** The values that a creating handler holds when it calls the API. *)
Record Plan : Type := {
  party_name : option string;
  party_id : option string;
  plan_amount : string;
  plan_date : string;
  plan_category : string;
  plan_description : string;
  plan_context : string;
  requested_account : option string;
  plan_account_id : option string;
  plan_account_name : option string;
  plan_score : Q;
  plan_explanation : string;
  plan_anchor_id : string;
  plan_anchor_name : string
}.

(** [", ".join([f"{err['path']}: {err['message']}" for err in ...])] *)
Definition input_errors_text (errors : list InputError) : string :=
  Py.join (", ")
    (map (fun err => (error_path err ++ ": " ++ error_message err)) errors).

(** [result["transaction"]["id"]] *)
Definition transaction_id_required (result : CreateResult) : res string :=
  match transaction_id result with
  | Some id => Ok id
  | None => Err (RequestError "'NoneType' object is not subscriptable")
  end.

Section Handlers.

Context {set_order : SetOrder}.

Variable api : Api.

(** Lines 935-955. *)
Definition get_expense_accounts_tool (business_id : option string) : res string :=
  if negb (truthy_opt business_id) then Ok no_business_text
  else
    accounts <~ get_accounts (api_accounts api) ;;
    let expense_accounts :=
      filter (fun acc => Py.mem (acc_type acc)
                           ["Expenses"; "EXPENSE"; "COST_OF_GOODS_SOLD"]
                         && negb (isArchived acc)) accounts in
    if negb (nonempty expense_accounts)
    then Ok ("No expense accounts found in this business.")
    else
      fold_left
        (fun result acc =>
           result <~ result ;;
           let result := result ++ ("**" ++ acc_name acc ++ "**" ++ nl) in
           let result := result ++ ("  - ID: `" ++ acc_id acc ++ "`" ++ nl) in
           subtype <~ subtype_required acc ;;
           Ok (result ++ ("  - Type: " ++ subtype ++ nl ++ nl)))
        expense_accounts
        (Ok ("üìä **Available Expense Accounts** ("
    ++ string_of_nat (List.length expense_accounts) ++ " found):" ++ nl ++ nl)).

(** Lines 1108-1128. *)
Definition get_income_accounts_tool (business_id : option string) : res string :=
  if negb (truthy_opt business_id) then Ok no_business_text
  else
    accounts <~ get_accounts (api_accounts api) ;;
    let income_accounts :=
      filter (fun acc => Py.mem (acc_type acc) ["Income"; "INCOME"]
                         && negb (isArchived acc)) accounts in
    if negb (nonempty income_accounts)
    then Ok ("No income accounts found in this business.")
    else
      fold_left
        (fun result acc =>
           result <~ result ;;
           let result := result ++ ("**" ++ acc_name acc ++ "**" ++ nl) in
           let result := result ++ ("  - ID: `" ++ acc_id acc ++ "`" ++ nl) in
           subtype <~ subtype_required acc ;;
           Ok (result ++ ("  - Type: " ++ subtype ++ nl ++ nl)))
        income_accounts
        (Ok ("üí∞ **Available Income Accounts** ("
    ++ string_of_nat (List.length income_accounts) ++ " found):" ++ nl ++ nl)).

(** Lines 957-971. *)
Definition search_vendor_tool (business_id : option string)
  (arguments : Arguments) : res string :=
  if negb (truthy_opt business_id) then Ok no_business_text
  else
    vendor_name <~ required arguments "vendor_name" ;;
    vendors <~ api_vendors api ;;
    match find_contact vendor_name vendors with
    | Some vendor =>
        Ok ("‚úÖ Found existing vendor: **" ++ contact_name vendor ++ "**" ++ nl
    ++ "- ID: `" ++ contact_id vendor ++ "`" ++ nl ++ "- Email: "
    ++ or_else (contact_email vendor) "Not provided")
    | None =>
        Ok ("‚ùå Vendor '" ++ vendor_name ++ "' not found." ++ nl ++ nl
    ++ "üí° **To add this vendor:**" ++ nl ++ "1. Go to Wave's web interface"
    ++ nl ++ "2. Navigate to Purchases ‚Üí Vendors" ++ nl
    ++ "3. Click 'Add a vendor'" ++ nl ++ "4. Enter vendor details" ++ nl
    ++ "5. Try creating the expense again")
    end.

(** Lines 1130-1144. *)
Definition search_customer_tool (business_id : option string)
  (arguments : Arguments) : res string :=
  if negb (truthy_opt business_id) then Ok no_business_text
  else
    customer_name <~ required arguments "customer_name" ;;
    customers <~ api_customers api ;;
    match find_contact customer_name customers with
    | Some customer =>
        Ok ("‚úÖ Found existing customer: **" ++ contact_name customer ++ "**" ++ nl
    ++ "- ID: `" ++ contact_id customer ++ "`" ++ nl ++ "- Email: "
    ++ or_else (contact_email customer) "Not provided")
    | None =>
        Ok ("‚ùå Customer '" ++ customer_name ++ "' not found." ++ nl ++ nl
    ++ "üí° **To add this customer:**" ++ nl
    ++ "1. Go to Wave's web interface" ++ nl
    ++ "2. Navigate to Sales ‚Üí Customers" ++ nl
    ++ "3. Click 'Add a customer'" ++ nl ++ "4. Enter customer details" ++ nl
    ++ "5. Try creating the income transaction again")
    end.

(** Lines 985-997 and 1158-1170: the identifier of the vendor or customer,
    looked up only when a name is given. *)
Definition lookup_party (name : option string) (contacts : res (list Contact))
  : res (option string) :=
  if truthy_opt name then
    contacts <~ contacts ;;
    Ok (option_map contact_id (find_contact (str_of_option name) contacts))
  else Ok None.

(** Lines 1027-1028. *)
Definition payment_account_not_found (payment_account : string)
  (anchor_accounts : list Account) : string :=
  ("‚ùå Payment account '" ++ payment_account
    ++ "' not found.\n\nüí° **Available payment accounts:**\n")
  ++ Py.join ("\n")
       (map (fun acc => ("- " ++ acc)) (map acc_name anchor_accounts)).

(** Lines 1202-1203. *)
Definition deposit_account_not_found (deposit_to_account : string)
  (anchor_accounts : list Account) : string :=
  ("‚ùå Deposit account '" ++ deposit_to_account ++ "' not found." ++ nl
    ++ nl ++ "üí° **Available deposit accounts:**" ++ nl)
  ++ Py.join (nl)
       (map (fun acc => ("- " ++ acc)) (map acc_name anchor_accounts)).

(** Lines 974-1033 of [create_expense_from_receipt]: up to the call of
    [create_expense]. *)
Definition expense_plan (business_id : option string) (arguments : Arguments)
  : res (step Plan) :=
  if negb (truthy_opt business_id) then Ok (Reply no_business_text)
  else
    let vendor_name := arguments "vendor_name" in
    amount <~ required arguments "amount" ;;
    date <~ required arguments "date" ;;
    let category := get_default arguments "category" "General Expenses" in
    let description := get_default arguments "description" "" in
    receipt_text <~ required arguments "receipt_text" ;;
    let payment_account := arguments "payment_account" in
    vendor_id <~ lookup_party vendor_name (api_vendors api) ;;
    accounts <~ get_accounts (api_accounts api) ;;
    matched <~ res_of_exc
                 (find_best_account_match category accounts "Expenses"
                    (Some description)) ;;
    if negb (truthy_opt (accountId matched))
    then Ok (Reply ("Error: No expense accounts found"))
    else
      anchor_accounts <~ get_anchor_accounts (api_anchor_accounts api) ;;
      if negb (nonempty anchor_accounts)
      then Ok (Reply ("Error: No bank or credit card accounts found to pay from"))
      else
        anchor <~ select_anchor payment_account
                    (payment_account_not_found (str_of_option payment_account)
                       anchor_accounts)
                    anchor_accounts ;;
        match anchor with
        | Reply text => Ok (Reply text)
        | Proceed (anchor_account_id, anchor_account_name) =>
            Ok (Proceed
                  {| party_name := vendor_name;
                     party_id := vendor_id;
                     plan_amount := amount;
                     plan_date := date;
                     plan_category := category;
                     plan_description := description;
                     plan_context := receipt_text;
                     requested_account := payment_account;
                     plan_account_id := accountId matched;
                     plan_account_name := accountName matched;
                     plan_score := score matched;
                     plan_explanation := explanation matched;
                     plan_anchor_id := anchor_account_id;
                     plan_anchor_name := anchor_account_name |})
        end.

(** Lines 1036-1044: the arguments of [create_expense]. *)
Definition expense_call (business_id : option string) (plan : Plan)
  : TransactionCall :=
  let vendor_name := party_name plan in
  {| call_business_id := str_of_option business_id;
     call_party_id := party_id plan;
     call_account_id := str_of_option (plan_account_id plan);
     call_anchor_account_id := plan_anchor_id plan;
     call_amount := plan_amount plan;
     call_date := plan_date plan;
     call_description :=
       if Py.truthy (plan_description plan) then plan_description plan
       else ("Expense - " ++ or_else vendor_name "Unknown Vendor") |}.

(** Lines 1046-1073: the text for the outcome of the creation. *)
Definition expense_report (plan : Plan) (expense_result : CreateResult)
  : res string :=
  let vendor_name := party_name plan in
  let vendor_id := party_id plan in
  let payment_account := requested_account plan in
  let anchor_account_name := plan_anchor_name plan in
  let category := plan_category plan in
  let account_name := plan_account_name plan in
  let match_score := plan_score plan in
  let match_explanation := plan_explanation plan in
  let amount := plan_amount plan in
  let date := plan_date plan in
  if didSucceed expense_result then
    transaction_id <~ transaction_id_required expense_result ;;
    let vendor_text :=
      if truthy_opt vendor_name then ("- Vendor: " ++ str_of_option vendor_name ++ nl)
      else ("- Vendor: Not specified (can be added later in Wave)" ++ nl) in
    let vendor_text :=
      if truthy_opt vendor_name && negb (truthy_opt vendor_id) then
        vendor_text ++ ("  ‚ö†Ô∏è Note: Vendor '" ++ str_of_option vendor_name
    ++ "' not found in Wave - create manually if needed" ++ nl)
      else vendor_text in
    let payment_text := ("- Paid from: " ++ anchor_account_name) in
    let payment_text :=
      if truthy_opt payment_account
         && String.eqb (Py.lower (str_of_option payment_account))
              (Py.lower anchor_account_name)
      then payment_text ++ (" ‚úÖ")
      else if truthy_opt payment_account then
        payment_text ++ (" (requested: " ++ str_of_option payment_account
    ++ ", but using default)")
      else payment_text in
    let category_explanation :=
      if Qltb match_score 1.0%Q then
        let category_explanation := ("- Category: " ++ category ++ " ‚Üí " ++ str_of_option account_name ++ nl
    ++ "  üí° " ++ match_explanation) in
        let category_explanation :=
          if Qltb match_score 0.4%Q then
            category_explanation ++ (" (Confidence: " ++ format_percent1 match_score ++ ")")
          else category_explanation in
        category_explanation ++ (nl)
      else ("- Category: " ++ str_of_option account_name ++ nl) in
    Ok ("‚úÖ Successfully created expense:" ++ nl ++ "- Amount: $" ++ amount
    ++ nl ++ vendor_text ++ "- Date: " ++ date ++ nl ++ payment_text ++ nl
    ++ category_explanation ++ "- Transaction ID: " ++ transaction_id)
  else
    let errors := input_errors_text (inputErrors expense_result) in
    Ok ("‚ùå Failed to create expense: " ++ errors).

(** The branch [create_expense_from_receipt], lines 973-1073. *)
Definition create_expense_from_receipt (business_id : option string)
  (arguments : Arguments) : res string :=
  planned <~ expense_plan business_id arguments ;;
  match planned with
  | Reply text => Ok text
  | Proceed plan =>
      expense_result <~ api_create_expense api (expense_call business_id plan) ;;
      expense_report plan expense_result
  end.

(** Lines 1147-1208 of [create_income_from_payment]: up to the call of
    [create_income]. *)
Definition income_plan (business_id : option string) (arguments : Arguments)
  : res (step Plan) :=
  if negb (truthy_opt business_id) then Ok (Reply no_business_text)
  else
    let customer_name := arguments "customer_name" in
    amount <~ required arguments "amount" ;;
    date <~ required arguments "date" ;;
    let income_category := get_default arguments "income_category" "Sales" in
    let description := get_default arguments "description" "" in
    payment_description <~ required arguments "payment_description" ;;
    let deposit_to_account := arguments "deposit_to_account" in
    customer_id <~ lookup_party customer_name (api_customers api) ;;
    accounts <~ get_accounts (api_accounts api) ;;
    let context_text := (description ++ " " ++ payment_description) in
    matched <~ res_of_exc
                 (find_best_account_match income_category accounts "Income"
                    (Some context_text)) ;;
    if negb (truthy_opt (accountId matched))
    then Ok (Reply ("Error: No income accounts found"))
    else
      anchor_accounts <~ get_anchor_accounts (api_anchor_accounts api) ;;
      if negb (nonempty anchor_accounts)
      then Ok (Reply ("Error: No bank accounts found to deposit to"))
      else
        anchor <~ select_anchor deposit_to_account
                    (deposit_account_not_found
                       (str_of_option deposit_to_account) anchor_accounts)
                    anchor_accounts ;;
        match anchor with
        | Reply text => Ok (Reply text)
        | Proceed (anchor_account_id, anchor_account_name) =>
            Ok (Proceed
                  {| party_name := customer_name;
                     party_id := customer_id;
                     plan_amount := amount;
                     plan_date := date;
                     plan_category := income_category;
                     plan_description := description;
                     plan_context := payment_description;
                     requested_account := deposit_to_account;
                     plan_account_id := accountId matched;
                     plan_account_name := accountName matched;
                     plan_score := score matched;
                     plan_explanation := explanation matched;
                     plan_anchor_id := anchor_account_id;
                     plan_anchor_name := anchor_account_name |})
        end.

(** Lines 1211-1219: the arguments of [create_income]. *)
Definition income_call (business_id : option string) (plan : Plan)
  : TransactionCall :=
  {| call_business_id := str_of_option business_id;
     call_party_id := party_id plan;
     call_account_id := str_of_option (plan_account_id plan);
     call_anchor_account_id := plan_anchor_id plan;
     call_amount := plan_amount plan;
     call_date := plan_date plan;
     call_description :=
       if Py.truthy (plan_description plan) then plan_description plan
       else plan_context plan |}.

(** Lines 1221-1248: the text for the outcome of the creation. *)
Definition income_report (plan : Plan) (income_result : CreateResult)
  : res string :=
  let customer_name := party_name plan in
  let customer_id := party_id plan in
  let deposit_to_account := requested_account plan in
  let anchor_account_name := plan_anchor_name plan in
  let income_category := plan_category plan in
  let account_name := plan_account_name plan in
  let match_score := plan_score plan in
  let match_explanation := plan_explanation plan in
  let amount := plan_amount plan in
  let date := plan_date plan in
  if didSucceed income_result then
    transaction_id <~ transaction_id_required income_result ;;
    let customer_text :=
      if truthy_opt customer_name then ("- Customer: " ++ str_of_option customer_name ++ nl)
      else ("- Customer: Not specified (can be added later in Wave)" ++ nl) in
    let customer_text :=
      if truthy_opt customer_name && negb (truthy_opt customer_id) then
        customer_text ++ ("  ‚ö†Ô∏è Note: Customer '" ++ str_of_option customer_name
    ++ "' not found in Wave - create manually if needed" ++ nl)
      else customer_text in
    let deposit_text := ("- Deposited to: " ++ anchor_account_name) in
    let deposit_text :=
      if truthy_opt deposit_to_account
         && String.eqb (Py.lower (str_of_option deposit_to_account))
              (Py.lower anchor_account_name)
      then deposit_text ++ (" ‚úÖ")
      else if truthy_opt deposit_to_account then
        deposit_text ++ (" (requested: " ++ str_of_option deposit_to_account
    ++ ", but using default)")
      else deposit_text in
    let category_explanation :=
      if Qltb match_score 1.0%Q then
        let category_explanation := ("- Category: " ++ income_category ++ " ‚Üí "
    ++ str_of_option account_name ++ nl ++ "  üí° " ++ match_explanation) in
        let category_explanation :=
          if Qltb match_score 0.4%Q then
            category_explanation ++ (" (Confidence: " ++ format_percent1 match_score ++ ")")
          else category_explanation in
        category_explanation ++ (nl)
      else ("- Category: " ++ str_of_option account_name ++ nl) in
    Ok ("‚úÖ Successfully created income transaction:" ++ nl ++ "- Amount: $"
    ++ amount ++ nl ++ customer_text ++ "- Date: " ++ date ++ nl
    ++ deposit_text ++ nl ++ category_explanation ++ "- Transaction ID: "
    ++ transaction_id)
  else
    let errors := input_errors_text (inputErrors income_result) in
    Ok ("‚ùå Failed to create income transaction: " ++ errors).

(** The branch [create_income_from_payment], lines 1146-1248. *)
Definition create_income_from_payment (business_id : option string)
  (arguments : Arguments) : res string :=
  planned <~ income_plan business_id arguments ;;
  match planned with
  | Reply text => Ok text
  | Proceed plan =>
      income_result <~ api_create_income api (income_call business_id plan) ;;
      income_report plan income_result
  end.

(** The handler of lines 1322-1324: an exception becomes a text. *)
Definition reply_of (outcome : res string) : string :=
  match outcome with
  | Ok text => text
  | Err e => ("Error: " ++ str_of_failure e)
  end.

End Handlers.

(** What a creating handler may pass to the API: the category account is an
    account of the chart received that the engine's filter for
    [account_type] lets through, with an identifier that is not empty; the
    anchor account is an account of the chart received for the anchors, not
    archived, of an anchor type and subtype; and a requested anchor account
    is the one used, up to the case of its name. *)
Definition plan_sound (account_type : string) (api : Api) (plan : Plan)
  : Prop :=
  exists accounts anchor_source category_account anchor_account,
    get_accounts (api_accounts api) = Ok accounts
    /\ get_accounts (api_anchor_accounts api) = Ok anchor_source
    /\ In category_account (filter_accounts account_type accounts)
    /\ In category_account accounts
    /\ isArchived category_account = false
    /\ plan_account_id plan = Some (acc_id category_account)
    /\ acc_id category_account <> ""
    /\ plan_account_name plan = Some (acc_name category_account)
    /\ In anchor_account anchor_source
    /\ isArchived anchor_account = false
    /\ Py.mem (acc_type anchor_account) anchor_types = true
    /\ Py.mem (subtype_name anchor_account) anchor_subtypes = true
    /\ plan_anchor_id plan = acc_id anchor_account
    /\ plan_anchor_name plan = acc_name anchor_account
    /\ (truthy_opt (requested_account plan) = true ->
        Py.lower (str_of_option (requested_account plan))
        = Py.lower (plan_anchor_name plan)).

(** The same for the arguments of the creation: the identifiers passed are
    those of the category account and of the anchor account, and a business
    is selected. *)
Definition call_sound (account_type : string) (api : Api)
  (call : TransactionCall) : Prop :=
  exists accounts anchor_source category_account anchor_account,
    get_accounts (api_accounts api) = Ok accounts
    /\ get_accounts (api_anchor_accounts api) = Ok anchor_source
    /\ In category_account (filter_accounts account_type accounts)
    /\ In category_account accounts
    /\ isArchived category_account = false
    /\ call_account_id call = acc_id category_account
    /\ In anchor_account anchor_source
    /\ isArchived anchor_account = false
    /\ Py.mem (acc_type anchor_account) anchor_types = true
    /\ Py.mem (subtype_name anchor_account) anchor_subtypes = true
    /\ call_anchor_account_id call = acc_id anchor_account
    /\ call_account_id call <> ""
    /\ call_business_id call <> "".

(** A response of a server that reports the page asked for and [total]
    pages. *)
Definition page_response (page_edges : Z -> list Account) (total page : Z)
  : AccountsResponse :=
  {| edges := page_edges page;
     pageInfo := Some {| currentPage := Some page; totalPages := Some total |} |}.

(** The first of the keys [keys] that [arguments] lacks. *)
Definition first_missing (arguments : Arguments) (keys : list string)
  : option string :=
  find (fun key => match arguments key with
                   | Some _ => false
                   | None => true
                   end) keys.

(** ** Sample requests *)

(** A bank account that is not archived. *)
Definition bank_account (name : string) : Account :=
  {| acc_id := "Account:" ++ name;
     acc_name := name;
     acc_type := "Assets";
     acc_subtype := Some "Cash & Bank";
     isArchived := false |}.

(** A chart of accounts on two pages. *)
Definition sample_chart (page : Z) : list Account :=
  if (page =? 1)%Z
  then [expense_account "Rent"; expense_account "Meals & Entertainment"]
  else [income_account "Consulting Revenue"; bank_account "Checking";
        bank_account "Savings"].

(** A chart on one page without an account of type "Expenses" or "Income";
    the tool [get_expense_accounts] lists its account of type "EXPENSE". *)
Definition other_chart (page : Z) : list Account :=
  [ {| acc_id := "Account:Travel";
       acc_name := "Travel";
       acc_type := "EXPENSE";
       acc_subtype := Some "Expense";
       isArchived := false |};
    bank_account "Checking" ].

Definition sample_created : CreateResult :=
  {| didSucceed := true;
     transaction_id := Some "Transaction:1";
     inputErrors := [] |}.

(** A server whose second page fails. *)
Definition failing_server (page : Z) : res AccountsResponse :=
  if (page =? 2)%Z then Err (RequestError "Wave API request failed: HTTP 502")
  else Ok (page_response sample_chart 3 page).

(** A server that fails from page 21 on. *)
Definition bounded_server (page : Z) : res AccountsResponse :=
  if (page >? 20)%Z then Err (RequestError "Wave API request failed: HTTP 502")
  else Ok (page_response sample_chart 2 page).

(** A server that holds [total] pages of [chart], one vendor and one
    customer, and creates every transaction. *)
Definition sample_api (chart : Z -> list Account) (total : Z) : Api :=
  {| api_vendors :=
       Ok [ {| contact_id := "Vendor:1"; contact_name := "Acme Diner";
               contact_email := None |} ];
     api_customers :=
       Ok [ {| contact_id := "Customer:1"; contact_name := "Initech";
               contact_email := Some "ap@initech.example" |} ];
     api_accounts := fun page => Ok (page_response chart total page);
     api_anchor_accounts := fun page => Ok (page_response chart total page);
     api_create_expense := fun _ => Ok sample_created;
     api_create_income := fun _ => Ok sample_created |}.

(** A dictionary of arguments from its items. *)
Definition arguments_of (items : list (string * string)) : Arguments :=
  fun key =>
    option_map snd (find (fun item => String.eqb (fst item) key) items).

Definition sample_business : option string := Some "QnVzaW5lc3M6MQ==".

(** The values that the handlers hold at the creation for the sample
    arguments below. *)
Definition sample_expense_plan : Plan :=
  {| party_name := Some "acme diner";
     party_id := Some "Vendor:1";
     plan_amount := "12.50";
     plan_date := "2024-01-31";
     plan_category := "food";
     plan_description := "";
     plan_context := "Lunch with a client";
     requested_account := Some "checking";
     plan_account_id := Some "Account:Meals & Entertainment";
     plan_account_name := Some "Meals & Entertainment";
     plan_score := 0.88%Q;
     plan_explanation :=
       "Synonym match: 'food' relates to 'meals' in 'Meals & Entertainment'";
     plan_anchor_id := "Account:Checking";
     plan_anchor_name := "Checking" |}.

Definition sample_income_plan : Plan :=
  {| party_name := Some "Initech";
     party_id := Some "Customer:1";
     plan_amount := "900.00";
     plan_date := "2024-02-01";
     plan_category := "consulting";
     plan_description := "";
     plan_context := "Invoice 17";
     requested_account := None;
     plan_account_id := Some "Account:Consulting Revenue";
     plan_account_name := Some "Consulting Revenue";
     plan_score := 1.0%Q;
     plan_explanation :=
       "Exact substring match: 'consulting' found in 'Consulting Revenue'";
     plan_anchor_id := "Account:Checking";
     plan_anchor_name := "Checking" |}.

Definition expense_arguments : Arguments :=
  arguments_of
    [("vendor_name", "acme diner"); ("amount", "12.50");
     ("date", "2024-01-31"); ("category", "food");
     ("receipt_text", "Lunch with a client");
     ("payment_account", "checking")].

Definition income_arguments : Arguments :=
  arguments_of
    [("customer_name", "Initech"); ("amount", "900.00");
     ("date", "2024-02-01"); ("income_category", "consulting");
     ("payment_description", "Invoice 17")].

(** * Properties *)

(** ** Strings *)

Lemma prefix_refl (s : string) : String.prefix s s = true.
Proof.
  induction s as [|c s IH]; simpl; [reflexivity|].
  destruct (ascii_dec c c) as [_|n]; [exact IH | now elim n].
Qed.

Lemma prefix_append (p s : string) : String.prefix p (p ++ s) = true.
Proof.
  induction p as [|c p IH]; simpl.
  - now destruct s.
  - destruct (ascii_dec c c) as [_|n]; [exact IH | now elim n].
Qed.

Lemma contains_prefix (x s : string) :
  String.prefix x s = true -> Py.contains x s = true.
Proof. intros H. destruct s; simpl in *; rewrite H; reflexivity. Qed.

Lemma contains_cons (x : string) (c : ascii) (s : string) :
  Py.contains x s = true -> Py.contains x (String c s) = true.
Proof. intros H. simpl. rewrite H. apply orb_true_r. Qed.

(** A block of a string is contained in it. *)
Lemma contains_append (p x q : string) : Py.contains x (p ++ x ++ q) = true.
Proof.
  induction p as [|c p IH].
  - simpl ("" ++ _). apply contains_prefix, prefix_append.
  - change (String c p ++ x ++ q) with (String c (p ++ x ++ q)).
    apply contains_cons, IH.
Qed.

Lemma append_empty_r (s : string) : s ++ "" = s.
Proof. induction s as [|c s IH]; simpl; congruence. Qed.

Lemma append_assoc (x y z : string) : (x ++ y) ++ z = x ++ y ++ z.
Proof. induction x as [|c x IH]; simpl; congruence. Qed.

Lemma length_append (x y : string) :
  String.length (x ++ y) = String.length x + String.length y.
Proof. induction x as [|c x IH]; simpl; congruence. Qed.

(** A string is not a proper block of itself. *)
Lemma append_around_neq (c : ascii) (p x q : string) :
  String c p ++ x ++ q <> x.
Proof.
  intros E. apply (f_equal String.length) in E.
  rewrite !length_append in E. simpl in E. lia.
Qed.

Lemma text_app (cs ds : list Unicode.char) :
  Unicode.text (cs ++ ds)%list = Unicode.text cs ++ Unicode.text ds.
Proof.
  induction cs as [|c cs IH]; simpl; [reflexivity|].
  now rewrite IH, append_assoc.
Qed.

(** The bytes kept with the characters are the bytes of the string. *)
Lemma text_chars (s : string) : Unicode.text (Unicode.chars s) = s.
Proof.
  assert (H : forall n s, String.length s <= n ->
                          Unicode.text (Unicode.chars s) = s).
  { clear s. induction n as [|n IH]; intros s Hn.
    - destruct s; [reflexivity | simpl in Hn; lia].
    - destruct s as [|c0 r0]; [reflexivity|]. cbn [String.length] in Hn.
      assert (H0 : Unicode.text (Unicode.chars r0) = r0) by (apply IH; lia).
      assert (Hs : Unicode.text (Unicode.stray c0 :: Unicode.chars r0)
                   = String c0 r0)
        by (cbn [Unicode.text Unicode.stray Unicode.bytes append];
            now rewrite H0).
      cbn [Unicode.chars].
      destruct (N.ltb (Unicode.byte c0) 128).
      { cbn [Unicode.text Unicode.bytes append]. now rewrite H0. }
      destruct r0 as [|c1 r1]; [reflexivity|]. cbn [String.length] in Hn.
      assert (H1 : Unicode.text (Unicode.chars r1) = r1) by (apply IH; lia).
      cbv beta iota zeta.
      match goal with |- context [if ?b then _ else _] => destruct b end.
      { cbn [Unicode.text Unicode.bytes append]. now rewrite H1. }
      destruct r1 as [|c2 r2]; [exact Hs|]. cbn [String.length] in Hn.
      assert (H2 : Unicode.text (Unicode.chars r2) = r2) by (apply IH; lia).
      cbv beta iota zeta.
      match goal with |- context [if ?b then _ else _] => destruct b end.
      { cbn [Unicode.text Unicode.bytes append]. now rewrite H2. }
      destruct r2 as [|c3 r3]; [exact Hs|]. cbn [String.length] in Hn.
      assert (H3 : Unicode.text (Unicode.chars r3) = r3) by (apply IH; lia).
      cbv beta iota zeta.
      match goal with |- context [if ?b then _ else _] => destruct b end.
      { cbn [Unicode.text Unicode.bytes append]. now rewrite H3. }
      exact Hs. }
  now apply (H (String.length s)).
Qed.

Lemma lstrip_block (cs : list Unicode.char) :
  exists p, cs = (p ++ Py.lstrip cs)%list.
Proof.
  induction cs as [|c cs [p IH]].
  - now exists [].
  - simpl. destruct (Py.isspace c).
    + exists (c :: p). simpl. now rewrite <- IH.
    + now exists [].
Qed.

Lemma rstrip_block (cs : list Unicode.char) :
  exists q, cs = (Py.rstrip cs ++ q)%list.
Proof.
  induction cs as [|c cs [q IH]].
  - now exists [].
  - simpl. destruct (Py.rstrip cs) as [|d r] eqn:E.
    + destruct (Py.isspace c).
      * exists (c :: cs). reflexivity.
      * exists q. simpl. now rewrite IH at 1.
    + exists q. simpl. now rewrite IH at 1.
Qed.

(** [s.strip()] is a block of [s]. *)
Lemma contains_strip (s : string) : Py.contains (Py.strip s) s = true.
Proof.
  unfold Py.strip.
  destruct (lstrip_block (Unicode.chars s)) as [p Hp].
  destruct (rstrip_block (Py.lstrip (Unicode.chars s))) as [q Hq].
  rewrite <- (text_chars s) at 2. rewrite Hp at 2. rewrite Hq at 2.
  rewrite !text_app. apply contains_append.
Qed.

Lemma truthy_nonempty (s : string) : Py.truthy s = true <-> s <> "".
Proof. destruct s; simpl; split; intros; congruence. Qed.

Lemma mem_In (x : string) (xs : list string) : Py.mem x xs = true <-> In x xs.
Proof.
  unfold Py.mem. rewrite existsb_exists. split.
  - intros [y [Hy E]]. apply String.eqb_eq in E. now subst.
  - intros H. exists x. split; [exact H | apply String.eqb_refl].
Qed.

(** ** Scores *)

Lemma Qgtb_lt (x y : Q) : Qgtb x y = true <-> (y < x)%Q.
Proof.
  unfold Qgtb. rewrite negb_true_iff. split.
  - intros H. apply Qnot_le_lt. intros L. apply Qle_bool_iff in L. congruence.
  - intros H. destruct (Qle_bool x y) eqn:E; [|reflexivity].
    apply Qle_bool_iff in E. exfalso. exact (Qlt_not_le _ _ H E).
Qed.

Lemma Qgtb_le (x y : Q) : Qgtb x y = false <-> (x <= y)%Q.
Proof.
  unfold Qgtb. rewrite negb_false_iff. apply Qle_bool_iff.
Qed.

Lemma Qgeb_le (x y : Q) : Qgeb x y = true <-> (y <= x)%Q.
Proof. unfold Qgeb. apply Qle_bool_iff. Qed.

Lemma Qgeb_lt (x y : Q) : Qgeb x y = false <-> (x < y)%Q.
Proof.
  unfold Qgeb. split.
  - intros H. apply Qnot_le_lt. intros L. apply Qle_bool_iff in L. congruence.
  - intros H. destruct (Qle_bool y x) eqn:E; [|reflexivity].
    apply Qle_bool_iff in E. exfalso. exact (Qlt_not_le _ _ H E).
Qed.

(** ** Loops with an early return *)

Lemma first_hit_None {A B : Type} (f : A -> option B) (l : list A) :
  first_hit f l = None <-> forall x, In x l -> f x = None.
Proof.
  induction l as [|a l IH]; simpl.
  - split; [intros _ x [] | reflexivity].
  - destruct (f a) eqn:E.
    + split; [discriminate|]. intros H. rewrite (H a) in E by now left.
      discriminate.
    + rewrite IH. split.
      * intros H x [->|Hx]; [exact E | now apply H].
      * intros H x Hx. apply H. now right.
Qed.

(** The result of the loop is the result of the body at the first element
    at which the body returns. *)
Lemma first_hit_Some {A B : Type} (f : A -> option B) (l : list A) (y : B) :
  first_hit f l = Some y <->
  exists l1 x l2, l = (l1 ++ x :: l2)%list
                  /\ (forall z, In z l1 -> f z = None) /\ f x = Some y.
Proof.
  induction l as [|a l IH]; simpl.
  - split; [discriminate|]. intros (l1 & x & l2 & E & _). now destruct l1.
  - destruct (f a) eqn:Ea.
    + split.
      * intros H. exists [], a, l. repeat split; [now intros z []|congruence].
      * intros (l1 & x & l2 & E & Hn & Hx). destruct l1 as [|z l1]; simpl in E.
        -- injection E as -> _. congruence.
        -- injection E as -> _. rewrite (Hn z) in Ea by now left. discriminate.
    + rewrite IH. split.
      * intros (l1 & x & l2 & -> & Hn & Hx). exists (a :: l1), x, l2.
        repeat split; [|exact Hx]. intros z [<-|Hz]; [exact Ea | now apply Hn].
      * intros (l1 & x & l2 & E & Hn & Hx). destruct l1 as [|z l1]; simpl in E.
        -- injection E as -> _. congruence.
        -- injection E as -> ->. exists l1, x, l2. repeat split; [|exact Hx].
           intros w Hw. apply Hn. now right.
Qed.

Lemma first_hit_In {A B : Type} (f : A -> option B) (l : list A) (y : B) :
  first_hit f l = Some y -> exists x, In x l /\ f x = Some y.
Proof.
  intros H. apply first_hit_Some in H. destruct H as (l1 & x & l2 & -> & _ & Hx).
  exists x. split; [|exact Hx]. apply in_elt.
Qed.

(** A loop whose body never raises does not raise, and agrees with the loop
    over the values of the body. *)
Lemma first_hitM_value {A B : Type} (f : A -> exc (option B))
  (g : A -> option B) (l : list A) :
  (forall x, In x l -> f x = Value (g x)) ->
  first_hitM f l = Value (first_hit g l).
Proof.
  induction l as [|a l IH]; intros H; simpl; [reflexivity|].
  rewrite (H a) by now left. simpl. destruct (g a); [reflexivity|].
  apply IH. intros x Hx. apply H. now right.
Qed.

(** The loop returns at the first element that passes the test of its
    body. *)
Lemma first_hit_find {A B : Type} (f : A -> option B) (p : A -> bool)
  (l : list A) :
  (forall x, p x = false <-> f x = None) ->
  first_hit f l = match find p l with
                  | Some x => f x
                  | None => None
                  end.
Proof.
  intros Hp. induction l as [|a l IH]; simpl; [reflexivity|].
  destruct (p a) eqn:Ea.
  - destruct (f a) eqn:Fa; [reflexivity|].
    apply Hp in Fa. congruence.
  - apply Hp in Ea. rewrite Ea. exact IH.
Qed.

Lemma nonempty_true {A : Type} (l : list A) : nonempty l = true <-> l <> [].
Proof. destruct l; simpl; split; intros; congruence. Qed.

Lemma nonempty_false {A : Type} (l : list A) : nonempty l = false <-> l = [].
Proof. destruct l; simpl; split; intros; congruence. Qed.

(** ** The recursion of difflib ends within its fuel *)

Section MatchingBlocks.

Variables a b : list N.

Lemma j2len_prev_bounded (n : nat) (j2len : list (nat * nat)) (j : nat) :
  j2len_bounded n j2len -> Difflib.j2len_prev j2len j <= n.
Proof.
  intros Hb. destruct j as [|j']; simpl; [lia|].
  unfold Difflib.j2len_get.
  destruct (find (fun p => Nat.eqb (fst p) j') j2len) as [p|] eqn:E; [|lia].
  apply find_some in E. destruct E as [Hin _].
  unfold j2len_bounded in Hb. rewrite Forall_forall in Hb. now apply Hb.
Qed.

Lemma inner_loop_bounds (alo ahi i blo bhi : nat) (j2len : list (nat * nat))
  (best : Difflib.block) (js : list nat) :
  alo <= i -> i < ahi ->
  j2len_bounded (i - alo) j2len -> block_in alo ahi best ->
  j2len_bounded (S i - alo) (fst (Difflib.inner_loop i blo bhi j2len best js))
  /\ block_in alo ahi (snd (Difflib.inner_loop i blo bhi j2len best js)).
Proof.
  intros Hlo Hhi Hb Hbest. unfold Difflib.inner_loop.
  assert (H0 : j2len_bounded (S i - alo) (fst (@nil (nat * nat), best))
               /\ block_in alo ahi (snd (@nil (nat * nat), best)))
    by (split; [constructor | exact Hbest]).
  revert H0. generalize (@nil (nat * nat), best) as st.
  induction js as [|j js IH]; intros st H0; simpl; [exact H0|].
  apply IH. destruct st as [newj2len [[besti bestj] bestsize]].
  destruct H0 as [Hn Hbl]. cbn [fst snd] in Hn, Hbl.
  destruct (Nat.ltb j blo); [now split|].
  destruct (Nat.leb bhi j); [now split|].
  pose proof (j2len_prev_bounded _ _ j Hb) as Hk.
  split; cbn [fst snd].
  - constructor; [cbn [snd]; lia | exact Hn].
  - cbv [block_in] in Hbl.
    destruct (Nat.ltb bestsize (Difflib.j2len_prev j2len j + 1));
      cbv [block_in]; lia.
Qed.

Lemma outer_loop_bounds (alo ahi blo bhi : nat) :
  alo <= ahi -> block_in alo ahi (Difflib.outer_loop a b alo ahi blo bhi).
Proof.
  intros Hle. unfold Difflib.outer_loop.
  assert (H : forall len start (st : list (nat * nat) * Difflib.block),
             alo <= start -> start + len <= ahi ->
             j2len_bounded (start - alo) (fst st) ->
             block_in alo ahi (snd st) ->
             block_in alo ahi
               (snd (fold_left
                       (fun (st : list (nat * nat) * Difflib.block) (i : nat) =>
                          let '(j2len, best) := st in
                          Difflib.inner_loop i blo bhi j2len best
                            (Difflib.b2j b (nth i a Difflib.zero_char)))
                       (seq start len) st))).
  { induction len as [|len IH]; intros start st Hs He Hb Hbl; simpl;
      [exact Hbl|].
    destruct st as [j2len best]. cbn [fst snd] in Hb, Hbl.
    destruct (inner_loop_bounds alo ahi start blo bhi j2len best
                (Difflib.b2j b (nth start a Difflib.zero_char)))
      as [Hb' Hbl']; try assumption; try lia.
    apply IH; try assumption; lia. }
  apply H; cbn [fst snd]; try lia; [constructor|].
  cbv [block_in]. lia.
Qed.

Lemma extend_left_bounds (n alo ahi blo : nat) (best : Difflib.block) :
  block_in alo ahi best ->
  block_in alo ahi (Difflib.extend_left a b n alo blo best).
Proof.
  revert best. induction n as [|n IH]; intros [[besti bestj] bestsize] H;
    simpl; [exact H|].
  destruct (Nat.ltb alo besti) eqn:E1; simpl; [|exact H].
  destruct (Nat.ltb blo bestj && _); [|exact H].
  apply IH. apply Nat.ltb_lt in E1. cbv [block_in] in *. lia.
Qed.

Lemma extend_right_bounds (n alo ahi bhi : nat) (best : Difflib.block) :
  block_in alo ahi best ->
  block_in alo ahi (Difflib.extend_right a b n ahi bhi best).
Proof.
  revert best. induction n as [|n IH]; intros [[besti bestj] bestsize] H;
    simpl; [exact H|].
  destruct (Nat.ltb (besti + bestsize) ahi) eqn:E1; simpl; [|exact H].
  destruct (Nat.ltb (bestj + bestsize) bhi && _); [|exact H].
  apply IH. apply Nat.ltb_lt in E1. cbv [block_in] in *. lia.
Qed.

(** The first extension loop ends by its condition: with [besti] rounds at
    hand the block cannot grow further when the rounds are used up. *)
Lemma extend_left_done (n alo blo : nat) (best : Difflib.block) :
  fst (fst best) <= n ->
  let '(besti, bestj, _) := Difflib.extend_left a b n alo blo best in
  Nat.ltb alo besti && Nat.ltb blo bestj
  && N.eqb (nth (besti - 1) a Difflib.zero_char)
       (nth (bestj - 1) b Difflib.zero_char) = false.
Proof.
  revert best. induction n as [|n IH]; intros [[besti bestj] bestsize] H;
    cbn [fst] in H.
  - simpl. replace besti with 0 by lia. destruct alo; reflexivity.
  - simpl.
    destruct (Nat.ltb alo besti && Nat.ltb blo bestj
              && N.eqb (nth (besti - 1) a Difflib.zero_char)
                   (nth (bestj - 1) b Difflib.zero_char)) eqn:E.
    + apply IH. cbn [fst]. lia.
    + exact E.
Qed.

(** The second extension loop ends by its condition as well. *)
Lemma extend_right_done (n ahi bhi : nat) (best : Difflib.block) :
  ahi <= n + (fst (fst best) + snd best) ->
  let '(besti, bestj, bestsize) := Difflib.extend_right a b n ahi bhi best in
  Nat.ltb (besti + bestsize) ahi && Nat.ltb (bestj + bestsize) bhi
  && N.eqb (nth (besti + bestsize) a Difflib.zero_char)
       (nth (bestj + bestsize) b Difflib.zero_char) = false.
Proof.
  revert best. induction n as [|n IH]; intros [[besti bestj] bestsize] H;
    cbn [fst snd] in H.
  - simpl. replace (Nat.ltb (besti + bestsize) ahi) with false; [reflexivity|].
    symmetry. apply Nat.ltb_ge. lia.
  - simpl.
    destruct (Nat.ltb (besti + bestsize) ahi && Nat.ltb (bestj + bestsize) bhi
              && N.eqb (nth (besti + bestsize) a Difflib.zero_char)
                   (nth (bestj + bestsize) b Difflib.zero_char)) eqn:E.
    + apply IH. cbn [fst snd]. lia.
    + exact E.
Qed.

(** The longest matching block of a window lies in the window. *)
Lemma find_longest_match_bounds (alo ahi blo bhi : nat) :
  alo <= ahi ->
  block_in alo ahi (Difflib.find_longest_match a b alo ahi blo bhi).
Proof.
  intros Hle. unfold Difflib.find_longest_match.
  apply extend_right_bounds, extend_left_bounds, outer_loop_bounds, Hle.
Qed.

(** Any two amounts of fuel above the length of the window give the same
    count: the recursion never runs out of fuel. *)
Lemma matches_fuel (fuel fuel' alo ahi blo bhi : nat) :
  alo <= ahi -> ahi - alo < fuel -> ahi - alo < fuel' ->
  Difflib.matches a b fuel alo ahi blo bhi
  = Difflib.matches a b fuel' alo ahi blo bhi.
Proof.
  revert fuel' alo ahi blo bhi.
  induction fuel as [|fuel IH]; intros fuel' alo ahi blo bhi Hle Hf Hf';
    [lia|].
  destruct fuel' as [|fuel']; [lia|]. simpl.
  pose proof (find_longest_match_bounds alo ahi blo bhi Hle) as Hb.
  destruct (Difflib.find_longest_match a b alo ahi blo bhi) as [[i j] k].
  cbv [block_in] in Hb. destruct (Nat.eqb k 0) eqn:Ek; [reflexivity|].
  apply Nat.eqb_neq in Ek. f_equal; [f_equal|].
  - destruct (Nat.ltb alo i && Nat.ltb blo j); [|reflexivity].
    apply IH; lia.
  - destruct (Nat.ltb (i + k) ahi && Nat.ltb (j + k) bhi); [|reflexivity].
    apply IH; lia.
Qed.

End MatchingBlocks.

(** The fuel that [ratio] passes is enough: more fuel gives the same count. *)
Lemma ratio_fuel_enough (s t : string) (n : nat) :
  let a := Unicode.points s in
  let b := Unicode.points t in
  Difflib.matches a b (S (List.length a) + n) 0 (List.length a) 0 (List.length b)
  = Difflib.matches a b (S (List.length a)) 0 (List.length a) 0 (List.length b).
Proof. intros a b. apply matches_fuel; lia. Qed.

(** ** Account catalog filter *)

Lemma filter_kept (f : Account -> bool) (accounts : list Account) :
  Forall (fun acc => isArchived acc = false /\ In acc accounts)
    (filter (fun acc => f acc && negb (isArchived acc)) accounts).
Proof.
  apply Forall_forall. intros acc H. apply filter_In in H.
  destruct H as [Hin Hb]. apply andb_true_iff in Hb.
  destruct Hb as [_ Hb]. apply negb_true_iff in Hb. now split.
Qed.

Lemma filter_accounts_cases (account_type : string) (accounts : list Account) :
  filter_accounts account_type accounts =
  if nonempty (strategy1 account_type accounts) then strategy1 account_type accounts
  else if nonempty (strategy2 account_type accounts) then strategy2 account_type accounts
  else if String.eqb account_type "Income" then
    if nonempty (strategy3 accounts) then strategy3 accounts
    else strategy4 accounts
  else [].
Proof.
  unfold filter_accounts.
  destruct (strategy1 account_type accounts) as [|a1 l1]; [|reflexivity]; simpl.
  destruct (strategy2 account_type accounts) as [|a2 l2]; simpl.
  - destruct (String.eqb account_type "Income"); [|reflexivity].
    destruct (strategy3 accounts); reflexivity.
  - reflexivity.
Qed.

Lemma filter_accounts_kept (account_type : string) (accounts : list Account) :
  Forall (fun acc => isArchived acc = false /\ In acc accounts)
    (filter_accounts account_type accounts).
Proof.
  rewrite filter_accounts_cases.
  repeat match goal with
         | |- context [if ?c then _ else _] => destruct c
         end;
    try apply filter_kept; constructor.
Qed.

(** An account of the requested class that is not archived passes the first
    strategy. *)
Lemma filter_accounts_nonempty (account_type : string) (accounts : list Account)
  (acc : Account) :
  In acc accounts -> acc_type acc = account_type -> isArchived acc = false ->
  filter_accounts account_type accounts <> [].
Proof.
  intros Hin Ht Ha. rewrite filter_accounts_cases.
  assert (H1 : In acc (strategy1 account_type accounts)).
  { apply filter_In. split; [exact Hin|].
    rewrite Ht, Ha, String.eqb_refl. reflexivity. }
  destruct (strategy1 account_type accounts); [destruct H1 | simpl; discriminate].
Qed.

(** C8: the account catalog filter returns the result of the first of its
    four strategies that is not empty, in the order 1, 2, 3, 4; strategies 3
    and 4 are tried for the class "Income" only (for any other class the
    result is that of strategy 1 or else of strategy 2); and no strategy lets
    an archived account through. *)
Theorem C8_filter_strategies_in_order (account_type : string)
  (accounts : list Account) :
  filter_accounts account_type accounts =
    (if nonempty (strategy1 account_type accounts)
     then strategy1 account_type accounts
     else if nonempty (strategy2 account_type accounts)
     then strategy2 account_type accounts
     else if String.eqb account_type "Income" then
       if nonempty (strategy3 accounts) then strategy3 accounts
       else strategy4 accounts
     else [])
  /\ Forall (fun acc => isArchived acc = false /\ In acc accounts)
       (strategy1 account_type accounts)
  /\ Forall (fun acc => isArchived acc = false /\ In acc accounts)
       (strategy2 account_type accounts)
  /\ Forall (fun acc => isArchived acc = false /\ In acc accounts)
       (strategy3 accounts)
  /\ Forall (fun acc => isArchived acc = false /\ In acc accounts)
       (strategy4 accounts)
  /\ Forall (fun acc => isArchived acc = false /\ In acc accounts)
       (filter_accounts account_type accounts).
Proof.
  split; [apply filter_accounts_cases|].
  repeat split; try apply filter_kept. apply filter_accounts_kept.
Qed.

(** ** Numeric token extractor *)

Lemma collect_matches_In (patterns : list Re.matcher) (text x : string) :
  In x (collect_matches patterns text) <->
  exists pattern, In pattern patterns /\ In x (Re.findall pattern (Py.lower text)).
Proof. unfold collect_matches. apply in_flat_map. Qed.

Section Extractor.

Context {set_order : SetOrder}.

Lemma extract_numbers_In (patterns : list Re.matcher) (user_category : string)
  (user_context : option string) (x : string) :
  In x (extract_numbers patterns user_category user_context) <->
  exists pattern,
    In pattern patterns
    /\ In x (Re.findall pattern
               (Py.lower (all_user_text user_category user_context))).
Proof.
  unfold extract_numbers. rewrite list_of_set_In. apply collect_matches_In.
Qed.

(** C9: as a set, the output of the numeric token extractor is the union of
    the matches of the four patterns (unit range, "apartment N", "unit N",
    three digits) in the lower-cased text made of the category, one space and
    the context; it has no duplicates; and it is the same set for any
    reordering of the pattern list. *)
Theorem C9_extractor_is_union (user_category : string)
  (user_context : option string) (patterns' : list Re.matcher) :
  Permutation number_patterns patterns' ->
  let text :=
    Py.lower (user_category ++ " "
              ++ match user_context with Some c => c | None => "" end) in
  NoDup (extract_numbers number_patterns user_category user_context)
  /\ (forall x,
        In x (extract_numbers number_patterns user_category user_context) <->
        In x (Re.findall Re.pat_unit_range text)
        \/ In x (Re.findall (Re.pat_keyword_number "apartment") text)
        \/ In x (Re.findall (Re.pat_keyword_number "unit") text)
        \/ In x (Re.findall Re.pat_three_digits text))
  /\ NoDup (extract_numbers patterns' user_category user_context)
  /\ (forall x,
        In x (extract_numbers patterns' user_category user_context) <->
        In x (extract_numbers number_patterns user_category user_context)).
Proof.
  intros Hperm text. split; [apply list_of_set_NoDup|].
  split; [|split; [apply list_of_set_NoDup|]].
  - intros x. rewrite extract_numbers_In. fold text. unfold number_patterns.
    split.
    + intros (pattern & Hp & Hx). simpl in Hp.
      destruct Hp as [<-|[<-|[<-|[<-|[]]]]]; auto.
    + intros [H|[H|[H|H]]]; eexists; (split; [|exact H]); simpl; auto.
  - intros x. rewrite !extract_numbers_In. split.
    + intros (pattern & Hp & Hx). exists pattern. split; [|exact Hx].
      eapply Permutation_in; [apply Permutation_sym; exact Hperm | exact Hp].
    + intros (pattern & Hp & Hx). exists pattern. split; [|exact Hx].
      eapply Permutation_in; [exact Hperm | exact Hp].
Qed.

End Extractor.

(** The patterns in the opposite order give the same tokens for
    "rent unit 12" with context "apartment 144, 500". *)
Lemma C9_extractor_is_union_witness :
  Permutation number_patterns (rev number_patterns)
  /\ forall x,
       In x (extract_numbers (rev number_patterns) "rent unit 12"
               (Some "apartment 144, 500")) <->
       In x (extract_numbers number_patterns "rent unit 12"
               (Some "apartment 144, 500")).
Proof.
  split; [apply Permutation_rev|].
  apply (C9_extractor_is_union "rent unit 12" (Some "apartment 144, 500")
           (rev number_patterns) (Permutation_rev number_patterns)).
Defined.

(** ** Results that name an account *)

Lemma found_names (l : list Account) (acc : Account) (s : Q) (expl : string) :
  In acc l -> (0.1 <= s)%Q -> expl <> "" -> names_account l (found acc s expl).
Proof. intros Hin Hs He. exists acc. simpl. auto. Qed.

Lemma names_account_incl (l l' : list Account) (r : MatchResult) :
  (forall acc, In acc l -> In acc l') -> names_account l r -> names_account l' r.
Proof. intros Hl (acc & Hin & H). exists acc. split; [now apply Hl | exact H]. Qed.

(** ** Stage 0 *)

Lemma stage0_test_Some (number : string) (account : Account) (r : MatchResult) :
  stage0_test number account = Some r <->
  qualifies number account = true
  /\ r = found account 0.98%Q
           ("Apartment-specific match: Found apartment " ++ number
            ++ " in '" ++ acc_name account ++ "'").
Proof.
  unfold stage0_test, qualifies.
  destruct (Py.contains number _ && Py.contains "rental" _); split.
  - intros [= <-]. now split.
  - intros [_ ->]. reflexivity.
  - discriminate.
  - intros [H _]. discriminate.
Qed.

Lemma stage0_test_None (number : string) (account : Account) :
  stage0_test number account = None <-> qualifies number account = false.
Proof.
  unfold stage0_test, qualifies.
  destruct (Py.contains number _ && Py.contains "rental" _); split;
    congruence.
Qed.

Lemma stage0_names (account_type : string) (numbers : list string)
  (filtered_accounts : list Account) (r : MatchResult) :
  stage0 account_type numbers filtered_accounts = Some r ->
  names_account filtered_accounts r /\ score r = 0.98%Q.
Proof.
  unfold stage0. destruct (nonempty numbers && _); [|discriminate].
  intros H. apply first_hit_In in H. destruct H as (number & _ & H).
  apply first_hit_In in H. destruct H as (account & Hin & H).
  apply stage0_test_Some in H. destruct H as [_ ->]. split; [|reflexivity].
  apply found_names; [exact Hin | score_literal | discriminate].
Qed.

(** ** Stage 1 *)

(** The subscript [words_in_account[0]] is guarded: the test never raises. *)
Lemma stage1_test_value (user_category user_category_lower : string)
  (account : Account) :
  stage1_test user_category user_category_lower account
  = Value (value_of (stage1_test user_category user_category_lower account)).
Proof.
  unfold stage1_test.
  destruct (Py.contains _ _); [reflexivity|].
  destruct (Py.startswith _ _); [reflexivity|].
  destruct (Py.split _) as [|w0 ws]; [reflexivity|]. simpl.
  destruct (Py.startswith _ _); reflexivity.
Qed.

Lemma stage1_test_names (user_category user_category_lower : string)
  (account : Account) (r : MatchResult) :
  stage1_test user_category user_category_lower account = Value (Some r) ->
  names_account [account] r /\ (0.92 <= score r)%Q.
Proof.
  unfold stage1_test.
  destruct (Py.contains _ _).
  { intros [= <-]. split; [|score_literal].
    apply found_names; [now left | score_literal | discriminate]. }
  destruct (Py.startswith _ _).
  { intros [= <-]. split; [|score_literal].
    apply found_names; [now left | score_literal | discriminate]. }
  destruct (Py.split _) as [|w0 ws]; [discriminate|]. simpl.
  destruct (Py.startswith _ _); [|discriminate].
  intros [= <-]. split; [|score_literal].
  apply found_names; [now left | score_literal | discriminate].
Qed.

Lemma stage1_value (user_category user_category_lower : string)
  (filtered_accounts : list Account) :
  stage1 user_category user_category_lower filtered_accounts
  = Value (first_hit
             (fun account =>
                value_of (stage1_test user_category user_category_lower account))
             filtered_accounts).
Proof.
  unfold stage1. apply first_hitM_value. intros account _.
  apply stage1_test_value.
Qed.

Lemma stage1_names (user_category user_category_lower : string)
  (filtered_accounts : list Account) (r : MatchResult) :
  stage1 user_category user_category_lower filtered_accounts = Value (Some r) ->
  names_account filtered_accounts r /\ (0.92 <= score r)%Q.
Proof.
  rewrite stage1_value. intros [= H]. apply first_hit_In in H.
  destruct H as (account & Hin & H).
  assert (Ht : stage1_test user_category user_category_lower account
               = Value (Some r))
    by (rewrite stage1_test_value; congruence).
  apply stage1_test_names in Ht. destruct Ht as [Hn Hs]. split; [|exact Hs].
  eapply names_account_incl; [|exact Hn]. intros acc [<-|[]]. exact Hin.
Qed.

(** ** Stage 2 *)

Lemma considers_id (account : Account) : considers account (fun st => st).
Proof. intros P _ st H. exact H. Qed.

Lemma considers_consider (account : Account) (s : Q) (e : string) :
  stage2_expl e -> considers account (consider account s e).
Proof. intros He P HP st H. now apply HP. Qed.

Lemma considers_comp (account : Account) (f g : Best -> Best) :
  considers account f -> considers account g ->
  considers account (fun st => g (f st)).
Proof. intros Hf Hg P HP st H. apply Hg; [exact HP|]. now apply Hf. Qed.

Lemma considers_fold {X : Type} (account : Account) (step : Best -> X -> Best)
  (xs : list X) :
  (forall x, considers account (fun st => step st x)) ->
  considers account (fun st => fold_left step xs st).
Proof.
  intros Hstep. induction xs as [|x xs IH]; simpl.
  - apply considers_id.
  - apply (considers_comp account (fun st => step st x)
             (fun st => fold_left step xs st)); [apply Hstep | exact IH].
Qed.

Lemma considers_if (account : Account) (c : bool) (f : Best -> Best) :
  considers account f -> considers account (fun st => if c then f st else st).
Proof. intros Hf. destruct c; [exact Hf | apply considers_id]. Qed.

Lemma direct_step_considers (user_category_lower : string) (account : Account) :
  considers account (direct_step user_category_lower account).
Proof.
  apply considers_consider. eexists. left. reflexivity.
Qed.

Lemma words_step_considers (user_category user_category_lower : string)
  (account : Account) :
  considers account (words_step user_category user_category_lower account).
Proof.
  unfold words_step. apply considers_fold. intros word.
  apply considers_consider. eexists. right. left. reflexivity.
Qed.

Lemma synonym_block1_considers (user_category user_category_lower : string)
  (account : Account) (key : string) (synonym_list : list string) :
  considers account
    (synonym_block1 user_category user_category_lower account key synonym_list).
Proof.
  unfold synonym_block1.
  destruct (String.eqb user_category_lower key || _); [|apply considers_id].
  apply (considers_comp account
           (fun st => if Py.contains key (Py.lower (acc_name account))
                      then consider account 0.9%Q _ st else st)
           (fun st => fold_left _ synonym_list st)).
  - apply considers_if, considers_consider. eexists. right. right. reflexivity.
  - apply considers_fold. intros synonym.
    apply considers_if, considers_consider. eexists. right. right. reflexivity.
Qed.

Lemma synonym_block2_considers (user_category user_category_lower : string)
  (account : Account) (key : string) (synonym_list : list string) :
  considers account
    (synonym_block2 user_category user_category_lower account key synonym_list).
Proof.
  unfold synonym_block2.
  destruct (Py.mem user_category_lower _); [|apply considers_id].
  apply considers_fold. intros synonym.
  apply considers_if, considers_consider. eexists. right. right. reflexivity.
Qed.

Lemma synonym_step_considers (user_category user_category_lower : string)
  (account : Account) (entry : string * list string) :
  considers account
    (fun st => synonym_step user_category user_category_lower account st entry).
Proof.
  destruct entry as [key synonym_list]. unfold synonym_step.
  apply (considers_comp account (synonym_block1 _ _ _ _ _) (synonym_block2 _ _ _ _ _)).
  - apply synonym_block1_considers.
  - apply synonym_block2_considers.
Qed.

Lemma account_step_considers (synonyms : list (string * list string))
  (user_category user_category_lower : string) (account : Account) :
  considers account
    (fun st => account_step synonyms user_category user_category_lower st account).
Proof.
  unfold account_step.
  apply (considers_comp account
           (fun st => words_step user_category user_category_lower account
                        (direct_step user_category_lower account st))
           (fun st => fold_left _ synonyms st)).
  - apply (considers_comp account (direct_step _ _) (words_step _ _ _)).
    + apply direct_step_considers.
    + apply words_step_considers.
  - apply considers_fold. intros entry. apply synonym_step_considers.
Qed.

(** Induction over the updates of stage 2: a property of the initial values
    that every update for a filtered account keeps holds behind the loop. *)
Lemma stage2_ind (synonyms : list (string * list string))
  (user_category user_category_lower : string)
  (filtered_accounts : list Account) (P : Best -> Prop) :
  (forall account st s e,
      In account filtered_accounts -> stage2_expl e -> P st ->
      P (consider account s e st)) ->
  P initial_best ->
  P (stage2 synonyms user_category user_category_lower filtered_accounts).
Proof.
  intros HP. unfold stage2. generalize initial_best.
  assert (Hl : forall acc, In acc filtered_accounts -> In acc filtered_accounts)
    by auto.
  revert Hl. generalize filtered_accounts at 1 3 as l.
  induction l as [|account l IH]; intros Hl st H; simpl; [exact H|].
  apply IH; [intros acc Hacc; apply Hl; now right|].
  apply (account_step_considers synonyms user_category user_category_lower
           account); [|exact H].
  intros st' s e He Hst'. apply HP; [apply Hl; now left | exact He | exact Hst'].
Qed.

Lemma consider_ok (l : list Account) (account : Account) (s : Q) (e : string)
  (st : Best) :
  In account l -> stage2_expl e -> best_ok l st ->
  best_ok l (consider account s e st).
Proof.
  intros Hin He Hst. unfold consider.
  destruct (Qgtb s (best_score st)); [|exact Hst]. now split.
Qed.

Lemma stage2_ok (synonyms : list (string * list string))
  (user_category user_category_lower : string)
  (filtered_accounts : list Account) :
  best_ok filtered_accounts
    (stage2 synonyms user_category user_category_lower filtered_accounts).
Proof.
  apply stage2_ind.
  - intros account st s e Hin He Hst. now apply consider_ok.
  - now split.
Qed.

Lemma stage2_expl_nonempty (e : string) : stage2_expl e -> e <> "".
Proof. intros [rest [-> | [-> | ->]]]; discriminate. Qed.

Lemma consider_ge (account : Account) (s : Q) (e : string) (st : Best) :
  (s <= best_score (consider account s e st))%Q.
Proof.
  unfold consider. destruct (Qgtb s (best_score st)) eqn:E; simpl.
  - apply Qle_refl.
  - now apply Qgtb_le.
Qed.

Lemma consider_inflationary (account : Account) (s : Q) (e : string) :
  inflationary (consider account s e).
Proof.
  intros st. unfold consider. destruct (Qgtb s (best_score st)) eqn:E; simpl.
  - apply Qlt_le_weak. now apply Qgtb_lt.
  - apply Qle_refl.
Qed.

Lemma considers_inflationary (account : Account) (f : Best -> Best) :
  considers account f -> inflationary f.
Proof.
  intros Hf st.
  apply (Hf (fun st' => (best_score st <= best_score st')%Q));
    [|apply Qle_refl].
  intros st' s e _ H. eapply Qle_trans; [exact H|].
  apply consider_inflationary.
Qed.

Lemma inflationary_ge (f : Best -> Best) (c : Q) (st : Best) :
  inflationary f -> (c <= best_score st)%Q -> (c <= best_score (f st))%Q.
Proof. intros Hf H. eapply Qle_trans; [exact H | apply Hf]. Qed.

Lemma inflationary_fold {X : Type} (step : Best -> X -> Best) (xs : list X) :
  (forall x, inflationary (fun st => step st x)) ->
  inflationary (fun st => fold_left step xs st).
Proof.
  intros Hstep. induction xs as [|x xs IH]; intros st; simpl.
  - apply Qle_refl.
  - eapply Qle_trans; [apply (Hstep x st) | apply IH].
Qed.

Lemma account_step_inflationary (synonyms : list (string * list string))
  (user_category user_category_lower : string) (account : Account) :
  inflationary
    (fun st => account_step synonyms user_category user_category_lower st account).
Proof.
  eapply considers_inflationary, account_step_considers.
Qed.

Lemma accept_Some (best : Best) (r : MatchResult) :
  accept best = Some r <->
  exists m, best_match best = Some m
            /\ (0.6 <= best_score best)%Q
            /\ r = found m (best_score best) (best_explanation best).
Proof.
  unfold accept. destruct (best_match best) as [m|].
  - destruct (Qgeb (best_score best) 0.6%Q) eqn:E.
    + apply Qgeb_le in E. split.
      * intros [= <-]. now exists m.
      * intros (m' & [= <-] & _ & ->). reflexivity.
    + apply Qgeb_lt in E. split; [discriminate|].
      intros (m' & _ & H & _). exfalso. exact (Qlt_not_le _ _ E H).
  - split; [discriminate|]. intros (m' & H & _). discriminate.
Qed.

Lemma accept_names (l : list Account) (best : Best) (r : MatchResult) :
  best_ok l best -> accept best = Some r -> names_account l r.
Proof.
  intros Hok H. apply accept_Some in H. destruct H as (m & Hm & Hs & ->).
  unfold best_ok in Hok. rewrite Hm in Hok. destruct Hok as [Hin He].
  apply found_names; [exact Hin | | now apply stage2_expl_nonempty].
  eapply Qle_trans; [|exact Hs]. score_literal.
Qed.

(** ** Stage 3 *)

Lemma low_confidence_Some (best : Best) (filtered_accounts : list Account)
  (r : MatchResult) :
  low_confidence best filtered_accounts = Some r <->
  exists m, best_match best = Some m
            /\ (0.3 < best_score best)%Q
            /\ r = found m (best_score best)
                     ("Best available match (low confidence): "
                      ++ best_explanation best ++ ". Available accounts: "
                      ++ available_accounts filtered_accounts).
Proof.
  unfold low_confidence. destruct (best_match best) as [m|].
  - destruct (Qgtb (best_score best) 0.3%Q) eqn:E.
    + apply Qgtb_lt in E. split.
      * intros [= <-]. now exists m.
      * intros (m' & [= <-] & _ & ->). reflexivity.
    + apply Qgtb_le in E. split; [discriminate|].
      intros (m' & _ & H & _). exfalso. exact (Qlt_not_le _ _ H E).
  - split; [discriminate|]. intros (m' & H & _). discriminate.
Qed.

Lemma low_confidence_names (l : list Account) (best : Best) (r : MatchResult) :
  best_ok l best -> low_confidence best l = Some r -> names_account l r.
Proof.
  intros Hok H. apply low_confidence_Some in H.
  destruct H as (m & Hm & Hs & ->).
  unfold best_ok in Hok. rewrite Hm in Hok. destruct Hok as [Hin _].
  apply found_names; [exact Hin | | discriminate].
  apply Qlt_le_weak. eapply Qle_lt_trans; [|exact Hs]. score_literal.
Qed.

Lemma keyword_fallback_names (user_category : string) (keywords : list string)
  (filtered_accounts : list Account) (r : MatchResult) :
  keyword_fallback user_category keywords filtered_accounts = Some r ->
  names_account filtered_accounts r /\ score r = 0.5%Q.
Proof.
  unfold keyword_fallback. destruct (nonempty keywords); [|discriminate].
  intros H. apply first_hit_In in H. destruct H as (account & Hin & H).
  apply first_hit_In in H. destruct H as (keyword & _ & H).
  destruct (Py.contains keyword _); [|discriminate].
  injection H as <-. split; [|reflexivity].
  apply found_names; [exact Hin | score_literal | discriminate].
Qed.

Lemma rental_fallback_names (user_category_lower : string)
  (filtered_accounts : list Account) (r : MatchResult) :
  rental_fallback user_category_lower filtered_accounts = Some r ->
  names_account filtered_accounts r /\ score r = 0.2%Q.
Proof.
  unfold rental_fallback. destruct (Py.mem _ _ && _); [|discriminate].
  intros H. apply first_hit_In in H. destruct H as (account & Hin & H).
  destruct (negb _); [|discriminate].
  injection H as <-. split; [|reflexivity].
  apply found_names; [exact Hin | score_literal | discriminate].
Qed.

(** The subscript [filtered_accounts[0]] is guarded by the truth value of the
    list. *)
Lemma default_fallback_names (user_category account_type : string)
  (filtered_accounts : list Account) :
  filtered_accounts <> [] ->
  exists r,
    default_fallback user_category account_type filtered_accounts = Value r
    /\ names_account filtered_accounts r /\ score r = 0.1%Q.
Proof.
  destruct filtered_accounts as [|first_account rest]; [congruence|].
  intros _. unfold default_fallback. cbn [index nth_error bind].
  eexists. split; [reflexivity|]. split; [|reflexivity].
  apply found_names; [now left | score_literal|].
  destruct (Nat.eqb _ 1); discriminate.
Qed.

Lemma stage3_names (synonyms : list (string * list string))
  (user_category user_category_lower account_type : string)
  (best : Best) (filtered_accounts : list Account) :
  filtered_accounts <> [] -> best_ok filtered_accounts best ->
  exists r,
    stage3 synonyms user_category user_category_lower account_type best
      filtered_accounts = Value r
    /\ names_account filtered_accounts r.
Proof.
  intros Hne Hok. unfold stage3.
  rewrite (proj2 (nonempty_true filtered_accounts) Hne).
  destruct (low_confidence best filtered_accounts) as [r|] eqn:E1.
  { exists r. split; [reflexivity|]. now apply low_confidence_names with best. }
  destruct (keyword_fallback _ _ _) as [r|] eqn:E2.
  { exists r. split; [reflexivity|]. now apply keyword_fallback_names in E2. }
  destruct (rental_fallback _ _) as [r|] eqn:E3.
  { exists r. split; [reflexivity|]. now apply rental_fallback_names in E3. }
  destruct (default_fallback_names user_category account_type
              filtered_accounts Hne) as (r & Hr & Hn & _).
  now exists r.
Qed.

Lemma stage3_expl_not_stage2 (e e' : string) :
  stage3_expl e -> e' = "" \/ stage2_expl e' -> e <> e'.
Proof.
  intros [rest H] [->|[rest' H']].
  - destruct H as [-> | [-> | [-> | ->]]]; discriminate.
  - destruct H as [-> | [-> | [-> | ->]]];
      destruct H' as [-> | [-> | ->]]; discriminate.
Qed.

Lemma best_ok_expl (l : list Account) (best : Best) :
  best_ok l best ->
  best_explanation best = "" \/ stage2_expl (best_explanation best).
Proof.
  unfold best_ok. destruct (best_match best); intros [_ H]; auto.
Qed.

(** A positive score comes with a best match. *)
Lemma best_ok_positive (l : list Account) (best : Best) :
  best_ok l best -> (0 < best_score best)%Q ->
  exists m, best_match best = Some m /\ In m l.
Proof.
  unfold best_ok. destruct (best_match best) as [m|].
  - intros [Hin _] _. now exists m.
  - intros [E _] H. rewrite E in H. discriminate H.
Qed.

Lemma keyword_fallback_expl (user_category : string) (keywords : list string)
  (filtered_accounts : list Account) (r : MatchResult) :
  keyword_fallback user_category keywords filtered_accounts = Some r ->
  stage3_expl (explanation r).
Proof.
  unfold keyword_fallback. destruct (nonempty keywords); [|discriminate].
  intros H. apply first_hit_In in H. destruct H as (account & Hin & H).
  apply first_hit_In in H. destruct H as (keyword & _ & H).
  destruct (Py.contains keyword _); [|discriminate].
  injection H as <-. eexists. right. left. reflexivity.
Qed.

Lemma rental_fallback_expl (user_category_lower : string)
  (filtered_accounts : list Account) (r : MatchResult) :
  rental_fallback user_category_lower filtered_accounts = Some r ->
  stage3_expl (explanation r).
Proof.
  unfold rental_fallback. destruct (Py.mem _ _ && _); [|discriminate].
  intros H. apply first_hit_In in H. destruct H as (account & Hin & H).
  destruct (negb _); [|discriminate].
  injection H as <-. eexists. right. right. left. reflexivity.
Qed.

Lemma default_fallback_expl (user_category account_type : string)
  (filtered_accounts : list Account) (r : MatchResult) :
  default_fallback user_category account_type filtered_accounts = Value r ->
  stage3_expl (explanation r).
Proof.
  unfold default_fallback.
  destruct (index filtered_accounts 0) as [first_account|e]; [|discriminate].
  cbn [bind]. intros [= <-]. cbn [explanation found].
  destruct (Nat.eqb _ 1); eexists; right; right; right;
    cbn [append]; reflexivity.
Qed.

(** When stage 3 decides, the explanation is not the plain one of stage 2. *)
Lemma stage3_expl_differs (synonyms : list (string * list string))
  (user_category user_category_lower account_type : string)
  (best : Best) (filtered_accounts : list Account) (r : MatchResult) :
  best_ok filtered_accounts best ->
  stage3 synonyms user_category user_category_lower account_type best
    filtered_accounts = Value r ->
  explanation r <> best_explanation best.
Proof.
  intros Hok. unfold stage3. destruct (nonempty filtered_accounts).
  - destruct (low_confidence best filtered_accounts) as [r1|] eqn:E1.
    { intros [= <-]. apply low_confidence_Some in E1.
      destruct E1 as (m & _ & _ & ->). apply append_around_neq. }
    destruct (keyword_fallback _ _ _) as [r2|] eqn:E2.
    { intros [= <-]. apply stage3_expl_not_stage2.
      - now apply keyword_fallback_expl in E2.
      - now apply best_ok_expl with filtered_accounts. }
    destruct (rental_fallback _ _) as [r3|] eqn:E3.
    { intros [= <-]. apply stage3_expl_not_stage2.
      - now apply rental_fallback_expl in E3.
      - now apply best_ok_expl with filtered_accounts. }
    intros H. apply stage3_expl_not_stage2.
    + now apply default_fallback_expl in H.
    + now apply best_ok_expl with filtered_accounts.
  - intros [= <-]. apply stage3_expl_not_stage2.
    + eexists. right. right. right. reflexivity.
    + now apply best_ok_expl with filtered_accounts.
Qed.

(** ** Synonym lookup *)

(** A loop of steps [consider account s _] under a test changes nothing
    when the score is not below [s]. *)
Lemma fold_consider_keep {X : Type} (account : Account) (s : Q)
  (c : X -> bool) (e : X -> string) (xs : list X) (st : Best) :
  (s <= best_score st)%Q ->
  fold_left (fun st x => if c x then consider account s (e x) st else st) xs st
  = st.
Proof.
  intros Hle. induction xs as [|x xs IH]; simpl; [reflexivity|].
  assert (E : (if c x then consider account s (e x) st else st) = st).
  { destruct (c x); [|reflexivity]. unfold consider.
    now rewrite (proj2 (Qgtb_le _ _) Hle). }
  rewrite E. exact IH.
Qed.

(** If the score is below [s] and some element passes the test, the score
    becomes [s]. *)
Lemma fold_consider_reach {X : Type} (account : Account) (s : Q)
  (c : X -> bool) (e : X -> string) (xs : list X) (st : Best) :
  (best_score st < s)%Q -> (exists x, In x xs /\ c x = true) ->
  best_score
    (fold_left (fun st x => if c x then consider account s (e x) st else st)
       xs st) = s.
Proof.
  intros Hlt. induction xs as [|x xs IH]; intros (y & Hy & Hc).
  - destruct Hy.
  - simpl. destruct (c x) eqn:Ec.
    + assert (E : consider account s (e x) st
                  = {| best_match := Some account; best_score := s;
                       best_explanation := e x |}).
      { unfold consider. now rewrite (proj2 (Qgtb_lt _ _) Hlt). }
      rewrite E, fold_consider_keep; [reflexivity | apply Qle_refl].
    + apply IH. destruct Hy as [<-|Hy]; [congruence | now exists y].
Qed.

Lemma fold_consider_ge {X : Type} (account : Account) (s : Q)
  (c : X -> bool) (e : X -> string) (xs : list X) (st : Best) :
  (exists x, In x xs /\ c x = true) ->
  (s <= best_score
          (fold_left
             (fun st x => if c x then consider account s (e x) st else st)
             xs st))%Q.
Proof.
  intros Hex.
  destruct (Qlt_le_dec (best_score st) s) as [Hlt|Hle].
  - rewrite (fold_consider_reach account s c e xs st Hlt Hex). apply Qle_refl.
  - rewrite (fold_consider_keep account s c e xs st Hle). exact Hle.
Qed.

Lemma related_block1 (user_category_lower key : string)
  (synonym_list : list string) :
  related user_category_lower key synonym_list ->
  String.eqb user_category_lower key || Py.mem user_category_lower synonym_list
  = true.
Proof.
  intros [->|H]; apply orb_true_iff.
  - left. apply String.eqb_refl.
  - right. now apply mem_In.
Qed.

Lemma related_block2 (user_category_lower key : string)
  (synonym_list : list string) :
  related user_category_lower key synonym_list ->
  Py.mem user_category_lower (key :: synonym_list) = true.
Proof. intros H. now apply related_block1 in H. Qed.

(** The words of the two tables are lower-case and carry no white space at
    their ends: the label, as typed, that is a key or a synonym is the label
    that the code compares. *)
Lemma table_words_normal :
  forallb (fun entry =>
             forallb (fun w => String.eqb (Py.strip (Py.lower w)) w)
               (fst entry :: snd entry))
    (EXPENSE_SYNONYMS ++ INCOME_SYNONYMS)%list = true.
Proof. vm_compute. reflexivity. Qed.

Lemma label_related (user_category account_type key : string)
  (synonym_list : list string) :
  In (key, synonym_list)
    (if String.eqb account_type "Expenses"
     then EXPENSE_SYNONYMS else INCOME_SYNONYMS) ->
  user_category = key \/ In user_category synonym_list ->
  related (Py.strip (Py.lower user_category)) key synonym_list.
Proof.
  intros He Hl.
  assert (Hin : In (key, synonym_list)
                  (EXPENSE_SYNONYMS ++ INCOME_SYNONYMS)%list).
  { apply in_or_app. destruct (String.eqb account_type "Expenses"); auto. }
  pose proof table_words_normal as Hn. rewrite forallb_forall in Hn.
  specialize (Hn _ Hin). cbn [fst snd] in Hn. rewrite forallb_forall in Hn.
  assert (Hw : Py.strip (Py.lower user_category) = user_category).
  { apply String.eqb_eq, Hn. destruct Hl as [->|Hl]; [now left | now right]. }
  unfold related. rewrite Hw. exact Hl.
Qed.

Section SynonymBlocks.

Variables (user_category user_category_lower : string) (account : Account).
Variables (key : string) (synonym_list : list string).
Hypothesis Hrelated : related user_category_lower key synonym_list.

(** The key in the account (Py.lower (acc_name account)): the score becomes exactly 0.9. *)
Lemma block1_key (st : Best) :
  Py.contains key (Py.lower (acc_name account)) = true -> (best_score st < 0.9)%Q ->
  best_score (synonym_block1 user_category user_category_lower account key
                synonym_list st) = 0.9%Q.
Proof.
  intros Hk Hlt. unfold synonym_block1.
  rewrite (related_block1 _ _ _ Hrelated). rewrite Hk.
  match goal with |- context [fold_left ?g synonym_list ?st'] =>
    assert (Hs : best_score st' = 0.9%Q)
  end.
  { unfold consider. now rewrite (proj2 (Qgtb_lt _ _) Hlt). }
  rewrite (fold_consider_keep account 0.85%Q
             (fun synonym => Py.contains synonym (Py.lower (acc_name account))));
    [exact Hs|]. rewrite Hs. score_literal.
Qed.

(** A synonym, not the key, in the account (Py.lower (acc_name account)): the score becomes exactly
    0.85. *)
Lemma block1_synonym (st : Best) :
  Py.contains key (Py.lower (acc_name account)) = false ->
  (exists synonym, In synonym synonym_list
                   /\ Py.contains synonym (Py.lower (acc_name account)) = true) ->
  (best_score st < 0.85)%Q ->
  best_score (synonym_block1 user_category user_category_lower account key
                synonym_list st) = 0.85%Q.
Proof.
  intros Hk Hex Hlt. unfold synonym_block1.
  rewrite (related_block1 _ _ _ Hrelated). rewrite Hk.
  now apply (fold_consider_reach account 0.85%Q
               (fun synonym => Py.contains synonym (Py.lower (acc_name account)))).
Qed.

(** The key or a synonym in the account (Py.lower (acc_name account)): the second block makes the
    score exactly 0.88. *)
Lemma block2_any (st : Best) :
  (exists synonym, In synonym (key :: synonym_list)
                   /\ Py.contains synonym (Py.lower (acc_name account)) = true) ->
  (best_score st < 0.88)%Q ->
  best_score (synonym_block2 user_category user_category_lower account key
                synonym_list st) = 0.88%Q.
Proof.
  intros Hex Hlt. unfold synonym_block2.
  rewrite (related_block2 _ _ _ Hrelated).
  now apply (fold_consider_reach account 0.88%Q
               (fun synonym => Py.contains synonym (Py.lower (acc_name account)))).
Qed.

Lemma block1_key_ge (st : Best) :
  Py.contains key (Py.lower (acc_name account)) = true -> (0.9 <= best_score (synonym_block1 user_category user_category_lower account key
                synonym_list st))%Q.
Proof.
  intros Hk. unfold synonym_block1.
  rewrite (related_block1 _ _ _ Hrelated). rewrite Hk.
  apply (inflationary_ge (fun st => fold_left _ synonym_list st)).
  - apply inflationary_fold. intros synonym st'.
    destruct (Py.contains synonym (Py.lower (acc_name account)));
      [apply consider_inflationary | apply Qle_refl].
  - apply consider_ge.
Qed.

Lemma block1_synonym_ge (st : Best) :
  (exists synonym, In synonym synonym_list
                   /\ Py.contains synonym (Py.lower (acc_name account)) = true) ->
  (0.85 <= best_score (synonym_block1 user_category user_category_lower account key
                synonym_list st))%Q.
Proof.
  intros Hex. unfold synonym_block1.
  rewrite (related_block1 _ _ _ Hrelated).
  apply (fold_consider_ge account 0.85%Q
           (fun synonym => Py.contains synonym (Py.lower (acc_name account)))). exact Hex.
Qed.

Lemma block2_any_ge (st : Best) :
  (exists synonym, In synonym (key :: synonym_list)
                   /\ Py.contains synonym (Py.lower (acc_name account)) = true) ->
  (0.88 <= best_score (synonym_block2 user_category user_category_lower account key
                synonym_list st))%Q.
Proof.
  intros Hex. unfold synonym_block2.
  rewrite (related_block2 _ _ _ Hrelated).
  apply (fold_consider_ge account 0.88%Q
           (fun synonym => Py.contains synonym (Py.lower (acc_name account)))). exact Hex.
Qed.

End SynonymBlocks.

(** A bound that the step of one entry reaches for one filtered account
    holds of the final score of stage 2. *)
Lemma stage2_ge (synonyms : list (string * list string))
  (user_category user_category_lower : string)
  (filtered_accounts : list Account) (account : Account)
  (entry : string * list string) (c : Q) :
  In account filtered_accounts -> In entry synonyms ->
  (forall st,
      (c <= best_score
              (synonym_step user_category user_category_lower account st entry))%Q) ->
  (c <= best_score
          (stage2 synonyms user_category user_category_lower filtered_accounts))%Q.
Proof.
  intros Ha He Hc.
  destruct (in_split _ _ Ha) as (l1 & l2 & ->).
  destruct (in_split _ _ He) as (s1 & s2 & Es).
  unfold stage2. rewrite fold_left_app. cbn [fold_left].
  apply (inflationary_ge (fun st => fold_left _ l2 st)).
  { apply inflationary_fold. intros a. apply account_step_inflationary. }
  unfold account_step at 1. rewrite Es at 1. rewrite fold_left_app.
  cbn [fold_left].
  apply (inflationary_ge (fun st => fold_left _ s2 st)).
  { apply inflationary_fold. intros x.
    eapply considers_inflationary, synonym_step_considers. }
  apply Hc.
Qed.

(** ** The engine *)

Section EngineFacts.

Context {set_order : SetOrder}.

(** Over a list of filtered accounts that is not empty the pipeline does not
    raise and names one of them. *)
Lemma match_pipeline_names (user_category account_type : string)
  (user_context : option string) (filtered_accounts : list Account) :
  filtered_accounts <> [] ->
  exists r,
    match_pipeline user_category account_type user_context filtered_accounts
    = Value r
    /\ names_account filtered_accounts r.
Proof.
  intros Hne. unfold match_pipeline.
  destruct (stage0 _ _ _) as [r|] eqn:E0.
  { exists r. split; [reflexivity|]. now apply stage0_names in E0. }
  destruct (stage1 _ _ _) as [[r|]|e] eqn:E1; cbn [bind].
  - exists r. split; [reflexivity|]. now apply stage1_names in E1.
  - destruct (accept _) as [r|] eqn:E2.
    + exists r. split; [reflexivity|].
      eapply accept_names; [apply stage2_ok | exact E2].
    + apply stage3_names; [exact Hne | apply stage2_ok].
  - rewrite stage1_value in E1. discriminate.
Qed.

Lemma engine_empty_label (accounts : list Account) (account_type : string)
  (user_context : option string) :
  find_best_account_match "" accounts account_type user_context
  = Value (not_found "No category provided").
Proof. reflexivity. Qed.

Lemma engine_no_accounts (user_category : string) (accounts : list Account)
  (account_type : string) (user_context : option string) :
  user_category <> "" -> filter_accounts account_type accounts = [] ->
  find_best_account_match user_category accounts account_type user_context
  = Value (not_found (error_msg account_type)).
Proof.
  intros Hc Hf. unfold find_best_account_match.
  rewrite (proj2 (truthy_nonempty user_category) Hc), Hf. reflexivity.
Qed.

Lemma engine_pipeline (user_category : string) (accounts : list Account)
  (account_type : string) (user_context : option string) :
  user_category <> "" -> filter_accounts account_type accounts <> [] ->
  find_best_account_match user_category accounts account_type user_context
  = match_pipeline user_category account_type user_context
      (filter_accounts account_type accounts).
Proof.
  intros Hc Hf. unfold find_best_account_match.
  rewrite (proj2 (truthy_nonempty user_category) Hc).
  rewrite (proj2 (nonempty_true _) Hf). reflexivity.
Qed.

Lemma error_msg_names_class (account_type : string) :
  Py.contains (Py.lower account_type) (error_msg account_type) = true
  /\ error_msg account_type <> "".
Proof.
  unfold error_msg. destruct (String.eqb account_type "Income").
  - split; [|discriminate]. rewrite !append_assoc. apply contains_append.
  - split; [|discriminate]. apply contains_append.
Qed.

(** C2 (as amended): for every query with a category label that is not empty
    and a filtered account list that is not empty (in particular when some
    candidate of the requested class is not archived), the engine returns a
    result with a populated accountId and a score of at least 0.1. *)
Theorem C2_nonempty_label_names_account (user_category : string)
  (accounts : list Account) (account_type : string)
  (user_context : option string) :
  user_category <> "" ->
  filter_accounts account_type accounts <> []
  \/ (exists acc, In acc accounts /\ acc_type acc = account_type
                  /\ isArchived acc = false) ->
  exists r id,
    find_best_account_match user_category accounts account_type user_context
    = Value r
    /\ accountId r = Some id
    /\ (0.1 <= score r)%Q.
Proof.
  intros Hc Hf.
  assert (Hne : filter_accounts account_type accounts <> []).
  { destruct Hf as [Hf|(acc & Hin & Ht & Ha)]; [exact Hf|].
    now apply filter_accounts_nonempty with acc. }
  rewrite engine_pipeline by assumption.
  destruct (match_pipeline_names user_category account_type user_context _ Hne)
    as (r & Hr & acc & _ & Hid & _ & Hs & _).
  exists r, (acc_id acc). auto.
Qed.

(** C4: whenever the returned result has a populated accountId, the
    identifier is that of a candidate account that is not archived; and the
    explanation is never empty, whether the engine reports a match, a
    low-confidence match, no category or no account of the class. *)
Theorem C4_account_from_candidates_and_explanation (user_category : string)
  (accounts : list Account) (account_type : string)
  (user_context : option string) :
  exists r,
    find_best_account_match user_category accounts account_type user_context
    = Value r
    /\ explanation r <> ""
    /\ forall id,
         accountId r = Some id ->
         exists acc, In acc accounts /\ isArchived acc = false
                     /\ acc_id acc = id.
Proof.
  destruct (string_dec user_category "") as [->|Hc].
  { rewrite engine_empty_label. eexists. split; [reflexivity|].
    split; discriminate. }
  destruct (nonempty (filter_accounts account_type accounts)) eqn:Hf;
    [apply nonempty_true in Hf | apply nonempty_false in Hf]; cycle 1.
  { rewrite engine_no_accounts by assumption. eexists.
    split; [reflexivity|]. split; [apply error_msg_names_class | discriminate]. }
  rewrite engine_pipeline by assumption.
  destruct (match_pipeline_names user_category account_type user_context _ Hf)
    as (r & Hr & acc & Hin & Hid & _ & _ & He).
  exists r. split; [exact Hr|]. split; [exact He|].
  intros id Hid'. rewrite Hid in Hid'. injection Hid' as <-.
  pose proof (filter_accounts_kept account_type accounts) as Hk.
  rewrite Forall_forall in Hk. destruct (Hk acc Hin) as [Ha Hacc].
  now exists acc.
Qed.

(** C5 (as amended): the engine never raises: every outcome is a result
    tuple.  When the filtered account list is empty the result is
    (None, None, 0.0, diagnostic); the diagnostic is the message that names
    the lower-cased account class when the category label is not empty, and
    is "No category provided" when the label is empty. *)
Theorem C5_never_raises_and_empty_filter (user_category : string)
  (accounts : list Account) (account_type : string)
  (user_context : option string) :
  exists r,
    find_best_account_match user_category accounts account_type user_context
    = Value r
    /\ (filter_accounts account_type accounts = [] ->
        accountId r = None /\ accountName r = None /\ score r = 0.0%Q
        /\ explanation r = (if Py.truthy user_category
                            then error_msg account_type
                            else "No category provided"))
    /\ Py.contains (Py.lower account_type) (error_msg account_type) = true.
Proof.
  destruct (string_dec user_category "") as [->|Hc].
  { rewrite engine_empty_label. eexists. split; [reflexivity|].
    split; [now intros _ | apply error_msg_names_class]. }
  destruct (nonempty (filter_accounts account_type accounts)) eqn:Hf;
    [apply nonempty_true in Hf | apply nonempty_false in Hf].
  - rewrite engine_pipeline by assumption.
    destruct (match_pipeline_names user_category account_type user_context
                _ Hf) as (r & Hr & _).
    exists r. split; [exact Hr|].
    split; [congruence | apply error_msg_names_class].
  - rewrite engine_no_accounts by assumption. eexists.
    split; [reflexivity|]. split; [|apply error_msg_names_class].
    intros _. rewrite (proj2 (truthy_nonempty user_category) Hc).
    now repeat split.
Qed.

(** C10: with the empty string as category label the engine returns
    (None, None, 0.0, "No category provided") for every candidate list,
    account class and context, also when the candidates hold an account of
    the requested class that is not archived; so a result without accountId
    and with score 0.0 does not tell that the class has no candidates. *)
Theorem C10_empty_label_guard :
  (forall accounts account_type user_context,
      find_best_account_match "" accounts account_type user_context
      = Value (not_found "No category provided"))
  /\ exists accounts account_type acc,
       In acc accounts /\ acc_type acc = account_type
       /\ isArchived acc = false
       /\ filter_accounts account_type accounts <> []
       /\ forall user_context,
            exists r,
              find_best_account_match "" accounts account_type user_context
              = Value r
              /\ accountId r = None /\ score r = 0.0%Q.
Proof.
  split; [intros; apply engine_empty_label|].
  pose (acc := {| acc_id := "QWNjb3VudDox"; acc_name := "Rent";
                  acc_type := "Expenses"; acc_subtype := None;
                  isArchived := false |}).
  exists [acc], "Expenses", acc.
  split; [now left|]. split; [reflexivity|]. split; [reflexivity|].
  split; [discriminate|]. intros user_context. eexists.
  split; [apply engine_empty_label|]. now split.
Qed.

Lemma stage0_first (numbers : list string) (filtered_accounts : list Account) :
  (exists number account,
      In number numbers /\ In account filtered_accounts
      /\ qualifies number account = true) ->
  exists number account,
    find (fun n => existsb (qualifies n) filtered_accounts) numbers = Some number
    /\ find (qualifies number) filtered_accounts = Some account
    /\ stage0 "Income" numbers filtered_accounts
       = Some (found account 0.98%Q
                 ("Apartment-specific match: Found apartment " ++ number
                  ++ " in '" ++ acc_name account ++ "'")).
Proof.
  intros (number0 & account0 & Hn & Ha & Hq).
  assert (Hinner : forall n,
             first_hit (stage0_test n) filtered_accounts
             = match find (qualifies n) filtered_accounts with
               | Some a => stage0_test n a
               | None => None
               end).
  { intros n. apply first_hit_find. intros a. symmetry.
    apply stage0_test_None. }
  destruct (find (fun n => existsb (qualifies n) filtered_accounts) numbers)
    as [number|] eqn:En; cycle 1.
  { pose proof (find_none _ _ En _ Hn) as H. simpl in H.
    assert (existsb (qualifies number0) filtered_accounts = true)
      by (apply existsb_exists; now exists account0).
    congruence. }
  destruct (find_some _ _ En) as [Hin Hex].
  destruct (find (qualifies number) filtered_accounts) as [account|] eqn:Ea;
    cycle 1.
  { apply existsb_exists in Hex. destruct Hex as (a & Hain & Hqa).
    pose proof (find_none _ _ Ea _ Hain). congruence. }
  destruct (find_some _ _ Ea) as [Hain Hqa].
  exists number, account. split; [reflexivity|]. split; [exact Ea|].
  unfold stage0.
  replace (nonempty numbers) with true
    by (destruct numbers; [destruct Hn | reflexivity]).
  cbn [andb String.eqb]. simpl (String.eqb "Income" "Income").
  cbv iota.
  rewrite (first_hit_find
             (fun n => first_hit (stage0_test n) filtered_accounts)
             (fun n => existsb (qualifies n) filtered_accounts)).
  - rewrite En, Hinner, Ea. apply stage0_test_Some. now split.
  - intros n. rewrite Hinner. split.
    + intros Hnone.
      destruct (find (qualifies n) filtered_accounts) as [a|] eqn:E;
        [|reflexivity].
      destruct (find_some _ _ E) as [Hi Hq'].
      assert (existsb (qualifies n) filtered_accounts = true)
        by (apply existsb_exists; now exists a).
      congruence.
    + intros Hnone. destruct (existsb (qualifies n) filtered_accounts) eqn:E;
        [|reflexivity].
      apply existsb_exists in E. destruct E as (a & Hi & Hq').
      destruct (find (qualifies n) filtered_accounts) as [a'|] eqn:E'.
      * destruct (find_some _ _ E') as [_ Hq''].
        apply stage0_test_None in Hnone. congruence.
      * pose proof (find_none _ _ E' _ Hi). congruence.
Qed.

(** C1 (as amended): for every Income query with a category label that is
    not empty, if some extracted numeric token occurs in the name of some
    filtered account together with the word "rental", stage 0 decides: the
    engine returns, at score 0.98, the first filtered account (input order)
    whose name holds "rental" and the first token, in the order in which
    the extractor enumerates them, that has such an account.  Stage 1 is not
    consulted, whatever it would have returned. *)
Theorem C1_stage0_first_qualifying (user_category : string)
  (accounts : list Account) (user_context : option string) :
  user_category <> "" ->
  (exists number account,
      In number (extract_numbers number_patterns user_category user_context)
      /\ In account (filter_accounts "Income" accounts)
      /\ qualifies number account = true) ->
  exists number account,
    find (fun n => existsb (qualifies n) (filter_accounts "Income" accounts))
      (extract_numbers number_patterns user_category user_context)
    = Some number
    /\ find (qualifies number) (filter_accounts "Income" accounts)
       = Some account
    /\ find_best_account_match user_category accounts "Income" user_context
       = Value (found account 0.98%Q
                  ("Apartment-specific match: Found apartment " ++ number
                   ++ " in '" ++ acc_name account ++ "'")).
Proof.
  intros Hc Hex.
  assert (Hne : filter_accounts "Income" accounts <> []).
  { destruct Hex as (_ & account & _ & Hin & _).
    intros E. rewrite E in Hin. destruct Hin. }
  destruct (stage0_first _ _ Hex) as (number & account & Hn & Ha & H0).
  exists number, account. split; [exact Hn|]. split; [exact Ha|].
  rewrite engine_pipeline by assumption. unfold match_pipeline.
  rewrite H0. reflexivity.
Qed.

(** C3 (as amended): for every query whose category label is not empty and
    equals, case-insensitively, the full name of a filtered account (the two
    have the same [str.lower()], on any Unicode text), the engine returns
    that account with score 1.0, provided stage 0 returns nothing and no
    filtered account in front of it passes a rule of stage 1. *)
Theorem C3_exact_name_scores_one (user_category : string)
  (accounts : list Account) (account_type : string)
  (user_context : option string) (before : list Account) (account : Account)
  (after : list Account) :
  user_category <> "" ->
  filter_accounts account_type accounts = (before ++ account :: after)%list ->
  Py.lower user_category = Py.lower (acc_name account) ->
  stage0 account_type
    (extract_numbers number_patterns user_category user_context)
    (filter_accounts account_type accounts) = None ->
  (forall a, In a before ->
             stage1_test user_category (Py.strip (Py.lower user_category)) a
             = Value None) ->
  find_best_account_match user_category accounts account_type user_context
  = Value (found account 1.0%Q
             ("Exact substring match: '" ++ user_category ++ "' found in '"
              ++ acc_name account ++ "'")).
Proof.
  intros Hc Hf Hname H0 Hbefore.
  assert (Hne : filter_accounts account_type accounts <> [])
    by (rewrite Hf; now destruct before).
  rewrite engine_pipeline by assumption. unfold match_pipeline.
  rewrite H0, stage1_value.
  match goal with
  | |- context [first_hit ?f ?l] =>
      assert (H1 : first_hit f l
                   = Some (found account 1.0%Q
                             ("Exact substring match: '" ++ user_category
                              ++ "' found in '" ++ acc_name account ++ "'")))
  end.
  { apply first_hit_Some. exists before, account, after.
    split; [exact Hf|]. split.
    - intros a Ha. now rewrite (Hbefore a Ha).
    - unfold stage1_test. rewrite <- Hname, contains_strip. reflexivity. }
  rewrite H1. reflexivity.
Qed.

(** The pipeline behind stages 0 and 1. *)
Lemma match_pipeline_stage2 (user_category account_type : string)
  (user_context : option string) (filtered_accounts : list Account) :
  let user_category_lower := Py.strip (Py.lower user_category) in
  let synonyms := if String.eqb account_type "Expenses"
                  then EXPENSE_SYNONYMS else INCOME_SYNONYMS in
  let best := stage2 synonyms user_category user_category_lower
                filtered_accounts in
  stage0 account_type
    (extract_numbers number_patterns user_category user_context)
    filtered_accounts = None ->
  stage1 user_category user_category_lower filtered_accounts = Value None ->
  match_pipeline user_category account_type user_context filtered_accounts
  = match accept best with
    | Some r => Value r
    | None => stage3 synonyms user_category user_category_lower account_type
                best filtered_accounts
    end.
Proof.
  intros ucl synonyms best H0 H1. unfold match_pipeline.
  fold ucl. rewrite H0, H1. reflexivity.
Qed.

(** C6: when stages 0 and 1 return nothing, the engine returns the best
    match of stage 2 as it stands exactly when the best score is at least
    0.6; with a best score above 0.3 and below 0.6 it still returns the same
    best account and score, the explanation being the low-confidence text
    that ends with the names of the first filtered accounts, three at
    most. *)
Theorem C6_accept_threshold_and_low_confidence (user_category : string)
  (accounts : list Account) (account_type : string)
  (user_context : option string) :
  let filtered_accounts := filter_accounts account_type accounts in
  let user_category_lower := Py.strip (Py.lower user_category) in
  let synonyms := if String.eqb account_type "Expenses"
                  then EXPENSE_SYNONYMS else INCOME_SYNONYMS in
  let best := stage2 synonyms user_category user_category_lower
                filtered_accounts in
  user_category <> "" ->
  filtered_accounts <> [] ->
  stage0 account_type
    (extract_numbers number_patterns user_category user_context)
    filtered_accounts = None ->
  stage1 user_category user_category_lower filtered_accounts = Value None ->
  exists r,
    find_best_account_match user_category accounts account_type user_context
    = Value r
    /\ ((exists m, best_match best = Some m
                   /\ r = found m (best_score best) (best_explanation best))
        <-> (0.6 <= best_score best)%Q)
    /\ ((0.3 < best_score best)%Q -> (best_score best < 0.6)%Q ->
        exists m names,
          best_match best = Some m
          /\ names = map acc_name (firstn 3 filtered_accounts)
          /\ List.length names <= 3
          /\ r = found m (best_score best)
                   ("Best available match (low confidence): "
                    ++ best_explanation best ++ ". Available accounts: "
                    ++ Py.join ", " names)).
Proof.
  intros filtered_accounts ucl synonyms best Hc Hne H0 H1.
  rewrite engine_pipeline by assumption.
  fold filtered_accounts.
  rewrite match_pipeline_stage2 by assumption.
  fold ucl synonyms best.
  pose proof (stage2_ok synonyms user_category ucl filtered_accounts) as Hok.
  fold best in Hok.
  destruct (accept best) as [r|] eqn:Ea.
  - apply accept_Some in Ea. destruct Ea as (m & Hm & Hs & ->).
    eexists. split; [reflexivity|]. split.
    + split; [intros _; exact Hs | intros _; now exists m].
    + intros _ Hlt. exfalso. exact (Qlt_not_le _ _ Hlt Hs).
  - assert (Hlt : (best_score best < 0.6)%Q).
    { apply Qnot_le_lt. intros Hs.
      destruct (best_ok_positive _ _ Hok) as (m & Hm & _).
      { eapply Qlt_le_trans; [|exact Hs]. reflexivity. }
      assert (accept best
              = Some (found m (best_score best) (best_explanation best)))
        by (apply accept_Some; now exists m).
      congruence. }
    destruct (stage3_names synonyms user_category ucl account_type best
                filtered_accounts Hne Hok) as (r & Hr & _).
    exists r. split; [exact Hr|]. split.
    + split.
      * intros (m & _ & ->). exfalso.
        now apply (stage3_expl_differs _ _ _ _ _ _ _ Hok Hr).
      * intros Hs. exfalso. exact (Qlt_not_le _ _ Hlt Hs).
    + intros Hlow _.
      destruct (best_ok_positive _ _ Hok) as (m & Hm & _).
      { eapply Qlt_trans; [|exact Hlow]. reflexivity. }
      exists m, (map acc_name (firstn 3 filtered_accounts)).
      split; [exact Hm|]. split; [reflexivity|]. split.
      { rewrite length_map. apply firstn_le_length. }
      unfold stage3 in Hr.
      rewrite (proj2 (nonempty_true filtered_accounts) Hne) in Hr.
      assert (El : low_confidence best filtered_accounts
                   = Some (found m (best_score best)
                             ("Best available match (low confidence): "
                              ++ best_explanation best
                              ++ ". Available accounts: "
                              ++ available_accounts filtered_accounts)))
        by (apply low_confidence_Some; now exists m).
      rewrite El in Hr. now injection Hr as <-.
Qed.

(** C7: in the synonym lookup of stage 2, for a table entry to which the
    category belongs (as its key or as one of its synonyms) and a filtered
    account, the score awarded is exactly 0.9 when the key occurs in the
    account name, exactly 0.85 when only a synonym does (first block) and
    exactly 0.88 when the key or a synonym does (second block), each as soon
    as the running score is below it; and when stages 0 and 1 return nothing
    the returned score is at least the value awarded. *)
Theorem C7_synonym_scores (user_category : string)
  (accounts : list Account) (account_type : string)
  (user_context : option string) (key : string) (synonym_list : list string)
  (account : Account) (st : Best) :
  let filtered_accounts := filter_accounts account_type accounts in
  let user_category_lower := Py.strip (Py.lower user_category) in
  let synonyms := if String.eqb account_type "Expenses"
                  then EXPENSE_SYNONYMS else INCOME_SYNONYMS in
  let name := Py.lower (acc_name account) in
  let st1 := synonym_block1 user_category user_category_lower account key
               synonym_list st in
  let st2 := synonym_block2 user_category user_category_lower account key
               synonym_list st1 in
  user_category <> "" ->
  In account filtered_accounts ->
  In (key, synonym_list) synonyms ->
  related user_category_lower key synonym_list ->
  stage0 account_type
    (extract_numbers number_patterns user_category user_context)
    filtered_accounts = None ->
  stage1 user_category user_category_lower filtered_accounts = Value None ->
  (Py.contains key name = true -> (best_score st < 0.9)%Q ->
   best_score st1 = 0.9%Q)
  /\ (Py.contains key name = false ->
      (exists synonym, In synonym synonym_list
                       /\ Py.contains synonym name = true) ->
      (best_score st < 0.85)%Q -> best_score st1 = 0.85%Q)
  /\ ((exists synonym, In synonym (key :: synonym_list)
                       /\ Py.contains synonym name = true) ->
      (best_score st1 < 0.88)%Q -> best_score st2 = 0.88%Q)
  /\ synonym_step user_category user_category_lower account st
       (key, synonym_list) = st2
  /\ exists r,
       find_best_account_match user_category accounts account_type
         user_context = Value r
       /\ (Py.contains key name = true -> (0.9 <= score r)%Q)
       /\ ((exists synonym, In synonym (key :: synonym_list)
                            /\ Py.contains synonym name = true) ->
           (0.88 <= score r)%Q)
       /\ ((exists synonym, In synonym synonym_list
                            /\ Py.contains synonym name = true) ->
           (0.85 <= score r)%Q).
Proof.
  intros filtered_accounts ucl synonyms name st1 st2 Hc Hin He Hrel H0 H1.
  split; [apply block1_key; exact Hrel|].
  split; [apply block1_synonym; exact Hrel|].
  split; [apply block2_any; exact Hrel|].
  split; [reflexivity|].
  assert (Hne : filtered_accounts <> [])
    by (intros E; rewrite E in Hin; destruct Hin).
  rewrite engine_pipeline by assumption. fold filtered_accounts.
  rewrite match_pipeline_stage2 by assumption. fold ucl synonyms.
  set (best := stage2 synonyms user_category ucl filtered_accounts).
  pose proof (stage2_ok synonyms user_category ucl filtered_accounts) as Hok.
  fold best in Hok.
  (* a bound [c >= 0.6] on the best score is a bound on the returned score *)
  assert (Hret : forall c, (0.6 <= c)%Q -> (c <= best_score best)%Q ->
                 accept best
                 = Some (found (match best_match best with
                                | Some m => m
                                | None => account
                                end) (best_score best) (best_explanation best))).
  { intros c Hc6 Hcb. apply accept_Some.
    destruct (best_ok_positive _ _ Hok) as (m & Hm & _).
    { eapply Qlt_le_trans; [|exact Hcb].
      eapply Qlt_le_trans; [|exact Hc6]. reflexivity. }
    exists m. rewrite Hm. split; [reflexivity|]. split; [|reflexivity].
    eapply Qle_trans; [exact Hc6 | exact Hcb]. }
  assert (Hkey : Py.contains key name = true -> (0.9 <= best_score best)%Q).
  { intros Hk. apply (stage2_ge synonyms user_category ucl filtered_accounts
                        account (key, synonym_list)); [exact Hin | exact He|].
    intros st'. unfold synonym_step.
    apply (inflationary_ge (synonym_block2 _ _ _ _ _)).
    - eapply considers_inflationary, synonym_block2_considers.
    - now apply block1_key_ge. }
  assert (Hany : (exists synonym, In synonym (key :: synonym_list)
                                  /\ Py.contains synonym name = true) ->
                 (0.88 <= best_score best)%Q).
  { intros Hex. apply (stage2_ge synonyms user_category ucl filtered_accounts
                         account (key, synonym_list)); [exact Hin | exact He|].
    intros st'. unfold synonym_step. now apply block2_any_ge. }
  destruct (accept best) as [r|] eqn:Ea.
  - apply accept_Some in Ea. destruct Ea as (m & Hm & Hs & ->).
    eexists. split; [reflexivity|]. cbn [score found].
    split; [exact Hkey|]. split; [exact Hany|].
    intros (synonym & Hs1 & Hs2).
    eapply Qle_trans; [|apply Hany; exists synonym; split;
                         [now right | exact Hs2]].
    score_literal.
  - destruct (stage3_names synonyms user_category ucl account_type best
                filtered_accounts Hne Hok) as (r & Hr & _).
    exists r. split; [exact Hr|].
    split; [|split].
    + intros Hk. discriminate (Hret 0.9%Q ltac:(score_literal) (Hkey Hk)).
    + intros Hex.
      discriminate (Hret 0.88%Q ltac:(score_literal) (Hany Hex)).
    + intros (synonym & Hs1 & Hs2).
      assert (Hex : exists synonym, In synonym (key :: synonym_list)
                                    /\ Py.contains synonym name = true)
        by (exists synonym; split; [now right | exact Hs2]).
      discriminate (Hret 0.88%Q ltac:(score_literal) (Hany Hex)).
Qed.

End EngineFacts.

(** ** The claims on concrete queries *)

(** C1 as stated fails twice.  With an empty category label the guard of
    line 458 returns before any stage, although the text holds the token
    "144" and the account "Rental Income - 144" is filtered.  And with two
    filtered accounts that both hold the token and "rental", the engine
    returns the first one, not the second. *)
Lemma C1_counterexample :
  (In "144" (extract_numbers number_patterns "" (Some "apartment 144 payment"))
   /\ In (income_account "Rental Income - 144")
        (filter_accounts "Income" [income_account "Rental Income - 144"])
   /\ qualifies "144" (income_account "Rental Income - 144") = true
   /\ find_best_account_match "" [income_account "Rental Income - 144"]
        "Income" (Some "apartment 144 payment")
      = Value (not_found "No category provided"))
  /\ (In "144" (extract_numbers number_patterns "rent" (Some "unit 144"))
      /\ In (income_account "Rental 144 South")
           (filter_accounts "Income"
              [income_account "Rental 144 North";
               income_account "Rental 144 South"])
      /\ qualifies "144" (income_account "Rental 144 South") = true
      /\ exists r,
           find_best_account_match "rent"
             [income_account "Rental 144 North";
              income_account "Rental 144 South"]
             "Income" (Some "unit 144") = Value r
           /\ accountName r = Some "Rental 144 North"
           /\ accountId r <> Some (acc_id (income_account "Rental 144 South"))).
Proof.
  split.
  - split; [vm_compute; auto|]. split; [vm_compute; auto|].
    split; reflexivity.
  - split; [vm_compute; auto|]. split; [vm_compute; auto|].
    split; [reflexivity|]. eexists. split; [vm_compute; reflexivity|].
    split; [reflexivity | discriminate].
Qed.

(** Stage 0 decides at 0.98 where stage 1 alone would have returned the same
    account at 1.0. *)
Lemma C1_stage0_first_qualifying_witness :
  (exists r,
      stage1 "rental 144" "rental 144" [income_account "Rental 144"]
      = Value (Some r) /\ score r = 1.0%Q)
  /\ exists number account,
       find (fun n => existsb (qualifies n)
                        (filter_accounts "Income" [income_account "Rental 144"]))
         (extract_numbers number_patterns "rental 144" None) = Some number
       /\ find (qualifies number)
            (filter_accounts "Income" [income_account "Rental 144"])
          = Some account
       /\ find_best_account_match "rental 144" [income_account "Rental 144"]
            "Income" None
          = Value (found account 0.98%Q
                     ("Apartment-specific match: Found apartment " ++ number
                      ++ " in '" ++ acc_name account ++ "'")).
Proof.
  split.
  - eexists. split; vm_compute; reflexivity.
  - apply (C1_stage0_first_qualifying "rental 144"
             [income_account "Rental 144"] None).
    + discriminate.
    + exists "144", (income_account "Rental 144").
      split; [vm_compute; auto|]. split; [vm_compute; auto | reflexivity].
Defined.

(** C2 as stated fails on the empty category label: the filtered list holds
    an expense account that is not archived, and the engine returns no
    accountId. *)
Lemma C2_counterexample :
  filter_accounts "Expenses" [expense_account "Rent"] <> []
  /\ (exists acc, In acc [expense_account "Rent"]
                  /\ acc_type acc = "Expenses" /\ isArchived acc = false)
  /\ exists r,
       find_best_account_match "" [expense_account "Rent"] "Expenses" None
       = Value r
       /\ accountId r = None /\ score r = 0.0%Q.
Proof.
  split; [vm_compute; discriminate|]. split.
  - exists (expense_account "Rent"). split; [now left | now split].
  - eexists. split; [reflexivity|]. now split.
Qed.

Lemma C2_nonempty_label_names_account_witness :
  exists r id,
    find_best_account_match "xyz-unmatched"
      [income_account "Consulting Revenue"] "Income" None = Value r
    /\ accountId r = Some id
    /\ (0.1 <= score r)%Q.
Proof.
  apply (C2_nonempty_label_names_account "xyz-unmatched"
           [income_account "Consulting Revenue"] "Income" None).
  - discriminate.
  - left. vm_compute. discriminate.
Defined.

(** C3 as stated fails three times.  The label "office supplies" is the name
    of the second filtered account, but the first one, "Office", passes the
    third rule of stage 1 and is returned at 0.92.  For the class Income the
    label "Rental 144" is the name of the only account, which stage 0 returns
    at 0.98.  And the empty label, equal to an empty account name, is stopped
    by the guard of line 458. *)
Lemma C3_counterexample :
  (In (expense_account "Office Supplies")
      (filter_accounts "Expenses"
         [expense_account "Office"; expense_account "Office Supplies"])
   /\ Py.lower "office supplies"
      = Py.lower (acc_name (expense_account "Office Supplies"))
   /\ exists r,
        find_best_account_match "office supplies"
          [expense_account "Office"; expense_account "Office Supplies"]
          "Expenses" None = Value r
        /\ accountName r = Some "Office" /\ score r = 0.92%Q)
  /\ (In (income_account "Rental 144")
         (filter_accounts "Income" [income_account "Rental 144"])
      /\ Py.lower "Rental 144"
         = Py.lower (acc_name (income_account "Rental 144"))
      /\ exists r,
           find_best_account_match "Rental 144" [income_account "Rental 144"]
             "Income" None = Value r
           /\ score r = 0.98%Q /\ ~ (score r == 1.0)%Q)
  /\ (In (expense_account "")
         (filter_accounts "Expenses" [expense_account ""])
      /\ Py.lower "" = Py.lower (acc_name (expense_account ""))
      /\ find_best_account_match "" [expense_account ""] "Expenses" None
         = Value (not_found "No category provided")).
Proof.
  split; [|split].
  - split; [vm_compute; auto|]. split; [vm_compute; reflexivity|].
    eexists. split; [vm_compute; reflexivity|]. now split.
  - split; [vm_compute; auto|]. split; [vm_compute; reflexivity|].
    eexists. split; [vm_compute; reflexivity|]. split; [reflexivity|].
    discriminate.
  - split; [vm_compute; auto|]. now split.
Qed.

Lemma C3_exact_name_scores_one_witness :
  find_best_account_match "office SUPPLIES"
    [expense_account "Travel"; expense_account "Office Supplies"]
    "Expenses" None
  = Value (found (expense_account "Office Supplies") 1.0%Q
             ("Exact substring match: '" ++ "office SUPPLIES" ++ "' found in '"
              ++ acc_name (expense_account "Office Supplies") ++ "'"))
  /\ find_best_account_match "CAFÉ"
       [expense_account "Travel"; expense_account "café"] "Expenses" None
     = Value (found (expense_account "café") 1.0%Q
                ("Exact substring match: '" ++ "CAFÉ" ++ "' found in '"
                 ++ acc_name (expense_account "café") ++ "'")).
Proof.
  split.
  - apply (C3_exact_name_scores_one "office SUPPLIES"
             [expense_account "Travel"; expense_account "Office Supplies"]
             "Expenses" None [expense_account "Travel"]
             (expense_account "Office Supplies") []).
    + discriminate.
    + vm_compute. reflexivity.
    + vm_compute. reflexivity.
    + vm_compute. reflexivity.
    + intros a [<-|[]]. vm_compute. reflexivity.
  - apply (C3_exact_name_scores_one "CAFÉ"
             [expense_account "Travel"; expense_account "café"]
             "Expenses" None [expense_account "Travel"]
             (expense_account "café") []).
    + discriminate.
    + vm_compute. reflexivity.
    + vm_compute. reflexivity.
    + vm_compute. reflexivity.
    + intros a [<-|[]]. vm_compute. reflexivity.
Defined.

(** C5 as stated fails on the empty category label: no account is filtered,
    and the diagnostic is "No category provided", which does not name the
    account class. *)
Lemma C5_counterexample :
  filter_accounts "Income" [] = []
  /\ exists r,
       find_best_account_match "" [] "Income" None = Value r
       /\ explanation r = "No category provided"
       /\ Py.contains "Income" (explanation r) = false
       /\ Py.contains (Py.lower "Income") (Py.lower (explanation r)) = false.
Proof.
  split; [reflexivity|]. eexists. split; [reflexivity|].
  repeat split; reflexivity.
Qed.

(** The best score 6/11 of "rent" against "Foreign Exchange Gain" lies between
    0.3 and 0.6. *)
Lemma C6_accept_threshold_and_low_confidence_witness :
  exists r,
    find_best_account_match "rent"
      [income_account "Foreign Exchange Gain"; income_account "Consulting"]
      "Income" None = Value r
    /\ accountName r = Some "Foreign Exchange Gain"
    /\ (score r == 6 # 11)%Q
    /\ explanation r
       = "Best available match (low confidence): Word match: 'rent' ~ 'foreign' (score: 0.55). Available accounts: Foreign Exchange Gain, Consulting".
Proof.
  destruct (C6_accept_threshold_and_low_confidence "rent"
              [income_account "Foreign Exchange Gain";
               income_account "Consulting"] "Income" None)
    as (r & Hr & _ & Hlow).
  - discriminate.
  - vm_compute. discriminate.
  - vm_compute. reflexivity.
  - vm_compute. reflexivity.
  - destruct Hlow as (m & names & Hm & Hnames & _ & ->).
    + vm_compute. reflexivity.
    + vm_compute. reflexivity.
    + exists (found m
                (best_score
                   (stage2 INCOME_SYNONYMS "rent" "rent"
                      [income_account "Foreign Exchange Gain";
                       income_account "Consulting"]))
                ("Best available match (low confidence): "
                 ++ best_explanation
                      (stage2 INCOME_SYNONYMS "rent" "rent"
                         [income_account "Foreign Exchange Gain";
                          income_account "Consulting"])
                 ++ ". Available accounts: " ++ Py.join ", " names)).
      split; [exact Hr|]. subst names.
      vm_compute in Hm. injection Hm as <-.
      split; [reflexivity|]. split; vm_compute; reflexivity.
Defined.

(** The query of the specification: "food" belongs to the entry of the key
    "food", whose synonym "meals" occurs in "Meals & Entertainment". *)
Lemma C7_synonym_scores_witness :
  exists r,
    find_best_account_match "food" [expense_account "Meals & Entertainment"]
      "Expenses" None = Value r
    /\ (0.88 <= score r)%Q.
Proof.
  destruct (C7_synonym_scores "food" [expense_account "Meals & Entertainment"]
              "Expenses" None "food"
              ["meals"; "restaurant"; "dining"; "eating"; "lunch"; "dinner";
               "breakfast"]
              (expense_account "Meals & Entertainment") initial_best)
    as (_ & _ & _ & _ & r & Hr & _ & Hany & _).
  - discriminate.
  - vm_compute. auto.
  - left. reflexivity.
  - left. reflexivity.
  - reflexivity.
  - vm_compute. reflexivity.
  - exists r. split; [exact Hr|]. apply Hany.
    exists "meals". split; [right; left; reflexivity | reflexivity].
Defined.

(** ** The examples of the specification *)

Example spec_example_food :
  find_best_account_match "food" [expense_account "Meals & Entertainment"]
    "Expenses" None
  = Value (found (expense_account "Meals & Entertainment") 0.88%Q
             "Synonym match: 'food' relates to 'meals' in 'Meals & Entertainment'").
Proof. vm_compute. reflexivity. Qed.

Example spec_example_apartment :
  find_best_account_match "rent"
    [income_account "Rental Income - 142"; income_account "Rental Income - 144"]
    "Income" (Some "apartment 144 payment")
  = Value (found (income_account "Rental Income - 144") 0.98%Q
             "Apartment-specific match: Found apartment 144 in 'Rental Income - 144'").
Proof. vm_compute. reflexivity. Qed.

Example spec_example_default :
  exists r,
    find_best_account_match "xyz-unmatched"
      [income_account "Consulting Revenue"] "Income" None = Value r
    /\ accountName r = Some "Consulting Revenue"
    /\ score r = 0.1%Q
    /\ Py.contains "WARNING: Only one income account found" (explanation r)
       = true.
Proof. eexists. split; [vm_compute; reflexivity|]. repeat split. Qed.

Example python_library_examples :
  Difflib.ratio "tide" "diet" = (2 # 8)%Q
  /\ Difflib.ratio "diet" "tide" = (4 # 8)%Q
  /\ format_2f (1 # 40) = "0.03"
  /\ format_2f (1 # 8) = "0.12"
  /\ Re.findall (Re.pat_keyword_number "apartment")
       "apartment 12 apartment 13a unit 7_ unit 8" = ["12"]
  /\ Py.split " meals  &  entertainment " = ["meals"; "&"; "entertainment"]
  /\ Py.strip "  Office Supplies  " = "Office Supplies".
Proof. repeat split; vm_compute; reflexivity. Qed.

Example python_unicode_examples :
  Py.lower "CAFÉ" = "café"
  /\ Py.lower "ΟΔΟΣ ΟΔΟΣ" = "οδος οδος"
  /\ Py.lower "İSTANBUL" = "i̇stanbul"
  /\ Py.strip (Unicode.encode 0xA0 ++ "Loyer" ++ Unicode.encode 0x2003)
     = "Loyer"
  /\ Py.split ("frais" ++ Unicode.encode 0xA0 ++ "de déplacement")
     = ["frais"; "de"; "déplacement"]
  /\ Re.findall Re.pat_three_digits "café144 loyer 144 ١٤٤" = ["144"; "١٤٤"]
  /\ Difflib.ratio "éa" "éb" = (2 # 4)%Q.
Proof. repeat split; vm_compute; reflexivity. Qed.

Example synonym_key_example :
  find_best_account_match "meals" [expense_account "Food & Drinks"]
    "Expenses" None
  = Value (found (expense_account "Food & Drinks") 0.9%Q
             "Synonym match: 'meals' relates to 'food' found in 'Food & Drinks'").
Proof. vm_compute. reflexivity. Qed.

(** * Properties of the tool layer *)

(** ** Pagination of the chart of accounts *)

Lemma get_accounts_loop_fuel (request : Z -> res AccountsResponse)
  (fuel : nat) (page : Z) (all_accounts : list Account) :
  1 <= fuel -> (21 - page <= Z.of_nat fuel)%Z ->
  get_accounts_loop request (S fuel) page all_accounts
  = get_accounts_loop request fuel page all_accounts.
Proof.
  revert page all_accounts.
  induction fuel as [|fuel IH]; intros page all_accounts Hf Hp; [lia|].
  cbn [get_accounts_loop]. destruct (request page) as [r|e]; [|reflexivity].
  cbn [res_bind].
  destruct (page_info_get currentPage r page >=? page_info_get totalPages r 1)%Z;
    [reflexivity|].
  destruct (Z.gtb_spec (page + 1) 20) as [E|E]; [reflexivity|].
  change (get_accounts_loop request (S fuel) (page + 1)
            (all_accounts ++ edges r)
          = get_accounts_loop request fuel (page + 1)
              (all_accounts ++ edges r)).
  apply IH; lia.
Qed.

Lemma get_accounts_loop_more_fuel (request : Z -> res AccountsResponse)
  (extra : nat) (all_accounts : list Account) :
  get_accounts_loop request (20 + extra) 1%Z all_accounts
  = get_accounts_loop request 20 1%Z all_accounts.
Proof.
  induction extra as [|extra IH]; [now rewrite Nat.add_0_r|].
  rewrite Nat.add_succ_r, get_accounts_loop_fuel by lia. exact IH.
Qed.

Lemma get_accounts_loop_local (request request' : Z -> res AccountsResponse)
  (fuel : nat) (page : Z) (all_accounts : list Account) :
  (page <= 20)%Z ->
  (forall p, (page <= p <= 20)%Z -> request p = request' p) ->
  get_accounts_loop request fuel page all_accounts
  = get_accounts_loop request' fuel page all_accounts.
Proof.
  revert page all_accounts.
  induction fuel as [|fuel IH]; intros page all_accounts Hp Hr; [reflexivity|].
  cbn [get_accounts_loop]. rewrite <- (Hr page) by lia.
  destruct (request page) as [r|e]; [|reflexivity]. cbn [res_bind].
  destruct (page_info_get currentPage r page >=? page_info_get totalPages r 1)%Z;
    [reflexivity|].
  destruct (Z.gtb_spec (page + 1) 20) as [E|E]; [reflexivity|].
  apply IH; [lia|]. intros p Hpp. apply Hr. lia.
Qed.

(** X1: [get_accounts] stops within 20 requests.  Its 20 rounds are never
    used up before the loop leaves (any larger number of rounds gives the
    same outcome), and the outcome depends on the requests for the pages 1 to
    20 only. *)
Theorem X1_get_accounts_at_most_20_pages
  (request request' : Z -> res AccountsResponse) (extra : nat) :
  (forall p, (1 <= p <= 20)%Z -> request p = request' p) ->
  get_accounts_loop request (20 + extra) 1%Z [] = get_accounts request
  /\ get_accounts request = get_accounts request'.
Proof.
  intros Hr. split.
  - apply get_accounts_loop_more_fuel.
  - unfold get_accounts. apply get_accounts_loop_local; [lia | exact Hr].
Qed.

Lemma pages_from_succ (page_edges : Z -> list Account) (first : Z) (count : nat) :
  pages_from page_edges first (S count)
  = (page_edges first ++ pages_from page_edges (first + 1) count)%list.
Proof. reflexivity. Qed.

Lemma get_accounts_loop_pages (request : Z -> res AccountsResponse)
  (page_edges : Z -> list Account) (total : Z) (fuel : nat) (page : Z)
  (all_accounts : list Account) :
  (1 <= page <= 20)%Z -> (21 - page <= Z.of_nat fuel)%Z ->
  (forall p, (page <= p <= 20)%Z ->
             request p = Ok (page_response page_edges total p)) ->
  get_accounts_loop request fuel page all_accounts
  = Ok (all_accounts
        ++ pages_from page_edges page
             (Z.to_nat (Z.min (Z.max total page) 20 - page + 1)))%list.
Proof.
  revert page all_accounts.
  induction fuel as [|fuel IH]; intros page all_accounts Hp Hf Hr; [lia|].
  cbn [get_accounts_loop]. rewrite (Hr page) by lia. cbn [res_bind].
  unfold page_info_get. cbn [pageInfo page_response currentPage totalPages edges].
  destruct (Z.geb_spec page total) as [E1|E1].
  - replace (Z.min (Z.max total page) 20 - page + 1)%Z with 1%Z by lia.
    change (Z.to_nat 1) with 1. cbn [pages_from].
    now rewrite app_nil_r.
  - destruct (Z.gtb_spec (page + 1) 20) as [E2|E2].
    + replace (Z.min (Z.max total page) 20 - page + 1)%Z with 1%Z by lia.
      change (Z.to_nat 1) with 1. cbn [pages_from].
      now rewrite app_nil_r.
    + rewrite IH; [|lia|lia|intros p Hpp; apply Hr; lia].
      rewrite <- app_assoc. do 2 f_equal.
      replace (Z.min (Z.max total page) 20 - page + 1)%Z
        with (Z.succ (Z.min (Z.max total (page + 1)) 20 - (page + 1) + 1))%Z
        by lia.
      rewrite Z2Nat.inj_succ by lia. reflexivity.
Qed.

(** X2: against a server whose requests succeed and report the page asked
    for and [total] pages, [get_accounts] returns the accounts of the pages 1
    to [total] in order when [total] is at most 20 (one page when [total] is
    below 1), and the accounts of the first 20 pages only when [total] is
    larger: what lies behind page 20 is left out without an error. *)
Theorem X2_get_accounts_pages (request : Z -> res AccountsResponse)
  (page_edges : Z -> list Account) (total : Z) :
  (forall p, (1 <= p <= 20)%Z ->
             request p = Ok (page_response page_edges total p)) ->
  get_accounts request
  = Ok (pages_from page_edges 1
          (Z.to_nat (Z.min (Z.max total 1) 20))).
Proof.
  intros Hr. unfold get_accounts.
  rewrite (get_accounts_loop_pages request page_edges total 20 1 []);
    [|lia|simpl; lia|exact Hr].
  cbn [app]. do 3 f_equal. lia.
Qed.

Lemma get_accounts_loop_error (request : Z -> res AccountsResponse)
  (page_edges : Z -> list Account) (total failing : Z) (e : failure)
  (fuel : nat) (page : Z) (all_accounts : list Account) :
  (1 <= page <= failing)%Z -> (failing <= 20)%Z -> (failing <= total)%Z ->
  (failing - page < Z.of_nat fuel)%Z ->
  (forall p, (page <= p < failing)%Z ->
             request p = Ok (page_response page_edges total p)) ->
  request failing = Err e ->
  get_accounts_loop request fuel page all_accounts = Err e.
Proof.
  revert page all_accounts.
  induction fuel as [|fuel IH]; intros page all_accounts Hp H20 Ht Hf Hr He;
    [lia|].
  cbn [get_accounts_loop].
  destruct (Z.eq_dec page failing) as [->|Hne].
  - rewrite He. reflexivity.
  - rewrite (Hr page) by lia. cbn [res_bind].
    unfold page_info_get.
    cbn [pageInfo page_response currentPage totalPages edges].
    destruct (Z.geb_spec page total) as [E1|E1]; [lia|].
    destruct (Z.gtb_spec (page + 1) 20) as [E2|E2]; [lia|].
    apply IH; try lia; [|exact He]. intros p Hpp. apply Hr. lia.
Qed.

(** X3: when the requests for the pages in front of page [failing] succeed
    (the server reporting the page asked for and [total] pages, with
    [failing] among them and at most 20) and the request for page [failing]
    raises, [get_accounts] raises the same exception: the accounts of the
    pages already received are not returned. *)
Theorem X3_get_accounts_request_error (request : Z -> res AccountsResponse)
  (page_edges : Z -> list Account) (total failing : Z) (e : failure) :
  (1 <= failing <= 20)%Z -> (failing <= total)%Z ->
  (forall p, (1 <= p < failing)%Z ->
             request p = Ok (page_response page_edges total p)) ->
  request failing = Err e ->
  get_accounts request = Err e.
Proof.
  intros Hf Ht Hr He. unfold get_accounts.
  apply (get_accounts_loop_error request page_edges total failing e);
    try assumption; simpl; lia.
Qed.

(** ** Business identifiers *)

Lemma base64_char_value (v : nat) :
  v < 64 ->
  Base64.value (Base64.char v) = Some v
  /\ Ascii.eqb (Base64.char v) Base64.pad = false
  /\ Nat.ltb (nat_of_ascii (Base64.char v)) 128 = true.
Proof.
  intros Hv.
  assert (H : forallb
                (fun v =>
                   match Base64.value (Base64.char v) with
                   | Some w => Nat.eqb w v
                   | None => false
                   end
                   && negb (Ascii.eqb (Base64.char v) Base64.pad)
                   && Nat.ltb (nat_of_ascii (Base64.char v)) 128)
                (seq 0 64) = true) by (vm_compute; reflexivity).
  rewrite forallb_forall in H. specialize (H v).
  rewrite in_seq in H. specialize (H ltac:(lia)).
  apply andb_true_iff in H. destruct H as [H H3].
  apply andb_true_iff in H. destruct H as [H1 H2].
  destruct (Base64.value (Base64.char v)) as [w|]; [|discriminate].
  apply Nat.eqb_eq in H1. subst w. apply negb_true_iff in H2. auto.
Qed.

(** One character of the alphabet moves the decoder one step. *)
Lemma a2b_loop_char (v : nat) (rest : string) (quad_pos leftchar pads : nat)
  (out : list ascii) :
  v < 64 ->
  Base64.a2b_loop (String (Base64.char v) rest) quad_pos leftchar pads out
  = match quad_pos with
    | 0 => Base64.a2b_loop rest 1 v 0 out
    | 1 => Base64.a2b_loop rest 2 (v mod 16) 0
             (ascii_of_nat ((leftchar * 4 + v / 16) mod 256) :: out)
    | 2 => Base64.a2b_loop rest 3 (v mod 4) 0
             (ascii_of_nat ((leftchar * 16 + v / 4) mod 256) :: out)
    | _ => Base64.a2b_loop rest 0 0 0
             (ascii_of_nat ((leftchar * 64 + v) mod 256) :: out)
    end.
Proof.
  intros Hv. destruct (base64_char_value v Hv) as (H1 & H2 & _).
  cbn [Base64.a2b_loop]. rewrite H2, H1. reflexivity.
Qed.

Lemma nat_of_ascii_lt (c : ascii) : nat_of_ascii c < 256.
Proof. apply nat_ascii_bounded. Qed.

Lemma divmod_pack (base a b : nat) :
  b < base -> (a * base + b) / base = a /\ (a * base + b) mod base = b.
Proof.
  intros Hb. split.
  - symmetry. apply (Nat.div_unique _ base a b); lia.
  - symmetry. apply (Nat.mod_unique _ base a b); lia.
Qed.

(** The three bytes that the decoder writes for a group of four characters
    are the three bytes that the encoder read. *)
Lemma base64_group (x y z : nat) :
  x < 256 -> y < 256 -> z < 256 ->
  x / 4 < 64 /\ x mod 4 * 16 + y / 16 < 64
  /\ y mod 16 * 4 + z / 64 < 64 /\ z mod 64 < 64
  /\ x mod 4 * 16 < 64 /\ y mod 16 * 4 < 64
  /\ (x / 4 * 4 + (x mod 4 * 16 + y / 16) / 16) mod 256 = x
  /\ ((x mod 4 * 16 + y / 16) mod 16 * 16 + (y mod 16 * 4 + z / 64) / 4)
       mod 256 = y
  /\ ((y mod 16 * 4 + z / 64) mod 4 * 64 + z mod 64) mod 256 = z
  /\ (x / 4 * 4 + (x mod 4 * 16) / 16) mod 256 = x
  /\ ((x mod 4 * 16 + y / 16) mod 16 * 16 + (y mod 16 * 4) / 4) mod 256 = y.
Proof.
  intros Hx Hy Hz.
  pose proof (Nat.div_mod_eq x 4). pose proof (Nat.div_mod_eq y 16).
  pose proof (Nat.div_mod_eq z 64).
  pose proof (Nat.mod_upper_bound x 4 ltac:(lia)).
  pose proof (Nat.mod_upper_bound y 16 ltac:(lia)).
  pose proof (Nat.mod_upper_bound z 64 ltac:(lia)).
  assert (x / 4 < 64) by (apply Nat.Div0.div_lt_upper_bound; lia).
  assert (y / 16 < 16) by (apply Nat.Div0.div_lt_upper_bound; lia).
  assert (z / 64 < 4) by (apply Nat.Div0.div_lt_upper_bound; lia).
  destruct (divmod_pack 16 (x mod 4) (y / 16)) as [E1 E2]; [lia|].
  destruct (divmod_pack 4 (y mod 16) (z / 64)) as [E3 E4]; [lia|].
  destruct (divmod_pack 16 (x mod 4) 0) as [E5 _]; [lia|].
  destruct (divmod_pack 4 (y mod 16) 0) as [E6 _]; [lia|].
  rewrite Nat.add_0_r in E5, E6.
  rewrite E1, E2, E3, E4, E5, E6.
  repeat split; try lia; rewrite Nat.mod_small; lia.
Qed.

Lemma string_of_rev_snoc (out : list ascii) (a : ascii) (l : list ascii) :
  (rev (a :: out) ++ l)%list = (rev out ++ a :: l)%list.
Proof. cbn [rev]. now rewrite <- app_assoc. Qed.

Lemma b64_roundtrip_loop (n : nat) :
  forall (s : string) (out : list ascii),
    String.length s <= n ->
    Base64.a2b_loop (Base64.b64encode s) 0 0 0 out
    = Some (string_of_list_ascii (rev out ++ list_ascii_of_string s)).
Proof.
  induction n as [n IH] using lt_wf_ind. intros s out Hn.
  destruct s as [|a [|b [|c r]]].
  - cbn. now rewrite app_nil_r.
  - pose proof (nat_of_ascii_lt a) as Ha.
    destruct (base64_group (nat_of_ascii a) 0 0 Ha ltac:(lia) ltac:(lia))
      as (H1 & _ & _ & _ & H5 & _ & _ & _ & _ & H10 & _).
    cbn [Base64.b64encode].
    rewrite a2b_loop_char by exact H1.
    rewrite a2b_loop_char by exact H5.
    cbn [Base64.a2b_loop]. cbn [Ascii.eqb Base64.pad Bool.eqb Nat.leb Nat.add].
    rewrite H10, ascii_nat_embedding. reflexivity.
  - pose proof (nat_of_ascii_lt a) as Ha. pose proof (nat_of_ascii_lt b) as Hb.
    destruct (base64_group (nat_of_ascii a) (nat_of_ascii b) 0 Ha Hb
                ltac:(lia))
      as (H1 & H2 & _ & _ & _ & H6 & H7 & _ & _ & _ & H11).
    cbn [Base64.b64encode].
    rewrite a2b_loop_char by exact H1.
    rewrite a2b_loop_char by exact H2.
    rewrite a2b_loop_char by exact H6.
    cbn [Base64.a2b_loop]. cbn [Ascii.eqb Base64.pad Bool.eqb Nat.leb Nat.add].
    rewrite H7, H11, !ascii_nat_embedding. cbn [list_ascii_of_string rev].
    now rewrite <- app_assoc.
  - pose proof (nat_of_ascii_lt a) as Ha. pose proof (nat_of_ascii_lt b) as Hb.
    pose proof (nat_of_ascii_lt c) as Hc.
    destruct (base64_group (nat_of_ascii a) (nat_of_ascii b) (nat_of_ascii c)
                Ha Hb Hc)
      as (H1 & H2 & H3 & H4 & _ & _ & H7 & H8 & H9 & _).
    cbn [Base64.b64encode].
    rewrite a2b_loop_char by exact H1.
    rewrite a2b_loop_char by exact H2.
    rewrite a2b_loop_char by exact H3.
    rewrite a2b_loop_char by exact H4.
    rewrite H7, H8, H9, !ascii_nat_embedding.
    cbn [String.length] in Hn.
    rewrite (IH (String.length r)) by lia.
    cbn [list_ascii_of_string]. now rewrite !string_of_rev_snoc.
Qed.

Lemma b64encode_is_ascii (n : nat) :
  forall s, String.length s <= n ->
            Base64.is_ascii (Base64.b64encode s) = true.
Proof.
  induction n as [n IH] using lt_wf_ind. intros s Hn.
  destruct s as [|a [|b [|c r]]].
  - reflexivity.
  - pose proof (nat_of_ascii_lt a) as Ha.
    destruct (base64_group (nat_of_ascii a) 0 0 Ha ltac:(lia) ltac:(lia))
      as (H1 & _ & _ & _ & H5 & _).
    cbn [Base64.b64encode Base64.is_ascii].
    rewrite (proj2 (proj2 (base64_char_value _ H1))).
    rewrite (proj2 (proj2 (base64_char_value _ H5))). reflexivity.
  - pose proof (nat_of_ascii_lt a) as Ha. pose proof (nat_of_ascii_lt b) as Hb.
    destruct (base64_group (nat_of_ascii a) (nat_of_ascii b) 0 Ha Hb
                ltac:(lia))
      as (H1 & H2 & _ & _ & _ & H6 & _).
    cbn [Base64.b64encode Base64.is_ascii].
    rewrite (proj2 (proj2 (base64_char_value _ H1))).
    rewrite (proj2 (proj2 (base64_char_value _ H2))).
    rewrite (proj2 (proj2 (base64_char_value _ H6))). reflexivity.
  - pose proof (nat_of_ascii_lt a) as Ha. pose proof (nat_of_ascii_lt b) as Hb.
    pose proof (nat_of_ascii_lt c) as Hc.
    destruct (base64_group (nat_of_ascii a) (nat_of_ascii b) (nat_of_ascii c)
                Ha Hb Hc)
      as (H1 & H2 & H3 & H4 & _).
    cbn [Base64.b64encode Base64.is_ascii].
    rewrite (proj2 (proj2 (base64_char_value _ H1))).
    rewrite (proj2 (proj2 (base64_char_value _ H2))).
    rewrite (proj2 (proj2 (base64_char_value _ H3))).
    rewrite (proj2 (proj2 (base64_char_value _ H4))).
    cbn [String.length] in Hn. rewrite (IH (String.length r)) by lia.
    reflexivity.
Qed.

(** [b64decode] undoes [b64encode]. *)
Lemma b64decode_b64encode (s : string) :
  Base64.b64decode (Base64.b64encode s) = Some s.
Proof.
  unfold Base64.b64decode.
  rewrite (b64encode_is_ascii (String.length s)) by lia.
  rewrite (b64_roundtrip_loop (String.length s)) by lia.
  cbn [rev app]. now rewrite string_of_list_ascii_of_string.
Qed.

Lemma utf8_valid_fuel (n : nat) :
  forall (m : nat) (s : string),
    String.length s <= n -> String.length s <= m ->
    Utf8.valid_fuel n s = Utf8.valid_fuel m s.
Proof.
  induction n as [|n IH]; intros [|m] s Hn Hm; destruct s as [|a r];
    cbn [String.length] in *; try lia; try reflexivity.
  cbn [Utf8.valid_fuel].
  destruct (Utf8.between 0 127 a); [apply IH; lia|].
  destruct r as [|b r1]; [reflexivity|]. cbn [String.length] in *.
  destruct (Utf8.between 194 223 a);
    [rewrite (IH m r1) by lia; reflexivity|].
  destruct r1 as [|c r2]; [reflexivity|]. cbn [String.length] in *.
  destruct (Utf8.between 224 239 a);
    [rewrite (IH m r2) by lia; reflexivity|].
  destruct r2 as [|d r3]; [reflexivity|]. cbn [String.length] in *.
  rewrite (IH m r3) by lia. reflexivity.
Qed.

(** An ASCII character in front does not change the validity. *)
Lemma utf8_valid_ascii_cons (a : ascii) (r : string) :
  Utf8.between 0 127 a = true ->
  Utf8.valid (String a r) = Utf8.valid r.
Proof.
  intros Ha. unfold Utf8.valid. cbn [String.length Utf8.valid_fuel].
  rewrite Ha. reflexivity.
Qed.

Lemma utf8_valid_business (business_id : string) :
  Utf8.valid ("Business:" ++ business_id) = Utf8.valid business_id.
Proof.
  cbn [append]. now rewrite !utf8_valid_ascii_cons by reflexivity.
Qed.

(** ASCII text is valid UTF-8. *)
Lemma is_ascii_utf8_valid (s : string) :
  Base64.is_ascii s = true -> Utf8.valid s = true.
Proof.
  induction s as [|a r IH]; [reflexivity|].
  cbn [Base64.is_ascii]. intros H. apply andb_true_iff in H.
  destruct H as [Ha Hr]. rewrite utf8_valid_ascii_cons; [now apply IH|].
  unfold Utf8.between. apply andb_true_iff.
  split; [reflexivity|]. apply Nat.ltb_lt in Ha. apply Nat.leb_le. lia.
Qed.

Lemma substring_all (s : string) :
  String.substring 0 (String.length s) s = s.
Proof. induction s as [|c s IH]; simpl; congruence. Qed.

Lemma strip_business_prefix_business (business_id : string) :
  strip_business_prefix ("Business:" ++ business_id) = business_id.
Proof.
  unfold strip_business_prefix, Py.startswith.
  rewrite prefix_append. cbn [append String.length Nat.sub String.substring].
  rewrite Nat.sub_0_r. apply substring_all.
Qed.

(** What [decode_business_id] makes of a base64 encoding. *)
Lemma decode_business_id_b64encode (x : string) :
  decode_business_id (Base64.b64encode x)
  = if Utf8.valid x then strip_business_prefix x else Base64.b64encode x.
Proof.
  unfold decode_business_id. now rewrite b64decode_b64encode.
Qed.

(** X4: [decode_business_id] undoes the encoding that [main] applies to the
    environment variable WAVE_BUSINESS_ID: for every identifier that is
    valid UTF-8 (all ASCII identifiers are), decoding the base64 form of
    "Business:" followed by the identifier gives the identifier back. *)
Theorem X4_decode_business_id_roundtrip (business_id : string) :
  Utf8.valid business_id = true ->
  decode_business_id (encode_business_id business_id) = business_id.
Proof.
  intros Hv. unfold encode_business_id.
  rewrite decode_business_id_b64encode, utf8_valid_business, Hv.
  apply strip_business_prefix_business.
Qed.

(** ** Anchor accounts *)

Lemma anchor_test_value (acc : Account) :
  anchor_test acc
  = if Py.mem (acc_type acc) anchor_types then
      match acc_subtype acc with
      | Some subtype =>
          Ok (Py.mem subtype anchor_subtypes && negb (isArchived acc))
      | None => Err (KeyError "subtype")
      end
    else Ok false.
Proof.
  unfold anchor_test, subtype_required.
  destruct (Py.mem (acc_type acc) anchor_types); [|reflexivity].
  destruct (acc_subtype acc); reflexivity.
Qed.

Lemma anchor_accounts_of_cases (accounts : list Account) :
  anchor_accounts_of accounts
  = if existsb (fun acc => Py.mem (acc_type acc) anchor_types
                           && match acc_subtype acc with
                              | Some _ => false
                              | None => true
                              end) accounts
    then Err (KeyError "subtype")
    else Ok (filter (fun acc => Py.mem (acc_type acc) anchor_types
                                && Py.mem (subtype_name acc) anchor_subtypes
                                && negb (isArchived acc)) accounts).
Proof.
  unfold anchor_accounts_of.
  induction accounts as [|acc accounts IH]; [reflexivity|].
  cbn [filter_res existsb filter]. rewrite anchor_test_value, IH.
  unfold subtype_name.
  destruct (Py.mem (acc_type acc) anchor_types); cbn [andb orb res_bind].
  - destruct (acc_subtype acc) as [subtype|]; cbn [orb res_bind];
      [|reflexivity].
    destruct (existsb _ accounts); cbn [res_bind]; [reflexivity|].
    destruct (Py.mem subtype anchor_subtypes && negb (isArchived acc));
      reflexivity.
  - destruct (existsb _ accounts); reflexivity.
Qed.

(** X5: [get_anchor_accounts] keeps, in the order received, the accounts
    that are not archived and have an anchor type and an anchor subtype; and
    it raises [KeyError] as soon as one account of an anchor type has no
    subtype, also when that account is archived. *)
Theorem X5_anchor_accounts_of (accounts : list Account) :
  anchor_accounts_of accounts
  = if existsb (fun acc => Py.mem (acc_type acc) anchor_types
                           && match acc_subtype acc with
                              | Some _ => false
                              | None => true
                              end) accounts
    then Err (KeyError "subtype")
    else Ok (filter (fun acc => Py.mem (acc_type acc) anchor_types
                                && Py.mem (subtype_name acc) anchor_subtypes
                                && negb (isArchived acc)) accounts).
Proof. apply anchor_accounts_of_cases. Qed.

Lemma anchor_accounts_of_In (accounts anchor_accounts : list Account)
  (account : Account) :
  anchor_accounts_of accounts = Ok anchor_accounts ->
  In account anchor_accounts ->
  In account accounts
  /\ isArchived account = false
  /\ Py.mem (acc_type account) anchor_types = true
  /\ Py.mem (subtype_name account) anchor_subtypes = true.
Proof.
  rewrite anchor_accounts_of_cases. intros H Hin. revert H.
  destruct (existsb _ accounts); [discriminate|]. intros [= <-].
  apply filter_In in Hin. destruct Hin as [Hin Hb].
  apply andb_true_iff in Hb. destruct Hb as [Hb Ha].
  apply andb_true_iff in Hb. destruct Hb as [Ht Hs].
  apply negb_true_iff in Ha. auto.
Qed.

Lemma find_anchor_Some (name : string) (anchor_accounts : list Account)
  (account : Account) :
  find_anchor name anchor_accounts = Some account ->
  In account anchor_accounts
  /\ Py.lower (acc_name account) = Py.lower name.
Proof.
  intros H. apply find_some in H. destruct H as [Hin He].
  apply String.eqb_eq in He. now split.
Qed.

Lemma truthy_opt_Some (x : option string) :
  truthy_opt x = true -> exists s, x = Some s /\ s <> "".
Proof.
  destruct x as [s|]; [|discriminate]. intros H. exists s.
  split; [reflexivity|]. now apply truthy_nonempty.
Qed.

(** The three ways in which the selection of the anchor account ends. *)
Lemma select_anchor_cases (requested : option string) (not_found : string)
  (anchor_accounts : list Account) :
  anchor_accounts <> [] ->
  (exists account,
      select_anchor requested not_found anchor_accounts
      = Ok (Proceed (acc_id account, acc_name account))
      /\ truthy_opt requested = true
      /\ find_anchor (str_of_option requested) anchor_accounts = Some account
      /\ acc_id account <> "")
  \/ (exists account,
        select_anchor requested not_found anchor_accounts
        = Ok (Proceed (acc_id account, acc_name account))
        /\ truthy_opt requested = false
        /\ nth_error anchor_accounts 0 = Some account)
  \/ (select_anchor requested not_found anchor_accounts = Ok (Reply not_found)
      /\ truthy_opt requested = true
      /\ match find_anchor (str_of_option requested) anchor_accounts with
         | Some account => acc_id account = ""
         | None => True
         end).
Proof.
  intros Hne. destruct anchor_accounts as [|first rest]; [congruence|].
  unfold select_anchor.
  destruct requested as [name|]; cbn [truthy_opt str_of_option].
  - destruct (Py.truthy name) eqn:Et.
    + destruct (find_anchor name (first :: rest)) as [account|] eqn:Ef;
        cbn [option_map truthy_opt str_of_option].
      * destruct (Py.truthy (acc_id account)) eqn:Ei; cbn [andb negb].
        -- left. exists account. repeat split; try reflexivity.
           now apply truthy_nonempty.
        -- right. right. repeat split.
           destruct (acc_id account); [reflexivity | discriminate].
      * right. right. now repeat split.
    + right. left. exists first. now repeat split.
  - right. left. exists first. now repeat split.
Qed.

(** X6: the anchor account of a transaction, for a chart that has anchor
    accounts.  The selection does not raise.  With a requested name it goes
    on with the first anchor account of that name, up to case, provided its
    identifier is not empty, and otherwise returns the text that lists the
    accounts; without a requested name it goes on with the first anchor
    account.  The account it goes on with is always one of the anchor
    accounts. *)
Theorem X6_select_anchor (requested : option string) (not_found : string)
  (anchor_accounts : list Account) :
  anchor_accounts <> [] ->
  match select_anchor requested not_found anchor_accounts with
  | Ok (Proceed (anchor_account_id, anchor_account_name)) =>
      exists account,
        In account anchor_accounts
        /\ anchor_account_id = acc_id account
        /\ anchor_account_name = acc_name account
        /\ (if truthy_opt requested then
              find_anchor (str_of_option requested) anchor_accounts
              = Some account
              /\ Py.lower (acc_name account)
                 = Py.lower (str_of_option requested)
              /\ acc_id account <> ""
            else nth_error anchor_accounts 0 = Some account)
  | Ok (Reply text) =>
      text = not_found
      /\ truthy_opt requested = true
      /\ forall account,
           find_anchor (str_of_option requested) anchor_accounts
           = Some account -> acc_id account = ""
  | Err _ => False
  end.
Proof.
  intros Hne.
  destruct (select_anchor_cases requested not_found anchor_accounts Hne)
    as [(account & -> & Ht & Hf & Hi)|[(account & -> & Ht & Hn)|(-> & Ht & Hf)]].
  - exists account. destruct (find_anchor_Some _ _ _ Hf) as [Hin Hl].
    rewrite Ht. auto 6.
  - exists account. rewrite Ht. split; [|auto].
    now apply nth_error_In with 0.
  - split; [reflexivity|]. split; [exact Ht|]. intros account Ha.
    now rewrite Ha in Hf.
Qed.

(** ** The engine as the handlers use it *)

Section HandlerFacts.

Context {set_order : SetOrder}.

(** The engine does not raise, and a result with an account names a filtered
    account. *)
Lemma engine_result (user_category : string) (accounts : list Account)
  (account_type : string) (user_context : option string) :
  exists r,
    find_best_account_match user_category accounts account_type user_context
    = Value r
    /\ (accountId r = None
        \/ names_account (filter_accounts account_type accounts) r).
Proof.
  destruct (string_dec user_category "") as [->|Hc].
  { rewrite engine_empty_label. eexists. split; [reflexivity|]. now left. }
  destruct (nonempty (filter_accounts account_type accounts)) eqn:Hf;
    [apply nonempty_true in Hf | apply nonempty_false in Hf].
  - rewrite engine_pipeline by assumption.
    destruct (match_pipeline_names user_category account_type user_context
                _ Hf) as (r & Hr & Hn).
    exists r. split; [exact Hr | now right].
  - rewrite engine_no_accounts by assumption. eexists.
    split; [reflexivity|]. now left.
Qed.

Lemma get_anchor_accounts_Ok (request : Z -> res AccountsResponse)
  (anchor_accounts : list Account) :
  get_anchor_accounts request = Ok anchor_accounts ->
  exists accounts,
    get_accounts request = Ok accounts
    /\ anchor_accounts_of accounts = Ok anchor_accounts.
Proof.
  unfold get_anchor_accounts.
  destruct (get_accounts request) as [accounts|e]; [|discriminate].
  cbn [res_bind]. intros H. now exists accounts.
Qed.

End HandlerFacts.

(** ** The creating handlers *)

Section PlanFacts.

Context {set_order : SetOrder}.

Variable api : Api.

(** The part of a plan that the engine and the anchor selection decide. *)
Lemma plan_sound_intro (account_type : string) (accounts : list Account)
  (anchor_accounts : list Account) (matched : MatchResult)
  (requested : option string) (not_found : string)
  (anchor_account_id anchor_account_name : string) (plan : Plan) :
  get_accounts (api_accounts api) = Ok accounts ->
  accountId matched = None
  \/ names_account (filter_accounts account_type accounts) matched ->
  truthy_opt (accountId matched) = true ->
  get_anchor_accounts (api_anchor_accounts api) = Ok anchor_accounts ->
  nonempty anchor_accounts = true ->
  select_anchor requested not_found anchor_accounts
  = Ok (Proceed (anchor_account_id, anchor_account_name)) ->
  plan_account_id plan = accountId matched ->
  plan_account_name plan = accountName matched ->
  plan_anchor_id plan = anchor_account_id ->
  plan_anchor_name plan = anchor_account_name ->
  requested_account plan = requested ->
  plan_sound account_type api plan.
Proof.
  intros Hacc Hm Hid Han Hne Hsel P1 P2 P3 P4 P5.
  destruct Hm as [Hm|(category_account & Hin & Hi & Hname & _)];
    [rewrite Hm in Hid; discriminate|].
  destruct (get_anchor_accounts_Ok _ _ Han) as (anchor_source & Hsrc & Hof).
  apply nonempty_true in Hne.
  assert (Hanchor : exists account,
             In account anchor_accounts
             /\ anchor_account_id = acc_id account
             /\ anchor_account_name = acc_name account
             /\ (truthy_opt requested = true ->
                 Py.lower (str_of_option requested)
                 = Py.lower (acc_name account))).
  { destruct (select_anchor_cases requested not_found anchor_accounts Hne)
      as [(account & E & Ht & Hf & _)|[(account & E & Ht & Hn)|(E & _)]];
      rewrite E in Hsel; [| |discriminate].
    - injection Hsel as <- <-. exists account.
      destruct (find_anchor_Some _ _ _ Hf) as [Ha Hl]. auto.
    - injection Hsel as <- <-. exists account.
      split; [now apply nth_error_In with 0|]. split; [reflexivity|].
      split; [reflexivity|]. congruence. }
  destruct Hanchor as (anchor_account & Ha & -> & -> & Hreq).
  destruct (anchor_accounts_of_In _ _ _ Hof Ha) as (Hs & Harch & Hty & Hsub).
  pose proof (filter_accounts_kept account_type accounts) as Hk.
  rewrite Forall_forall in Hk. destruct (Hk _ Hin) as [Hna Hia].
  exists accounts, anchor_source, category_account, anchor_account.
  rewrite P1, P2, P3, P4, P5, Hi, Hname.
  repeat split; try assumption; try reflexivity.
  rewrite Hi in Hid. cbn [truthy_opt] in Hid. now apply truthy_nonempty.
Qed.

Lemma expense_plan_sound (business_id : option string)
  (arguments : Arguments) (plan : Plan) :
  expense_plan api business_id arguments = Ok (Proceed plan) ->
  truthy_opt business_id = true /\ plan_sound "Expenses" api plan.
Proof.
  unfold expense_plan.
  destruct (truthy_opt business_id); cbn [negb]; [|discriminate].
  destruct (required arguments "amount") as [amount|]; [|discriminate].
  destruct (required arguments "date") as [date|]; [|discriminate].
  destruct (required arguments "receipt_text") as [receipt_text|];
    [|discriminate].
  cbn [res_bind].
  destruct (lookup_party _ _) as [vendor_id|]; [|discriminate].
  cbn [res_bind].
  destruct (get_accounts (api_accounts api)) as [accounts|] eqn:Eacc;
    [|discriminate].
  cbn [res_bind].
  destruct (engine_result (get_default arguments "category" "General Expenses")
              accounts "Expenses"
              (Some (get_default arguments "description" "")))
    as (matched & Hr & Hm).
  rewrite Hr. cbn [res_of_exc res_bind].
  destruct (truthy_opt (accountId matched)) eqn:Eid; cbn [negb];
    [|discriminate].
  destruct (get_anchor_accounts (api_anchor_accounts api))
    as [anchor_accounts|] eqn:Ean; [|discriminate].
  cbn [res_bind].
  destruct (nonempty anchor_accounts) eqn:Ene; cbn [negb]; [|discriminate].
  destruct (select_anchor _ _ anchor_accounts) as [[text|[id name]]|] eqn:Es;
    cbn [res_bind]; try discriminate.
  intros [= <-]. split; [reflexivity|].
  eapply plan_sound_intro; try eassumption; reflexivity.
Qed.

Lemma income_plan_sound (business_id : option string)
  (arguments : Arguments) (plan : Plan) :
  income_plan api business_id arguments = Ok (Proceed plan) ->
  truthy_opt business_id = true /\ plan_sound "Income" api plan.
Proof.
  unfold income_plan.
  destruct (truthy_opt business_id); cbn [negb]; [|discriminate].
  destruct (required arguments "amount") as [amount|]; [|discriminate].
  destruct (required arguments "date") as [date|]; [|discriminate].
  destruct (required arguments "payment_description")
    as [payment_description|]; [|discriminate].
  cbn [res_bind].
  destruct (lookup_party _ _) as [customer_id|]; [|discriminate].
  cbn [res_bind].
  destruct (get_accounts (api_accounts api)) as [accounts|] eqn:Eacc;
    [|discriminate].
  cbn [res_bind].
  destruct (engine_result (get_default arguments "income_category" "Sales")
              accounts "Income"
              (Some (get_default arguments "description" "" ++ " "
                     ++ payment_description)))
    as (matched & Hr & Hm).
  rewrite Hr. cbn [res_of_exc res_bind].
  destruct (truthy_opt (accountId matched)) eqn:Eid; cbn [negb];
    [|discriminate].
  destruct (get_anchor_accounts (api_anchor_accounts api))
    as [anchor_accounts|] eqn:Ean; [|discriminate].
  cbn [res_bind].
  destruct (nonempty anchor_accounts) eqn:Ene; cbn [negb]; [|discriminate].
  destruct (select_anchor _ _ anchor_accounts) as [[text|[id name]]|] eqn:Es;
    cbn [res_bind]; try discriminate.
  intros [= <-]. split; [reflexivity|].
  eapply plan_sound_intro; try eassumption; reflexivity.
Qed.

Lemma plan_call_sound (account_type : string) (business_id : option string)
  (plan : Plan) (call : TransactionCall) :
  truthy_opt business_id = true ->
  plan_sound account_type api plan ->
  call_business_id call = str_of_option business_id ->
  call_account_id call = str_of_option (plan_account_id plan) ->
  call_anchor_account_id call = plan_anchor_id plan ->
  call_sound account_type api call.
Proof.
  intros Hb (accounts & anchor_source & category_account & anchor_account
            & H1 & H2 & H3 & H4 & H5 & H6 & H7 & H8 & H9 & H10 & H11 & H12
            & H13 & H14 & H15) C1 C2 C3.
  exists accounts, anchor_source, category_account, anchor_account.
  rewrite C1, C2, C3, H6, H13. cbn [str_of_option].
  repeat split; try assumption.
  apply truthy_opt_Some in Hb. destruct Hb as (b & -> & Hne). exact Hne.
Qed.

(** X7: whenever [create_expense_from_receipt] gets as far as the call of
    [create_expense], a business is selected, the expense account passed is
    an account of the chart received that is not archived and that the
    engine's filter for "Expenses" lets through, the anchor account passed
    is a received account that is not archived and has an anchor type and
    subtype, and a requested payment account is the account used (same name
    up to case), so that the branch "but using default" of the reply (lines
    1056-1057) is never taken. *)
Theorem X7_expense_call_accounts (business_id : option string)
  (arguments : Arguments) (plan : Plan) :
  expense_plan api business_id arguments = Ok (Proceed plan) ->
  call_sound "Expenses" api (expense_call business_id plan)
  /\ create_expense_from_receipt api business_id arguments
     = (expense_result <~ api_create_expense api
                            (expense_call business_id plan) ;;
        expense_report plan expense_result)
  /\ (truthy_opt (requested_account plan) = true ->
      String.eqb (Py.lower (str_of_option (requested_account plan)))
        (Py.lower (plan_anchor_name plan)) = true).
Proof.
  intros H. destruct (expense_plan_sound _ _ _ H) as [Hb Hs].
  split; [|split].
  - now apply (plan_call_sound "Expenses" business_id plan).
  - unfold create_expense_from_receipt. rewrite H. reflexivity.
  - intros Hr. apply String.eqb_eq.
    destruct Hs as (? & ? & ? & ? & Hs). now apply Hs.
Qed.

(** X8: whenever [create_income_from_payment] gets as far as the call of
    [create_income], a business is selected, the income account passed is an
    account of the chart received that is not archived and that the engine's
    filter for "Income" lets through, the anchor account passed is a
    received account that is not archived and has an anchor type and
    subtype, and a requested deposit account is the account used (same name
    up to case), so that the branch "but using default" of the reply (lines
    1231-1232) is never taken. *)
Theorem X8_income_call_accounts (business_id : option string)
  (arguments : Arguments) (plan : Plan) :
  income_plan api business_id arguments = Ok (Proceed plan) ->
  call_sound "Income" api (income_call business_id plan)
  /\ create_income_from_payment api business_id arguments
     = (income_result <~ api_create_income api
                           (income_call business_id plan) ;;
        income_report plan income_result)
  /\ (truthy_opt (requested_account plan) = true ->
      String.eqb (Py.lower (str_of_option (requested_account plan)))
        (Py.lower (plan_anchor_name plan)) = true).
Proof.
  intros H. destruct (income_plan_sound _ _ _ H) as [Hb Hs].
  split; [|split].
  - now apply (plan_call_sound "Income" business_id plan).
  - unfold create_income_from_payment. rewrite H. reflexivity.
  - intros Hr. apply String.eqb_eq.
    destruct Hs as (? & ? & ? & ? & Hs). now apply Hs.
Qed.

(** Without an account whose type is "expenses" up to case and that is not
    archived, the engine's filter for "Expenses" is empty. *)
Lemma filter_expenses_empty (accounts : list Account) :
  (forall acc, In acc accounts -> isArchived acc = false ->
               Py.lower (acc_type acc) <> "expenses") ->
  filter_accounts "Expenses" accounts = [].
Proof.
  intros H. rewrite filter_accounts_cases.
  assert (H2 : strategy2 "Expenses" accounts = []).
  { unfold strategy2.
    destruct (filter _ accounts) as [|acc l] eqn:E; [reflexivity|exfalso].
    assert (Hin : In acc (filter
                            (fun acc =>
                               String.eqb (Py.lower (acc_type acc))
                                 (Py.lower "Expenses")
                               && negb (isArchived acc)) accounts))
      by (rewrite E; now left).
    apply filter_In in Hin. destruct Hin as [Hin Hb].
    apply andb_true_iff in Hb. destruct Hb as [Ht Ha].
    apply String.eqb_eq in Ht. apply negb_true_iff in Ha.
    exact (H acc Hin Ha Ht). }
  assert (H1 : strategy1 "Expenses" accounts = []).
  { unfold strategy1.
    destruct (filter _ accounts) as [|acc l] eqn:E; [reflexivity|exfalso].
    assert (Hin : In acc (filter
                            (fun acc =>
                               String.eqb (acc_type acc) "Expenses"
                               && negb (isArchived acc)) accounts))
      by (rewrite E; now left).
    apply filter_In in Hin. destruct Hin as [Hin Hb].
    apply andb_true_iff in Hb. destruct Hb as [Ht Ha].
    apply String.eqb_eq in Ht. apply negb_true_iff in Ha.
    apply (H acc Hin Ha). now rewrite Ht. }
  rewrite H1, H2. reflexivity.
Qed.

(** X9: [create_expense_from_receipt] answers "Error: No expense accounts
    found", without any creation, when the category given is the empty
    string, whatever the chart holds, and when no account that is not
    archived has the type "Expenses" up to case: accounts of the types
    "EXPENSE" and "COST_OF_GOODS_SOLD", which [get_expense_accounts] lists,
    are never used.  (A business is selected, the required arguments are
    given and the requests before the matching succeed.) *)
Theorem X9_expense_no_account_reply (business_id : option string)
  (arguments : Arguments) (amount date receipt_text : string)
  (vendor_id : option string) (accounts : list Account) :
  truthy_opt business_id = true ->
  arguments "amount" = Some amount ->
  arguments "date" = Some date ->
  arguments "receipt_text" = Some receipt_text ->
  lookup_party (arguments "vendor_name") (api_vendors api) = Ok vendor_id ->
  get_accounts (api_accounts api) = Ok accounts ->
  arguments "category" = Some ""
  \/ (forall acc, In acc accounts -> isArchived acc = false ->
                  Py.lower (acc_type acc) <> "expenses") ->
  create_expense_from_receipt api business_id arguments
  = Ok "Error: No expense accounts found".
Proof.
  intros Hb Ha Hd Hr Hv Hacc Hc.
  unfold create_expense_from_receipt, expense_plan, required, get_default.
  rewrite Hb, Ha, Hd, Hr. cbn [negb res_bind]. rewrite Hv. cbn [res_bind].
  rewrite Hacc. cbn [res_bind].
  assert (Hm : exists explanation,
             find_best_account_match
               match arguments "category" with
               | Some v => v
               | None => "General Expenses"
               end accounts "Expenses"
               (Some match arguments "description" with
                     | Some v => v
                     | None => ""
                     end)
             = Value (not_found explanation)).
  { destruct Hc as [Hc|Hc].
    - rewrite Hc, engine_empty_label. now eexists.
    - destruct (string_dec match arguments "category" with
                            | Some v => v
                            | None => "General Expenses"
                            end "") as [E|E].
      + rewrite E, engine_empty_label. now eexists.
      + rewrite engine_no_accounts;
          [now eexists | exact E | now apply filter_expenses_empty]. }
  destruct Hm as (explanation & ->). reflexivity.
Qed.

(** X10: [create_income_from_payment] answers "Error: No income accounts
    found", without any creation, when the income category given is the
    empty string, whatever the chart holds, and when the engine's filter for
    "Income" lets no account through.  (A business is selected, the required
    arguments are given and the requests before the matching succeed.) *)
Theorem X10_income_no_account_reply (business_id : option string)
  (arguments : Arguments) (amount date payment_description : string)
  (customer_id : option string) (accounts : list Account) :
  truthy_opt business_id = true ->
  arguments "amount" = Some amount ->
  arguments "date" = Some date ->
  arguments "payment_description" = Some payment_description ->
  lookup_party (arguments "customer_name") (api_customers api)
  = Ok customer_id ->
  get_accounts (api_accounts api) = Ok accounts ->
  arguments "income_category" = Some ""
  \/ filter_accounts "Income" accounts = [] ->
  create_income_from_payment api business_id arguments
  = Ok "Error: No income accounts found".
Proof.
  intros Hb Ha Hd Hr Hv Hacc Hc.
  unfold create_income_from_payment, income_plan, required, get_default.
  rewrite Hb, Ha, Hd, Hr. cbn [negb res_bind]. rewrite Hv. cbn [res_bind].
  rewrite Hacc. cbn [res_bind].
  match goal with
  | |- context [find_best_account_match ?c accounts "Income" ?x] =>
      assert (Hm : exists explanation,
                 find_best_account_match c accounts "Income" x
                 = Value (not_found explanation))
  end.
  { destruct Hc as [Hc|Hc].
    - rewrite Hc, engine_empty_label. now eexists.
    - destruct (string_dec match arguments "income_category" with
                            | Some v => v
                            | None => "Sales"
                            end "") as [E|E].
      + rewrite E, engine_empty_label. now eexists.
      + rewrite engine_no_accounts; [now eexists | exact E | exact Hc]. }
  destruct Hm as (explanation & ->). reflexivity.
Qed.

(** X15: a required argument that is missing ends
    [create_expense_from_receipt] before any request: the three required
    arguments are read in the order amount, date, receipt_text, the first
    one missing raises KeyError, and the reply of the tool is
    "Error: '<key>'", whatever the server would answer. *)
Theorem X15_expense_missing_argument (business_id : option string)
  (arguments : Arguments) (key : string) :
  truthy_opt business_id = true ->
  first_missing arguments ["amount"; "date"; "receipt_text"] = Some key ->
  create_expense_from_receipt api business_id arguments = Err (KeyError key)
  /\ reply_of (create_expense_from_receipt api business_id arguments)
     = "Error: '" ++ key ++ "'".
Proof.
  intros Hb Hk.
  assert (H : create_expense_from_receipt api business_id arguments
              = Err (KeyError key)).
  { unfold create_expense_from_receipt, expense_plan, required.
    rewrite Hb. cbn [negb]. unfold first_missing in Hk. cbn [find] in Hk.
    destruct (arguments "amount"); [|now injection Hk as <-].
    destruct (arguments "date"); [|now injection Hk as <-].
    destruct (arguments "receipt_text"); [discriminate|].
    now injection Hk as <-. }
  split; [exact H|]. rewrite H. reflexivity.
Qed.

(** X16: a required argument that is missing ends
    [create_income_from_payment] before any request: the three required
    arguments are read in the order amount, date, payment_description, the
    first one missing raises KeyError, and the reply of the tool is
    "Error: '<key>'", whatever the server would answer. *)
Theorem X16_income_missing_argument (business_id : option string)
  (arguments : Arguments) (key : string) :
  truthy_opt business_id = true ->
  first_missing arguments ["amount"; "date"; "payment_description"]
  = Some key ->
  create_income_from_payment api business_id arguments = Err (KeyError key)
  /\ reply_of (create_income_from_payment api business_id arguments)
     = "Error: '" ++ key ++ "'".
Proof.
  intros Hb Hk.
  assert (H : create_income_from_payment api business_id arguments
              = Err (KeyError key)).
  { unfold create_income_from_payment, income_plan, required.
    rewrite Hb. cbn [negb]. unfold first_missing in Hk. cbn [find] in Hk.
    destruct (arguments "amount"); [|now injection Hk as <-].
    destruct (arguments "date"); [|now injection Hk as <-].
    destruct (arguments "payment_description"); [discriminate|].
    now injection Hk as <-. }
  split; [exact H|]. rewrite H. reflexivity.
Qed.

End PlanFacts.

(** ** Branches of the engine that are never taken *)

(** X11: the prefix rule of stage 1 (lines 558-560, score 0.95) never
    decides: an account name that starts with the category contains it, so
    the substring rule in front of it returns at score 1.0; every hit of
    stage 1 has the score 1.0 or 0.92. *)
Theorem X11_prefix_rule_never_decides (user_category user_category_lower : string)
  (account : Account) :
  (Py.startswith (Py.lower (acc_name account)) user_category_lower = true ->
   stage1_test user_category user_category_lower account
   = Value (Some (found account 1.0%Q
                    ("Exact substring match: '" ++ user_category
                     ++ "' found in '" ++ acc_name account ++ "'"))))
  /\ forall r,
       stage1_test user_category user_category_lower account = Value (Some r) ->
       score r = 1.0%Q \/ score r = 0.92%Q.
Proof.
  split.
  - intros Hp. unfold stage1_test.
    now rewrite (contains_prefix _ _ Hp).
  - intros r. unfold stage1_test.
    destruct (Py.contains user_category_lower _) eqn:Ec.
    { intros [= <-]. now left. }
    destruct (Py.startswith _ user_category_lower) eqn:Ep.
    { apply contains_prefix in Ep. congruence. }
    destruct (Py.split _) as [|w0 ws]; [discriminate|]. cbn.
    destruct (Py.startswith user_category_lower w0); [|discriminate].
    intros [= <-]. now right.
Qed.

Lemma relevant_keywords_entry (user_category_lower : string)
  (synonyms : list (string * list string)) :
  relevant_keywords user_category_lower synonyms <> [] ->
  exists key synonym_list,
    relevant_keywords user_category_lower synonyms = key :: synonym_list
    /\ In (key, synonym_list) synonyms
    /\ related user_category_lower key synonym_list.
Proof.
  induction synonyms as [|[key synonym_list] rest IH]; [now intros H|].
  cbn [relevant_keywords].
  destruct (String.eqb user_category_lower key
            || Py.mem user_category_lower synonym_list) eqn:E.
  - intros _. exists key, synonym_list. split; [reflexivity|].
    split; [now left|]. apply orb_true_iff in E. destruct E as [E|E].
    + left. now apply String.eqb_eq.
    + right. now apply mem_In.
  - intros H. destruct (IH H) as (k & l & Hk & Hin & Hr).
    exists k, l. split; [exact Hk|]. split; [now right | exact Hr].
Qed.

(** X12: the keyword fallback of stage 3 (lines 638-646, score 0.5) never
    returns.  Stage 3 is entered only when stage 2 has not accepted; but an
    account whose name holds the key or a synonym of the entry of the
    category has been given 0.88 in stage 2, which accepts it. *)
Theorem X12_keyword_fallback_never_returns
  (synonyms : list (string * list string))
  (user_category user_category_lower : string)
  (filtered_accounts : list Account) :
  accept (stage2 synonyms user_category user_category_lower filtered_accounts)
  = None ->
  keyword_fallback user_category
    (relevant_keywords user_category_lower synonyms) filtered_accounts = None.
Proof.
  intros Hacc.
  destruct (keyword_fallback _ _ _) as [r|] eqn:Ek; [exfalso|reflexivity].
  unfold keyword_fallback in Ek.
  destruct (nonempty (relevant_keywords user_category_lower synonyms)) eqn:En;
    [|discriminate].
  apply nonempty_true in En.
  destruct (relevant_keywords_entry _ _ En)
    as (key & synonym_list & Hk & Hin & Hrel).
  apply first_hit_In in Ek. destruct Ek as (account & Ha & Ek).
  apply first_hit_In in Ek. destruct Ek as (keyword & Hkw & Ek).
  destruct (Py.contains keyword (Py.lower (acc_name account))) eqn:Ec;
    [|discriminate].
  rewrite Hk in Hkw.
  set (best := stage2 synonyms user_category user_category_lower
                 filtered_accounts) in *.
  assert (Hge : (0.88 <= best_score best)%Q).
  { apply (stage2_ge synonyms user_category user_category_lower
             filtered_accounts account (key, synonym_list));
      [exact Ha | exact Hin|].
    intros st. unfold synonym_step. apply block2_any_ge; [exact Hrel|].
    now exists keyword. }
  pose proof (stage2_ok synonyms user_category user_category_lower
                filtered_accounts) as Hok.
  fold best in Hok.
  destruct (best_ok_positive _ _ Hok) as (m & Hm & _).
  { eapply Qlt_le_trans; [|exact Hge]. reflexivity. }
  assert (accept best
          = Some (found m (best_score best) (best_explanation best))).
  { apply accept_Some. exists m. split; [exact Hm|]. split; [|reflexivity].
    eapply Qle_trans; [|exact Hge]. score_literal. }
  congruence.
Qed.

(** ** The range of the scores *)

Section RatioRange.

Variables a b : list N.

Lemma j2len_prev_in (blo bhi : nat) (j2len : list (nat * nat)) (j : nat) :
  j2len_in blo bhi j2len -> blo <= j ->
  blo + Difflib.j2len_prev j2len j <= j.
Proof.
  intros Hb Hj. destruct j as [|j']; simpl; [lia|].
  unfold Difflib.j2len_get.
  destruct (find (fun p => Nat.eqb (fst p) j') j2len) as [p|] eqn:E; [|lia].
  apply find_some in E. destruct E as [Hin Hp]. apply Nat.eqb_eq in Hp.
  unfold j2len_in in Hb. rewrite Forall_forall in Hb.
  destruct (Hb p Hin) as [H _]. lia.
Qed.

Lemma inner_loop_in_b (i blo bhi : nat) (j2len : list (nat * nat))
  (best : Difflib.block) (js : list nat) :
  j2len_in blo bhi j2len -> block_in_b blo bhi best ->
  j2len_in blo bhi (fst (Difflib.inner_loop i blo bhi j2len best js))
  /\ block_in_b blo bhi (snd (Difflib.inner_loop i blo bhi j2len best js)).
Proof.
  intros Hb Hbest. unfold Difflib.inner_loop.
  assert (H0 : j2len_in blo bhi (fst (@nil (nat * nat), best))
               /\ block_in_b blo bhi (snd (@nil (nat * nat), best)))
    by (split; [constructor | exact Hbest]).
  revert H0. generalize (@nil (nat * nat), best) as st.
  induction js as [|j js IH]; intros st H0; simpl; [exact H0|].
  apply IH. destruct st as [newj2len [[besti bestj] bestsize]].
  destruct H0 as [Hn Hbl]. cbn [fst snd] in Hn, Hbl.
  destruct (Nat.ltb j blo) eqn:E1; [now split|].
  destruct (Nat.leb bhi j) eqn:E2; [now split|].
  apply Nat.ltb_ge in E1. apply Nat.leb_gt in E2.
  pose proof (j2len_prev_in _ _ _ j Hb E1) as Hk.
  split; cbn [fst snd].
  - constructor; [cbn [fst snd]; lia | exact Hn].
  - cbv [block_in_b] in Hbl.
    destruct (Nat.ltb bestsize (Difflib.j2len_prev j2len j + 1));
      cbv [block_in_b]; lia.
Qed.

Lemma outer_loop_in_b (alo ahi blo bhi : nat) :
  blo <= bhi -> block_in_b blo bhi (Difflib.outer_loop a b alo ahi blo bhi).
Proof.
  intros Hle. unfold Difflib.outer_loop.
  assert (H : forall (rows : list nat) (st : list (nat * nat) * Difflib.block),
             j2len_in blo bhi (fst st) ->
             block_in_b blo bhi (snd st) ->
             block_in_b blo bhi
               (snd (fold_left
                       (fun (st : list (nat * nat) * Difflib.block) (i : nat) =>
                          let '(j2len, best) := st in
                          Difflib.inner_loop i blo bhi j2len best
                            (Difflib.b2j b (nth i a Difflib.zero_char)))
                       rows st))).
  { induction rows as [|i rows IH]; intros st Hb Hbl; simpl; [exact Hbl|].
    destruct st as [j2len best]. cbn [fst snd] in Hb, Hbl.
    destruct (inner_loop_in_b i blo bhi j2len best
                (Difflib.b2j b (nth i a Difflib.zero_char)) Hb Hbl)
      as [Hb' Hbl'].
    now apply IH. }
  apply H; cbn [fst snd]; [constructor|].
  cbv [block_in_b]. lia.
Qed.

Lemma extend_left_in_b (n alo blo bhi : nat) (best : Difflib.block) :
  block_in_b blo bhi best ->
  block_in_b blo bhi (Difflib.extend_left a b n alo blo best).
Proof.
  revert best. induction n as [|n IH]; intros [[besti bestj] bestsize] H;
    simpl; [exact H|].
  destruct (Nat.ltb alo besti); simpl; [|exact H].
  destruct (Nat.ltb blo bestj) eqn:E1; simpl; [|exact H].
  destruct (N.eqb _ _); [|exact H].
  apply IH. apply Nat.ltb_lt in E1. cbv [block_in_b] in *. lia.
Qed.

Lemma extend_right_in_b (n ahi blo bhi : nat) (best : Difflib.block) :
  block_in_b blo bhi best ->
  block_in_b blo bhi (Difflib.extend_right a b n ahi bhi best).
Proof.
  revert best. induction n as [|n IH]; intros [[besti bestj] bestsize] H;
    simpl; [exact H|].
  destruct (Nat.ltb (besti + bestsize) ahi); simpl; [|exact H].
  destruct (Nat.ltb (bestj + bestsize) bhi) eqn:E1; simpl; [|exact H].
  destruct (N.eqb _ _); [|exact H].
  apply IH. apply Nat.ltb_lt in E1. cbv [block_in_b] in *. lia.
Qed.

Lemma find_longest_match_in_b (alo ahi blo bhi : nat) :
  blo <= bhi ->
  block_in_b blo bhi (Difflib.find_longest_match a b alo ahi blo bhi).
Proof.
  intros Hle. unfold Difflib.find_longest_match.
  apply extend_right_in_b, extend_left_in_b, outer_loop_in_b, Hle.
Qed.

(** The matching blocks of a window lie side by side in both sequences:
    their sizes add up to no more than either window. *)
Lemma matches_le (fuel alo ahi blo bhi : nat) :
  alo <= ahi -> blo <= bhi ->
  Difflib.matches a b fuel alo ahi blo bhi <= ahi - alo
  /\ Difflib.matches a b fuel alo ahi blo bhi <= bhi - blo.
Proof.
  revert alo ahi blo bhi.
  induction fuel as [|fuel IH]; intros alo ahi blo bhi Ha Hb; simpl; [lia|].
  pose proof (find_longest_match_bounds a b alo ahi blo bhi Ha) as Hba.
  pose proof (find_longest_match_in_b alo ahi blo bhi Hb) as Hbb.
  destruct (Difflib.find_longest_match a b alo ahi blo bhi) as [[i j] k].
  cbv [block_in] in Hba. cbv [block_in_b] in Hbb.
  destruct (Nat.eqb k 0); [lia|].
  assert (Hl : (if Nat.ltb alo i && Nat.ltb blo j
                then Difflib.matches a b fuel alo i blo j else 0) <= i - alo
               /\ (if Nat.ltb alo i && Nat.ltb blo j
                   then Difflib.matches a b fuel alo i blo j else 0)
                  <= j - blo).
  { destruct (Nat.ltb alo i && Nat.ltb blo j); [apply IH; lia | lia]. }
  assert (Hr : (if Nat.ltb (i + k) ahi && Nat.ltb (j + k) bhi
                then Difflib.matches a b fuel (i + k) ahi (j + k) bhi else 0)
               <= ahi - (i + k)
               /\ (if Nat.ltb (i + k) ahi && Nat.ltb (j + k) bhi
                   then Difflib.matches a b fuel (i + k) ahi (j + k) bhi
                   else 0)
                  <= bhi - (j + k)).
  { destruct (Nat.ltb (i + k) ahi && Nat.ltb (j + k) bhi);
      [apply IH; lia | lia]. }
  lia.
Qed.

End RatioRange.

Lemma calculate_ratio_range (m len : nat) :
  2 * m <= len -> (0 <= Difflib.calculate_ratio m len <= 1)%Q.
Proof.
  intros H. unfold Difflib.calculate_ratio. destruct len as [|n].
  - split; apply Qle_bool_iff; reflexivity.
  - unfold Qle. cbn [Qnum Qden].
    assert (E : Z.pos (Pos.of_nat (S n)) = Z.of_nat (S n)).
    { rewrite <- positive_nat_Z, Nat2Pos.id by discriminate. reflexivity. }
    change (Qnum 0) with 0%Z. change (Qden 1) with 1%positive.
    change (Qnum 1) with 1%Z. change (Qden 0) with 1%positive.
    rewrite E. lia.
Qed.

(** [ratio()] lies between 0 and 1. *)
Lemma ratio_range (s t : string) : (0 <= Difflib.ratio s t <= 1)%Q.
Proof.
  unfold Difflib.ratio. apply calculate_ratio_range.
  destruct (matches_le (Unicode.points s) (Unicode.points t)
              (S (List.length (Unicode.points s)))
              0 (List.length (Unicode.points s))
              0 (List.length (Unicode.points t))) as [H1 H2]; lia.
Qed.

Lemma keeps_unit_id : keeps_unit (fun st => st).
Proof. intros st H. exact H. Qed.

Lemma keeps_unit_consider (account : Account) (s : Q) (e : string) :
  (s <= 1)%Q -> keeps_unit (consider account s e).
Proof.
  intros Hs st H. unfold consider. now destruct (Qgtb s (best_score st)).
Qed.

Lemma keeps_unit_comp (f g : Best -> Best) :
  keeps_unit f -> keeps_unit g -> keeps_unit (fun st => g (f st)).
Proof. intros Hf Hg st H. now apply Hg, Hf. Qed.

Lemma keeps_unit_fold {X : Type} (step : Best -> X -> Best) (xs : list X) :
  (forall x, keeps_unit (fun st => step st x)) ->
  keeps_unit (fun st => fold_left step xs st).
Proof.
  intros Hstep. induction xs as [|x xs IH]; intros st H; simpl; [exact H|].
  apply IH. now apply (Hstep x).
Qed.

Lemma keeps_unit_if (c : bool) (f : Best -> Best) :
  keeps_unit f -> keeps_unit (fun st => if c then f st else st).
Proof. intros Hf. destruct c; [exact Hf | apply keeps_unit_id]. Qed.

Lemma account_step_keeps_unit (synonyms : list (string * list string))
  (user_category user_category_lower : string) (account : Account) :
  keeps_unit
    (fun st => account_step synonyms user_category user_category_lower st account).
Proof.
  unfold account_step.
  apply (keeps_unit_comp
           (fun st => words_step user_category user_category_lower account
                        (direct_step user_category_lower account st))
           (fun st => fold_left _ synonyms st)).
  - apply (keeps_unit_comp (direct_step _ _) (words_step _ _ _)).
    + apply keeps_unit_consider, ratio_range.
    + unfold words_step. apply keeps_unit_fold. intros word.
      apply keeps_unit_consider, ratio_range.
  - apply keeps_unit_fold. intros [key synonym_list]. unfold synonym_step.
    apply (keeps_unit_comp (synonym_block1 _ _ _ _ _) (synonym_block2 _ _ _ _ _)).
    + unfold synonym_block1.
      destruct (String.eqb user_category_lower key || _);
        [|apply keeps_unit_id].
      apply (keeps_unit_comp
               (fun st => if Py.contains key (Py.lower (acc_name account))
                          then consider account 0.9%Q _ st else st)
               (fun st => fold_left _ synonym_list st)).
      * apply keeps_unit_if, keeps_unit_consider. score_literal.
      * apply keeps_unit_fold. intros synonym.
        apply keeps_unit_if, keeps_unit_consider. score_literal.
    + unfold synonym_block2.
      destruct (Py.mem user_category_lower _); [|apply keeps_unit_id].
      apply keeps_unit_fold. intros synonym.
      apply keeps_unit_if, keeps_unit_consider. score_literal.
Qed.

Lemma stage2_le_1 (synonyms : list (string * list string))
  (user_category user_category_lower : string)
  (filtered_accounts : list Account) :
  (best_score
     (stage2 synonyms user_category user_category_lower filtered_accounts)
   <= 1)%Q.
Proof.
  unfold stage2.
  apply (keeps_unit_fold (account_step synonyms user_category
                            user_category_lower) filtered_accounts).
  - intros account. apply account_step_keeps_unit.
  - score_literal.
Qed.

Lemma stage1_test_le_1 (user_category user_category_lower : string)
  (account : Account) (r : MatchResult) :
  stage1_test user_category user_category_lower account = Value (Some r) ->
  (score r <= 1)%Q.
Proof.
  unfold stage1_test.
  destruct (Py.contains _ _). { intros [= <-]. score_literal. }
  destruct (Py.startswith _ _). { intros [= <-]. score_literal. }
  destruct (Py.split _) as [|w0 ws]; [discriminate|]. simpl.
  destruct (Py.startswith _ _); [|discriminate].
  intros [= <-]. score_literal.
Qed.

Lemma stage3_le_1 (synonyms : list (string * list string))
  (user_category user_category_lower account_type : string)
  (best : Best) (filtered_accounts : list Account) (r : MatchResult) :
  (best_score best <= 1)%Q ->
  stage3 synonyms user_category user_category_lower account_type best
    filtered_accounts = Value r ->
  (score r <= 1)%Q.
Proof.
  intros Hb. unfold stage3. destruct (nonempty filtered_accounts).
  - destruct (low_confidence best filtered_accounts) as [r1|] eqn:E1.
    { intros [= <-]. apply low_confidence_Some in E1.
      destruct E1 as (m & _ & _ & ->). exact Hb. }
    destruct (keyword_fallback _ _ _) as [r2|] eqn:E2.
    { intros [= <-]. apply keyword_fallback_names in E2.
      destruct E2 as [_ ->]. score_literal. }
    destruct (rental_fallback _ _) as [r3|] eqn:E3.
    { intros [= <-]. apply rental_fallback_names in E3.
      destruct E3 as [_ ->]. score_literal. }
    unfold default_fallback.
    destruct (index filtered_accounts 0) as [first_account|e]; [|discriminate].
    cbn [bind]. intros [= <-]. score_literal.
  - intros [= <-]. score_literal.
Qed.

Section ScoreRange.

Context {set_order : SetOrder}.

Lemma match_pipeline_le_1 (user_category account_type : string)
  (user_context : option string) (filtered_accounts : list Account)
  (r : MatchResult) :
  match_pipeline user_category account_type user_context filtered_accounts
  = Value r ->
  (score r <= 1)%Q.
Proof.
  unfold match_pipeline.
  destruct (stage0 _ _ _) as [r0|] eqn:E0.
  { intros [= <-]. apply stage0_names in E0. destruct E0 as [_ ->].
    score_literal. }
  rewrite stage1_value. cbn [bind].
  destruct (first_hit _ _) as [r1|] eqn:E1.
  { intros [= <-]. apply first_hit_In in E1.
    destruct E1 as (account & _ & E1).
    apply (stage1_test_le_1 user_category
             (Py.strip (Py.lower user_category)) account).
    rewrite stage1_test_value. now rewrite E1. }
  destruct (accept _) as [r2|] eqn:E2.
  { intros [= <-]. apply accept_Some in E2. destruct E2 as (m & _ & _ & ->).
    apply stage2_le_1. }
  apply stage3_le_1, stage2_le_1.
Qed.

(** X13: the confidence score of every result lies between 0 and 1: the
    engine returns (it does not raise), and the score it returns, a constant
    of a rule or a similarity ratio of difflib, is at least 0 and at most
    1. *)
Theorem X13_score_between_0_and_1 (user_category : string)
  (accounts : list Account) (account_type : string)
  (user_context : option string) :
  exists r,
    find_best_account_match user_category accounts account_type user_context
    = Value r
    /\ (0 <= score r <= 1)%Q.
Proof.
  destruct (string_dec user_category "") as [->|Hc].
  { rewrite engine_empty_label. eexists. split; [reflexivity|].
    split; score_literal. }
  destruct (nonempty (filter_accounts account_type accounts)) eqn:Hf;
    [apply nonempty_true in Hf | apply nonempty_false in Hf]; cycle 1.
  { rewrite engine_no_accounts by assumption. eexists.
    split; [reflexivity|]. split; score_literal. }
  rewrite engine_pipeline by assumption.
  destruct (match_pipeline_names user_category account_type user_context _ Hf)
    as (r & Hr & acc & _ & _ & _ & Hs & _).
  exists r. split; [exact Hr|]. split.
  - eapply Qle_trans; [|exact Hs]. score_literal.
  - now apply match_pipeline_le_1 in Hr.
Qed.

End ScoreRange.

(** ** The iteration order of the set of numbers *)

Lemma stage0_None (account_type : string) (numbers : list string)
  (filtered_accounts : list Account) :
  stage0 account_type numbers filtered_accounts = None <->
  String.eqb account_type "Income" = false
  \/ forall number account,
       In number numbers -> In account filtered_accounts ->
       qualifies number account = false.
Proof.
  unfold stage0. destruct (String.eqb account_type "Income").
  - rewrite andb_true_r. destruct numbers as [|n0 numbers]; cbn [nonempty].
    + split; [|reflexivity]. intros _. right. intros number account [].
    + rewrite first_hit_None. split.
      * intros H. right. intros number account Hn Ha.
        apply stage0_test_None.
        exact (proj1 (first_hit_None _ _) (H number Hn) account Ha).
      * intros [H|H]; [discriminate|]. intros number Hn.
        apply first_hit_None. intros account Ha.
        apply stage0_test_None. now apply H.
  - rewrite andb_false_r. split; [now left | reflexivity].
Qed.

Lemma stage0_Some (account_type : string) (numbers : list string)
  (filtered_accounts : list Account) (r : MatchResult) :
  stage0 account_type numbers filtered_accounts = Some r ->
  account_type = "Income"
  /\ exists number account,
       In number numbers /\ In account filtered_accounts
       /\ qualifies number account = true
       /\ r = found account 0.98%Q
                ("Apartment-specific match: Found apartment " ++ number
                 ++ " in '" ++ acc_name account ++ "'").
Proof.
  unfold stage0. destruct (nonempty numbers); [|discriminate].
  destruct (String.eqb account_type "Income") eqn:E; [|discriminate].
  apply String.eqb_eq in E. cbn [andb]. intros H. split; [exact E|].
  apply first_hit_In in H. destruct H as (number & Hn & H).
  apply first_hit_In in H. destruct H as (account & Ha & H).
  apply stage0_test_Some in H. destruct H as [Hq ->].
  now exists number, account.
Qed.

(** X14: the order in which Python enumerates the set of extracted numbers
    can change the result in one way only: under two orders the engine
    returns the same result, or the class is "Income" and both results are
    apartment matches of stage 0 (score 0.98), each for a number of the text
    and a filtered account that qualify. *)
Theorem X14_set_order_matters_in_stage0_only (order1 order2 : SetOrder)
  (user_category : string) (accounts : list Account) (account_type : string)
  (user_context : option string) :
  let apartment_match (result : exc MatchResult) : Prop :=
    exists number account,
      In number (collect_matches number_patterns
                   (all_user_text user_category user_context))
      /\ In account (filter_accounts account_type accounts)
      /\ qualifies number account = true
      /\ result = Value (found account 0.98%Q
                           ("Apartment-specific match: Found apartment "
                            ++ number ++ " in '" ++ acc_name account ++ "'")) in
  let result1 :=
    @find_best_account_match order1 user_category accounts account_type
      user_context in
  let result2 :=
    @find_best_account_match order2 user_category accounts account_type
      user_context in
  result1 = result2
  \/ (account_type = "Income"
      /\ apartment_match result1 /\ apartment_match result2).
Proof.
  intros apartment_match result1 result2. subst result1 result2.
  unfold find_best_account_match.
  destruct (negb (Py.truthy user_category)); [now left|].
  destruct (negb (nonempty (filter_accounts account_type accounts)));
    [now left|].
  unfold match_pipeline, extract_numbers.
  set (numbers := collect_matches number_patterns
                    (all_user_text user_category user_context)).
  set (filtered_accounts := filter_accounts account_type accounts).
  destruct (stage0 account_type (@list_of_set order1 numbers)
              filtered_accounts) as [r1|] eqn:E1;
    destruct (stage0 account_type (@list_of_set order2 numbers)
                filtered_accounts) as [r2|] eqn:E2.
  - right. apply stage0_Some in E1, E2.
    destruct E1 as (Ht & n1 & a1 & Hn1 & Ha1 & Hq1 & ->).
    destruct E2 as (_ & n2 & a2 & Hn2 & Ha2 & Hq2 & ->).
    apply (proj1 (@list_of_set_In order1 _ _)) in Hn1.
    apply (proj1 (@list_of_set_In order2 _ _)) in Hn2.
    split; [exact Ht|]. split.
    + exists n1, a1. repeat split; assumption.
    + exists n2, a2. repeat split; assumption.
  - exfalso. apply stage0_Some in E1.
    destruct E1 as (Ht & n1 & a1 & Hn1 & Ha1 & Hq1 & _).
    apply stage0_None in E2. destruct E2 as [E2|E2].
    + rewrite Ht in E2. discriminate.
    + apply (proj1 (@list_of_set_In order1 _ _)) in Hn1.
      rewrite (E2 n1 a1) in Hq1; [discriminate| |exact Ha1].
      now apply (proj2 (@list_of_set_In order2 _ _)).
  - exfalso. apply stage0_Some in E2.
    destruct E2 as (Ht & n2 & a2 & Hn2 & Ha2 & Hq2 & _).
    apply stage0_None in E1. destruct E1 as [E1|E1].
    + rewrite Ht in E1. discriminate.
    + apply (proj1 (@list_of_set_In order2 _ _)) in Hn2.
      rewrite (E1 n2 a2) in Hq2; [discriminate| |exact Ha2].
      now apply (proj2 (@list_of_set_In order1 _ _)).
  - now left.
Qed.

(** ** The properties of the tool layer on the sample requests *)

Lemma X1_get_accounts_at_most_20_pages_witness :
  get_accounts_loop (fun page => Ok (page_response sample_chart 2 page))
    (20 + 5) 1%Z []
  = get_accounts (fun page => Ok (page_response sample_chart 2 page))
  /\ get_accounts (fun page => Ok (page_response sample_chart 2 page))
     = get_accounts bounded_server.
Proof.
  apply (X1_get_accounts_at_most_20_pages
           (fun page => Ok (page_response sample_chart 2 page))
           bounded_server 5).
  intros p Hp. unfold bounded_server.
  destruct (Z.gtb_spec p 20); [lia | reflexivity].
Defined.

Lemma X2_get_accounts_pages_witness :
  get_accounts (fun page => Ok (page_response sample_chart 2 page))
  = Ok (pages_from sample_chart 1 (Z.to_nat (Z.min (Z.max 2 1) 20))).
Proof.
  apply (X2_get_accounts_pages
           (fun page => Ok (page_response sample_chart 2 page))
           sample_chart 2).
  intros p _. reflexivity.
Defined.

Lemma X3_get_accounts_request_error_witness :
  get_accounts failing_server
  = Err (RequestError "Wave API request failed: HTTP 502").
Proof.
  apply (X3_get_accounts_request_error failing_server sample_chart 3 2).
  - lia.
  - lia.
  - intros p Hp. assert (p = 1%Z) as -> by lia. reflexivity.
  - reflexivity.
Defined.

Lemma X4_decode_business_id_roundtrip_witness :
  decode_business_id
    (encode_business_id "7f3c2a10-5b1e-4c6d-9a57-0d2f6f3e1b42")
  = "7f3c2a10-5b1e-4c6d-9a57-0d2f6f3e1b42".
Proof.
  apply (X4_decode_business_id_roundtrip
           "7f3c2a10-5b1e-4c6d-9a57-0d2f6f3e1b42").
  vm_compute. reflexivity.
Defined.

Lemma X6_select_anchor_witness :
  match select_anchor (Some "checking") "not found"
          [bank_account "Savings"; bank_account "Checking"] with
  | Ok (Proceed (anchor_account_id, anchor_account_name)) =>
      exists account,
        In account [bank_account "Savings"; bank_account "Checking"]
        /\ anchor_account_id = acc_id account
        /\ anchor_account_name = acc_name account
        /\ (if truthy_opt (Some "checking") then
              find_anchor (str_of_option (Some "checking"))
                [bank_account "Savings"; bank_account "Checking"]
              = Some account
              /\ Py.lower (acc_name account)
                 = Py.lower (str_of_option (Some "checking"))
              /\ acc_id account <> ""
            else nth_error [bank_account "Savings"; bank_account "Checking"] 0
                 = Some account)
  | Ok (Reply text) =>
      text = "not found"
      /\ truthy_opt (Some "checking") = true
      /\ forall account,
           find_anchor (str_of_option (Some "checking"))
             [bank_account "Savings"; bank_account "Checking"]
           = Some account -> acc_id account = ""
  | Err _ => False
  end.
Proof.
  apply (X6_select_anchor (Some "checking") "not found"
           [bank_account "Savings"; bank_account "Checking"]).
  discriminate.
Defined.

Lemma X7_expense_call_accounts_witness :
  expense_plan (sample_api sample_chart 2) sample_business expense_arguments
  = Ok (Proceed sample_expense_plan)
  /\ call_sound "Expenses" (sample_api sample_chart 2)
       (expense_call sample_business sample_expense_plan)
  /\ create_expense_from_receipt (sample_api sample_chart 2) sample_business
       expense_arguments
     = (expense_result <~ api_create_expense (sample_api sample_chart 2)
                            (expense_call sample_business sample_expense_plan) ;;
        expense_report sample_expense_plan expense_result)
  /\ (truthy_opt (requested_account sample_expense_plan) = true ->
      String.eqb
        (Py.lower (str_of_option (requested_account sample_expense_plan)))
        (Py.lower (plan_anchor_name sample_expense_plan)) = true).
Proof.
  split; [vm_compute; reflexivity|].
  apply (@X7_expense_call_accounts list_order (sample_api sample_chart 2)
           sample_business expense_arguments sample_expense_plan).
  vm_compute. reflexivity.
Defined.

Lemma X8_income_call_accounts_witness :
  income_plan (sample_api sample_chart 2) sample_business income_arguments
  = Ok (Proceed sample_income_plan)
  /\ call_sound "Income" (sample_api sample_chart 2)
       (income_call sample_business sample_income_plan)
  /\ create_income_from_payment (sample_api sample_chart 2) sample_business
       income_arguments
     = (income_result <~ api_create_income (sample_api sample_chart 2)
                           (income_call sample_business sample_income_plan) ;;
        income_report sample_income_plan income_result)
  /\ (truthy_opt (requested_account sample_income_plan) = true ->
      String.eqb
        (Py.lower (str_of_option (requested_account sample_income_plan)))
        (Py.lower (plan_anchor_name sample_income_plan)) = true).
Proof.
  split; [vm_compute; reflexivity|].
  apply (@X8_income_call_accounts list_order (sample_api sample_chart 2)
           sample_business income_arguments sample_income_plan).
  vm_compute. reflexivity.
Defined.

Lemma X9_expense_no_account_reply_witness :
  create_expense_from_receipt (sample_api other_chart 1) sample_business
    expense_arguments
  = Ok "Error: No expense accounts found".
Proof.
  apply (@X9_expense_no_account_reply list_order (sample_api other_chart 1)
           sample_business expense_arguments "12.50" "2024-01-31"
           "Lunch with a client" (Some "Vendor:1") (other_chart 1)).
  - reflexivity.
  - reflexivity.
  - reflexivity.
  - reflexivity.
  - vm_compute. reflexivity.
  - vm_compute. reflexivity.
  - right. intros acc [<-|[<-|[]]] _; vm_compute; discriminate.
Defined.

Lemma X10_income_no_account_reply_witness :
  create_income_from_payment (sample_api other_chart 1) sample_business
    income_arguments
  = Ok "Error: No income accounts found".
Proof.
  apply (@X10_income_no_account_reply list_order (sample_api other_chart 1)
           sample_business income_arguments "900.00" "2024-02-01"
           "Invoice 17" (Some "Customer:1") (other_chart 1)).
  - reflexivity.
  - reflexivity.
  - reflexivity.
  - reflexivity.
  - vm_compute. reflexivity.
  - vm_compute. reflexivity.
  - right. vm_compute. reflexivity.
Defined.

Lemma X12_keyword_fallback_never_returns_witness :
  keyword_fallback "food" (relevant_keywords "food" EXPENSE_SYNONYMS)
    [expense_account "Bank Fees"; expense_account "Payroll"]
  = None.
Proof.
  apply (X12_keyword_fallback_never_returns EXPENSE_SYNONYMS "food"
           "food" [expense_account "Bank Fees"; expense_account "Payroll"]).
  vm_compute. reflexivity.
Defined.

Lemma X15_expense_missing_argument_witness :
  create_expense_from_receipt (sample_api sample_chart 2) sample_business
    (arguments_of [("amount", "12.50"); ("receipt_text", "Lunch")])
  = Err (KeyError "date")
  /\ reply_of
       (create_expense_from_receipt (sample_api sample_chart 2)
          sample_business
          (arguments_of [("amount", "12.50"); ("receipt_text", "Lunch")]))
     = "Error: '" ++ "date" ++ "'".
Proof.
  apply (@X15_expense_missing_argument list_order (sample_api sample_chart 2)
           sample_business
           (arguments_of [("amount", "12.50"); ("receipt_text", "Lunch")])
           "date").
  - reflexivity.
  - reflexivity.
Defined.

Lemma X16_income_missing_argument_witness :
  create_income_from_payment (sample_api sample_chart 2) sample_business
    (arguments_of [("amount", "900.00"); ("date", "2024-02-01")])
  = Err (KeyError "payment_description")
  /\ reply_of
       (create_income_from_payment (sample_api sample_chart 2)
          sample_business
          (arguments_of [("amount", "900.00"); ("date", "2024-02-01")]))
     = "Error: '" ++ "payment_description" ++ "'".
Proof.
  apply (@X16_income_missing_argument list_order (sample_api sample_chart 2)
           sample_business
           (arguments_of [("amount", "900.00"); ("date", "2024-02-01")])
           "payment_description").
  - reflexivity.
  - reflexivity.
Defined.
